(** * Nova4k launcher core: manifest loading, rule evaluation, artifact
      acquisition and launch-plan construction.

    A shallow embedding of the backend methods of [NovaClientApp]
    (src/Nova4k.py) and the proofs of the properties stated about them.

    Modelling conventions.
    - Parsed JSON documents are values of [json]; a Python [dict] obtained
      from [json.load] is an association list in insertion order, read
      with [assoc] (first binding).  Numbers are integers; floating-point
      numbers are outside the model.  Text is [string], one character per
      byte.
    - A Python exception is the result [Raise]; every handler of the source
      is [except Exception] (or a [KeyError] handler followed by one with
      the same body), so exception classes are not distinguished.
    - The file system is a finite map from paths to nodes (a regular file
      with its bytes, or a directory standing where a file is expected);
      the network is a function from URLs to an optional body, and every
      request is recorded in a log.  The directory tree itself is not
      tracked: [os.makedirs(..., exist_ok=True)] is taken to succeed and to
      change no file.
    - The platform, the paths, the network, the JSON and zip codecs and the
      outcome of probing for Java are the fields of a [host], so that every
      statement holds for all of them. *)

From Stdlib Require Import ZArith String Ascii List Bool Lia DecimalString.
From Stdlib.Strings Require Import Byte.
From stdpp Require Import base option list gmap strings.
Import ListNotations.
Set Warnings "-register-all".
Set Warnings "-abstract-large-number".
Local Open Scope string_scope.
Local Open Scope list_scope.

(** ** Results of computations that may raise *)

Inductive res (A : Type) : Type :=
| Ret (a : A)
| Raise.
Arguments Ret {A} a.
Arguments Raise {A}.

Definition bind {A B : Type} (c : res A) (k : A -> res B) : res B :=
  match c with
  | Ret a => k a
  | Raise => Raise
  end.

Declare Scope res_scope.
Delimit Scope res_scope with res.
Notation "x <- c ;; k" := (bind c (fun x => k))
  (at level 100, c at next level, right associativity) : res_scope.
Local Open Scope res_scope.

(** ** JSON values as Python sees them *)

Inductive json : Type :=
| JNull
| JBool (b : bool)
| JNum (n : Z)
| JStr (s : string)
| JArr (items : list json)
| JObj (fields : list (string * json)).

Fixpoint assoc (k : string) (m : list (string * json)) : option json :=
  match m with
  | [] => None
  | (k', v) :: m' => if String.eqb k k' then Some v else assoc k m'
  end.

(** [needle in hay] for two Python strings. *)
Fixpoint str_contains (needle hay : string) : bool :=
  String.prefix needle hay ||
  match hay with
  | EmptyString => false
  | String _ hay' => str_contains needle hay'
  end.

(** [j == s] where [s] is a [str]. *)
Definition json_eq_str (j : json) (s : string) : bool :=
  match j with
  | JStr s' => String.eqb s' s
  | _ => false
  end.

(** [j is None] *)
Definition is_none (j : json) : bool :=
  match j with
  | JNull => true
  | _ => false
  end.

(** [isinstance(j, dict)], [isinstance(j, list)], [isinstance(j, str)] *)
Definition is_dict (j : json) : bool :=
  match j with
  | JObj _ => true
  | _ => false
  end.

Definition is_list (j : json) : bool :=
  match j with
  | JArr _ => true
  | _ => false
  end.

Definition is_str (j : json) : bool :=
  match j with
  | JStr _ => true
  | _ => false
  end.

(** Truth value of [j] in a condition. *)
Definition truthy (j : json) : bool :=
  match j with
  | JNull => false
  | JBool b => b
  | JNum n => negb (Z.eqb n 0)
  | JStr s => negb (String.eqb s "")
  | JArr l => match l with [] => false | _ => true end
  | JObj m => match m with [] => false | _ => true end
  end.

(** [k in j]: key test on a dict, membership on a list, substring test on
    a string, [TypeError] on the rest. *)
Definition py_in (k : string) (j : json) : res bool :=
  match j with
  | JObj m => Ret (match assoc k m with Some _ => true | None => false end)
  | JArr l => Ret (existsb (fun x => json_eq_str x k) l)
  | JStr s => Ret (str_contains k s)
  | _ => Raise
  end.

(** [j[k]] with a string subscript: [KeyError] on a missing key,
    [TypeError] on anything that is not a dict. *)
Definition py_getitem (j : json) (k : string) : res json :=
  match j with
  | JObj m => match assoc k m with Some v => Ret v | None => Raise end
  | _ => Raise
  end.

(** [j.get(k, d)]: only dicts have the method. *)
Definition py_get (j : json) (k : string) (d : json) : res json :=
  match j with
  | JObj m => Ret (match assoc k m with Some v => v | None => d end)
  | _ => Raise
  end.

Fixpoint chars (s : string) : list json :=
  match s with
  | EmptyString => []
  | String c s' => JStr (String c EmptyString) :: chars s'
  end.

(** The sequence a [for] loop runs over. *)
Definition py_iter (j : json) : res (list json) :=
  match j with
  | JArr l => Ret l
  | JObj m => Ret (map (fun kv => JStr (fst kv)) m)
  | JStr s => Ret (chars s)
  | _ => Raise
  end.

(** ** Rule evaluator *)

(** The test [os_info is None], else
    [isinstance(os_info, dict) and os_info.get("name") == current_os]. *)
Definition os_match (os_info : json) (current_os : string) : bool :=
  match os_info with
  | JNull => true
  | JObj m =>
      match assoc "name" m with
      | Some n => json_eq_str n current_os
      | None => false
      end
  | _ => false
  end.

(** The loop of [is_library_allowed]; [allow] is the running flag. *)
Fixpoint library_rules_loop (rules : list json) (current_os : string)
    (allow : bool) : res bool :=
  match rules with
  | [] => Ret allow
  | rule :: rest =>
      action <- py_get rule "action" JNull ;;
      os_info <- py_get rule "os" JNull ;;
      has_features <- py_in "features" rule ;;
      if has_features : bool then library_rules_loop rest current_os allow
      else if os_match os_info current_os then
        if json_eq_str action "allow" then
          library_rules_loop rest current_os true
        else if json_eq_str action "disallow" then Ret false
        else library_rules_loop rest current_os allow
      else library_rules_loop rest current_os allow
  end.

Definition is_library_allowed (lib : json) (current_os : string) : res bool :=
  has_rules <- py_in "rules" lib ;;
  if has_rules : bool then
    rules_v <- py_getitem lib "rules" ;;
    rules <- py_iter rules_v ;;
    library_rules_loop rules current_os false
  else Ret true.

(** The loop of [evaluate_rules]. *)
Fixpoint argument_rules_loop (rules : list json) (current_os : string)
    (allow : bool) : res bool :=
  match rules with
  | [] => Ret allow
  | rule :: rest =>
      action <- py_get rule "action" JNull ;;
      os_info <- py_get rule "os" JNull ;;
      features_info <- py_get rule "features" JNull ;;
      if negb (is_none features_info) then
        argument_rules_loop rest current_os allow
      else if os_match os_info current_os then
        if json_eq_str action "allow" then
          argument_rules_loop rest current_os true
        else if json_eq_str action "disallow" then Ret false
        else argument_rules_loop rest current_os allow
      else argument_rules_loop rest current_os allow
  end.

Definition evaluate_rules (rules : json) (current_os : string) : res bool :=
  match rules with
  | JArr [] => Ret true
  | JArr l => argument_rules_loop l current_os false
  | _ => Ret true
  end.

(** The expansion loop shared, statement for statement, by the runtime
    ("jvm") and the program ("game") argument lists of
    [build_launch_command]. *)
Fixpoint expand_arguments (args : list json) (current_os : string)
    : res (list json) :=
  match args with
  | [] => Ret []
  | arg :: rest =>
      here <-
        match arg with
        | JStr _ => Ret [arg]
        | JObj m =>
            match assoc "rules" m, assoc "value" m with
            | Some rules, Some value =>
                ok <- evaluate_rules rules current_os ;;
                if ok : bool then
                  match value with
                  | JArr vs => Ret vs
                  | _ => Ret [value]
                  end
                else Ret []
            | _, _ => Ret []
            end
        | _ => Ret []
        end ;;
      more <- expand_arguments rest current_os ;;
      Ret (here ++ more)
  end.

(** ** Content verifier *)

(** *** SHA-1 ([hashlib.sha1]) on 32-bit words held in [Z] *)

Definition w32 (x : Z) : Z := Z.land x 4294967295%Z.

Definition add32 (a b : Z) : Z := w32 (a + b)%Z.

Definition rotl32 (n x : Z) : Z :=
  w32 (Z.lor (Z.shiftl x n) (Z.shiftr (w32 x) (32 - n)%Z)).

Definition byte_val (b : byte) : Z := Z.of_N (Byte.to_N b).

(** Big-endian bytes of [x], [n] of them. *)
Fixpoint be_bytes (n : nat) (x : Z) : list Z :=
  match n with
  | O => []
  | S n' => be_bytes n' (Z.shiftr x 8%Z) ++ [Z.land x 255%Z]
  end.

(** The message followed by the bit 1, zero bits up to 56 modulo 64 bytes,
    and the bit length on 64 bits. *)
Definition sha1_pad (msg : list Z) : list Z :=
  let len := Z.of_nat (length msg) in
  let zeros := Z.to_nat ((55 - len) mod 64)%Z in
  msg ++ [128%Z] ++ repeat 0%Z zeros ++ be_bytes 8 (8 * len)%Z.

Fixpoint be_words (fuel : nat) (bs : list Z) : list Z :=
  match fuel, bs with
  | S f, b0 :: b1 :: b2 :: b3 :: rest =>
      (b0 * 16777216 + b1 * 65536 + b2 * 256 + b3)%Z :: be_words f rest
  | _, _ => []
  end.

(** The message schedule, most recent word first. *)
Fixpoint sha1_schedule (n : nat) (ws : list Z) : list Z :=
  match n with
  | O => ws
  | S n' =>
      let w :=
        rotl32 1%Z (Z.lxor (Z.lxor (nth 2 ws 0%Z) (nth 7 ws 0%Z))
                         (Z.lxor (nth 13 ws 0%Z) (nth 15 ws 0%Z))) in
      sha1_schedule n' (w :: ws)
  end.

Definition sha1_f (t : nat) (b c d : Z) : Z :=
  if (t <? 20)%nat then Z.lor (Z.land b c) (Z.land (w32 (Z.lnot b)) d)
  else if (t <? 40)%nat then Z.lxor (Z.lxor b c) d
  else if (t <? 60)%nat then
    Z.lor (Z.lor (Z.land b c) (Z.land b d)) (Z.land c d)
  else Z.lxor (Z.lxor b c) d.

Definition sha1_k (t : nat) : Z :=
  if (t <? 20)%nat then 1518500249%Z
  else if (t <? 40)%nat then 1859775393%Z
  else if (t <? 60)%nat then 2400959708%Z
  else 3395469782%Z.

Definition sha1_vars : Type := (Z * Z * Z * Z * Z)%type.

Fixpoint sha1_rounds (t : nat) (ws : list Z) (v : sha1_vars) : sha1_vars :=
  match ws with
  | [] => v
  | w :: ws' =>
      let '(a, b, c, d, e) := v in
      let tmp :=
        add32 (add32 (add32 (add32 (rotl32 5%Z a) (sha1_f t b c d)) e)
                     (sha1_k t)) w in
      sha1_rounds (S t) ws' (tmp, a, rotl32 30%Z b, c, d)
  end.

Definition sha1_block (h : sha1_vars) (block : list Z) : sha1_vars :=
  let ws := rev (sha1_schedule 64 (rev (be_words 16 block))) in
  let '(h0, h1, h2, h3, h4) := h in
  let '(a, b, c, d, e) := sha1_rounds 0 ws h in
  (add32 h0 a, add32 h1 b, add32 h2 c, add32 h3 d, add32 h4 e).

Fixpoint sha1_blocks (fuel : nat) (h : sha1_vars) (bs : list Z) : sha1_vars :=
  match fuel, bs with
  | S f, _ :: _ => sha1_blocks f (sha1_block h (firstn 64 bs)) (skipn 64 bs)
  | _, _ => h
  end.

Definition sha1_init : sha1_vars :=
  (1732584193, 4023233417, 2562383102, 271733878, 3285377520)%Z.

Definition sha1 (msg : list byte) : sha1_vars :=
  let padded := sha1_pad (map byte_val msg) in
  sha1_blocks (length padded) sha1_init padded.

Definition hex_digit (x : Z) : ascii :=
  match x with
  | 0 => "0" | 1 => "1" | 2 => "2" | 3 => "3" | 4 => "4" | 5 => "5"
  | 6 => "6" | 7 => "7" | 8 => "8" | 9 => "9" | 10 => "a" | 11 => "b"
  | 12 => "c" | 13 => "d" | 14 => "e" | _ => "f"
  end%Z%char.

Fixpoint hex_word (n : nat) (x : Z) (acc : string) : string :=
  match n with
  | O => acc
  | S n' =>
      hex_word n' (Z.shiftr x 4%Z) (String (hex_digit (Z.land x 15%Z)) acc)
  end.

(** [hashlib.sha1(msg).hexdigest()]: forty lowercase hexadecimal digits. *)
Definition sha1_hex (msg : list byte) : string :=
  let '(h0, h1, h2, h3, h4) := sha1 msg in
  hex_word 8 h0 (hex_word 8 h1 (hex_word 8 h2 (hex_word 8 h3
    (hex_word 8 h4 "")))).

(** *** The file system and [verify_file] *)

Inductive node : Type :=
| File (data : list byte)
| Dir.

(** The chunks returned by successive [f.read(chunk_size)] until the empty
    chunk ends the [while] loop. *)
Fixpoint read_chunks (fuel chunk_size : nat) (data : list byte)
    : list (list byte) :=
  match fuel with
  | O => []
  | S f =>
      match firstn chunk_size data with
      | [] => []
      | chunk => chunk :: read_chunks f chunk_size (skipn chunk_size data)
      end
  end.

(** A [hashlib] object is the bytes fed to it so far. *)
Definition hash_update (file_hash chunk : list byte) : list byte :=
  file_hash ++ chunk.

Definition hash_hexdigest (file_hash : list byte) : string :=
  sha1_hex file_hash.

Definition chunk_size : nat := 4096.

(** [verify_file]: [False] for a missing path, [False] from the handler
    when [open] raises (a directory), else the comparison of the digest with
    [expected_sha1] by [==]. *)
Definition verify_file (fs : gmap string node) (file_path : string)
    (expected_sha1 : json) : bool :=
  match fs !! file_path with
  | None => false
  | Some Dir => false
  | Some (File data) =>
      let file_hash :=
        fold_left hash_update
          (read_chunks (S (length data)) chunk_size data) [] in
      json_eq_str expected_sha1 (hash_hexdigest file_hash)
  end.

Definition bytes_of (s : string) : list byte := list_byte_of_string s.


(** ** Python string operations used by the launcher *)

Fixpoint intersperse_after (new s : string) : string :=
  match s with
  | EmptyString => EmptyString
  | String c s' => String c (new ++ intersperse_after new s')
  end.

(** The left-to-right scan of [str.replace]: [skip] counts the characters
    of a match that are still to be dropped. *)
Fixpoint replace_scan (old new : string) (skip : nat) (s : string) : string :=
  match s with
  | EmptyString => EmptyString
  | String c s' =>
      match skip with
      | S k => replace_scan old new k s'
      | O =>
          if String.prefix old s
          then new ++ replace_scan old new (String.length old - 1) s'
          else String c (replace_scan old new 0 s')
      end
  end.

(** [s.replace(old, new)]: every non-overlapping occurrence, leftmost
    first. *)
Definition str_replace (old new s : string) : string :=
  if String.eqb old "" then new ++ intersperse_after new s
  else replace_scan old new 0 s.

Definition lower_char (c : ascii) : ascii :=
  let n := nat_of_ascii c in
  if ((65 <=? n) && (n <=? 90))%nat then ascii_of_nat (n + 32) else c.

(** [s.lower()] *)
Fixpoint str_lower (s : string) : string :=
  match s with
  | EmptyString => EmptyString
  | String c s' => String (lower_char c) (str_lower s')
  end.

(** [sep.join(parts)] *)
Fixpoint str_join (sep : string) (parts : list string) : string :=
  match parts with
  | [] => ""
  | [p] => p
  | p :: rest => p ++ sep ++ str_join sep rest
  end.

(** [s.split(sep)[-1]] for a one-character separator: the text after the
    last separator. *)
Fixpoint last_field (sep : ascii) (s : string) (acc : string) : string :=
  match s with
  | EmptyString => acc
  | String c s' =>
      if Ascii.eqb c sep then last_field sep s' ""
      else last_field sep s' (acc ++ String c "")
  end.

(** [str.isspace] on the characters below 256. *)
Definition is_space (c : ascii) : bool :=
  let n := nat_of_ascii c in
  ((n =? 32) || ((9 <=? n) && (n <=? 13)) || ((28 <=? n) && (n <=? 31))
   || (n =? 133) || (n =? 160))%nat.

(** [s.split()]: the maximal runs of non-whitespace characters. *)
Fixpoint split_ws (s : string) (word : string) : list string :=
  match s with
  | EmptyString => if String.eqb word "" then [] else [word]
  | String c s' =>
      if is_space c then
        (if String.eqb word "" then [] else [word]) ++ split_ws s' ""
      else split_ws s' (word ++ String c "")
  end.

(** [str(n)] for an [int]. *)
Definition str_of_int (n : Z) : string :=
  NilZero.string_of_int (Z.to_int n).

(** ** Manifest loader *)

(** [self.version_categories]: a dict created with these six keys, whose
    values only are ever reassigned. *)
Record categories : Type := {
  latest_release : list json;
  latest_snapshot : list json;
  release : list json;
  snapshot : list json;
  old_beta : list json;
  old_alpha : list json
}.

(** [self.versions] and [self.version_categories]. *)
Record app : Type := {
  versions : list (json * json);
  version_categories : categories
}.

Definition no_categories : categories :=
  {| latest_release := []; latest_snapshot := []; release := [];
     snapshot := []; old_beta := []; old_alpha := [] |}.

(** Values that can be dict keys. *)
Definition hashable (j : json) : bool :=
  match j with
  | JArr _ | JObj _ => false
  | _ => true
  end.

Definition num_val (j : json) : option Z :=
  match j with
  | JNum n => Some n
  | JBool b => Some (if b then 1 else 0)%Z
  | _ => None
  end.

(** [a == b] when [a] is hashable ([True == 1] holds in Python). *)
Definition scalar_eq (a b : json) : bool :=
  match a, b with
  | JNull, JNull => true
  | JStr x, JStr y => String.eqb x y
  | _, _ =>
      match num_val a, num_val b with
      | Some x, Some y => Z.eqb x y
      | _, _ => false
      end
  end.

(** [d[k] = v] on a dict with hashable keys. *)
Fixpoint dict_set (k v : json) (d : list (json * json)) : list (json * json) :=
  match d with
  | [] => [(k, v)]
  | (k', v') :: d' =>
      if scalar_eq k k' then (k', v) :: d' else (k', v') :: dict_set k v d'
  end.

(** [a < b] between two identifiers: defined between two strings and
    between two numbers, [TypeError] otherwise. *)
Definition py_lt (a b : json) : res bool :=
  match a, b with
  | JStr x, JStr y => Ret (String.ltb x y)
  | _, _ =>
      match num_val a, num_val b with
      | Some x, Some y => Ret (Z.ltb x y)
      | _, _ => Raise
      end
  end.

Fixpoint insert_desc (x : json) (sorted : list json) : res (list json) :=
  match sorted with
  | [] => Ret [x]
  | y :: rest =>
      lt <- py_lt x y ;;
      if lt : bool then (rest' <- insert_desc x rest ;; Ret (y :: rest'))
      else Ret (x :: sorted)
  end.

(** [l.sort(reverse=True)]: descending, equal elements in their original
    order. *)
Fixpoint sort_reverse (l : list json) : res (list json) :=
  match l with
  | [] => Ret []
  | x :: rest => sorted <- sort_reverse rest ;; insert_desc x sorted
  end.

(** The body of the loop over [manifest["versions"]]. *)
Definition classify (latest_release_id latest_snapshot_id v : json)
    (st : app) : app * res unit :=
  match (url <- py_getitem v "url" ;; id <- py_getitem v "id" ;;
         if hashable id then Ret (id, url) else Raise) with
  | Raise => (st, Raise)
  | Ret (id, url) =>
      let vs := dict_set id url (versions st) in
      let c := version_categories st in
      let put c' := ({| versions := vs; version_categories := c' |}, Ret tt) in
      if scalar_eq id latest_release_id then
        put {| latest_release := latest_release c ++ [id];
               latest_snapshot := latest_snapshot c; release := release c;
               snapshot := snapshot c; old_beta := old_beta c;
               old_alpha := old_alpha c |}
      else if scalar_eq id latest_snapshot_id then
        put {| latest_release := latest_release c;
               latest_snapshot := latest_snapshot c ++ [id];
               release := release c; snapshot := snapshot c;
               old_beta := old_beta c; old_alpha := old_alpha c |}
      else
        match py_getitem v "type" with
        | Raise => ({| versions := vs; version_categories := c |}, Raise)
        | Ret ty =>
            if json_eq_str ty "release" then
              put {| latest_release := latest_release c;
                     latest_snapshot := latest_snapshot c;
                     release := release c ++ [id]; snapshot := snapshot c;
                     old_beta := old_beta c; old_alpha := old_alpha c |}
            else if json_eq_str ty "snapshot" then
              put {| latest_release := latest_release c;
                     latest_snapshot := latest_snapshot c;
                     release := release c; snapshot := snapshot c ++ [id];
                     old_beta := old_beta c; old_alpha := old_alpha c |}
            else if json_eq_str ty "old_beta" then
              put {| latest_release := latest_release c;
                     latest_snapshot := latest_snapshot c;
                     release := release c; snapshot := snapshot c;
                     old_beta := old_beta c ++ [id];
                     old_alpha := old_alpha c |}
            else if json_eq_str ty "old_alpha" then
              put {| latest_release := latest_release c;
                     latest_snapshot := latest_snapshot c;
                     release := release c; snapshot := snapshot c;
                     old_beta := old_beta c;
                     old_alpha := old_alpha c ++ [id] |}
            else put c
        end
  end.

Fixpoint classify_all (latest_release_id latest_snapshot_id : json)
    (vs : list json) (st : app) : app * res unit :=
  match vs with
  | [] => (st, Ret tt)
  | v :: rest =>
      match classify latest_release_id latest_snapshot_id v st with
      | (st', Ret _) =>
          classify_all latest_release_id latest_snapshot_id rest st'
      | (st', Raise) => (st', Raise)
      end
  end.

(** The sorting loop: the four categories other than the two "Latest"
    ones, in the order of the dict.  The order of a list whose sort raised
    is not modelled (the list is left as it was). *)
Definition sort_categories (c : categories) : categories * res unit :=
  match sort_reverse (release c) with
  | Raise => (c, Raise)
  | Ret r =>
      let c1 := {| latest_release := latest_release c;
                   latest_snapshot := latest_snapshot c; release := r;
                   snapshot := snapshot c; old_beta := old_beta c;
                   old_alpha := old_alpha c |} in
      match sort_reverse (snapshot c) with
      | Raise => (c1, Raise)
      | Ret s =>
          let c2 := {| latest_release := latest_release c;
                       latest_snapshot := latest_snapshot c; release := r;
                       snapshot := s; old_beta := old_beta c;
                       old_alpha := old_alpha c |} in
          match sort_reverse (old_beta c) with
          | Raise => (c2, Raise)
          | Ret b =>
              let c3 := {| latest_release := latest_release c;
                           latest_snapshot := latest_snapshot c;
                           release := r; snapshot := s; old_beta := b;
                           old_alpha := old_alpha c |} in
              match sort_reverse (old_alpha c) with
              | Raise => (c3, Raise)
              | Ret a =>
                  ({| latest_release := latest_release c;
                      latest_snapshot := latest_snapshot c; release := r;
                      snapshot := s; old_beta := b; old_alpha := a |},
                   Ret tt)
              end
          end
      end
  end.

(** [load_version_manifest].  [fetched] is the outcome of the first two
    statements of the [try] block (open the manifest URL, read, decode and
    parse): [None] when any of them raises.  The boolean tells whether the
    body ran to its end ([true]) or the handler ran ([false]); whatever the
    body assigned before an exception stays assigned.  The final call to
    [update_version_list] only touches widgets. *)
Definition load_version_manifest (fetched : option json) (st : app)
    : app * bool :=
  match fetched with
  | None => (st, false)
  | Some manifest =>
      let st0 := {| versions := []; version_categories := no_categories |} in
      match (latest <- py_getitem manifest "latest" ;;
             latest_release_id <- py_getitem latest "release" ;;
             latest' <- py_getitem manifest "latest" ;;
             latest_snapshot_id <- py_getitem latest' "snapshot" ;;
             listed <- py_getitem manifest "versions" ;;
             vs <- py_iter listed ;;
             Ret (latest_release_id, latest_snapshot_id, vs)) with
      | Raise => (st0, false)
      | Ret (latest_release_id, latest_snapshot_id, vs) =>
          match classify_all latest_release_id latest_snapshot_id vs st0 with
          | (st1, Raise) => (st1, false)
          | (st1, Ret _) =>
              match sort_categories (version_categories st1) with
              | (c, Raise) =>
                  ({| versions := versions st1; version_categories := c |},
                   false)
              | (c, Ret _) =>
                  ({| versions := versions st1; version_categories := c |},
                   true)
              end
          end
      end
  end.

(** ** Offline identity *)

(** *** MD5 ([hashlib.md5]) *)

Fixpoint le_bytes (n : nat) (x : Z) : list Z :=
  match n with
  | O => []
  | S n' => Z.land x 255%Z :: le_bytes n' (Z.shiftr x 8%Z)
  end.

Definition md5_pad (msg : list Z) : list Z :=
  let len := Z.of_nat (length msg) in
  let zeros := Z.to_nat ((55 - len) mod 64)%Z in
  msg ++ [128%Z] ++ repeat 0%Z zeros ++ le_bytes 8 (8 * len)%Z.

Fixpoint le_words (fuel : nat) (bs : list Z) : list Z :=
  match fuel, bs with
  | S f, b0 :: b1 :: b2 :: b3 :: rest =>
      (b3 * 16777216 + b2 * 65536 + b1 * 256 + b0)%Z :: le_words f rest
  | _, _ => []
  end.

Definition md5_k : list Z :=
  [3614090360; 3905402710; 606105819; 3250441966; 4118548399; 1200080426;
   2821735955; 4249261313; 1770035416; 2336552879; 4294925233; 2304563134;
   1804603682; 4254626195; 2792965006; 1236535329; 4129170786; 3225465664;
   643717713; 3921069994; 3593408605; 38016083; 3634488961; 3889429448;
   568446438; 3275163606; 4107603335; 1163531501; 2850285829; 4243563512;
   1735328473; 2368359562; 4294588738; 2272392833; 1839030562; 4259657740;
   2763975236; 1272893353; 4139469664; 3200236656; 681279174; 3936430074;
   3572445317; 76029189; 3654602809; 3873151461; 530742520; 3299628645;
   4096336452; 1126891415; 2878612391; 4237533241; 1700485571; 2399980690;
   4293915773; 2240044497; 1873313359; 4264355552; 2734768916; 1309151649;
   4149444226; 3174756917; 718787259; 3951481745]%Z.

Definition md5_s : list Z :=
  [7; 12; 17; 22; 7; 12; 17; 22; 7; 12; 17; 22; 7; 12; 17; 22;
   5; 9; 14; 20; 5; 9; 14; 20; 5; 9; 14; 20; 5; 9; 14; 20;
   4; 11; 16; 23; 4; 11; 16; 23; 4; 11; 16; 23; 4; 11; 16; 23;
   6; 10; 15; 21; 6; 10; 15; 21; 6; 10; 15; 21; 6; 10; 15; 21]%Z.

Definition md5_vars : Type := (Z * Z * Z * Z)%type.

Definition md5_step (m : list Z) (i : nat) (v : md5_vars) : md5_vars :=
  let '(a, b, c, d) := v in
  let nb := w32 (Z.lnot b) in
  let nd := w32 (Z.lnot d) in
  let '(f, g) :=
    if (i <? 16)%nat then (Z.lor (Z.land b c) (Z.land nb d), i)
    else if (i <? 32)%nat then
      (Z.lor (Z.land d b) (Z.land nd c), (5 * i + 1) mod 16)%nat
    else if (i <? 48)%nat then
      (Z.lxor (Z.lxor b c) d, (3 * i + 5) mod 16)%nat
    else (Z.lxor c (Z.lor b nd), (7 * i) mod 16)%nat in
  let f' := add32 (add32 (add32 f a) (nth i md5_k 0%Z)) (nth g m 0%Z) in
  (d, add32 b (rotl32 (nth i md5_s 0%Z) f'), b, c).

Definition md5_block (h : md5_vars) (block : list Z) : md5_vars :=
  let m := le_words 16 block in
  let '(a0, b0, c0, d0) := h in
  let '(a, b, c, d) := fold_left (fun v i => md5_step m i v) (seq 0 64) h in
  (add32 a0 a, add32 b0 b, add32 c0 c, add32 d0 d).

Fixpoint md5_blocks (fuel : nat) (h : md5_vars) (bs : list Z) : md5_vars :=
  match fuel, bs with
  | S f, _ :: _ => md5_blocks f (md5_block h (firstn 64 bs)) (skipn 64 bs)
  | _, _ => h
  end.

Definition md5_init : md5_vars :=
  (1732584193, 4023233417, 2562383102, 271733878)%Z.

Fixpoint hex_bytes (bs : list Z) : string :=
  match bs with
  | [] => ""
  | b :: rest =>
      String (hex_digit (Z.shiftr b 4%Z))
        (String (hex_digit (Z.land b 15%Z)) (hex_bytes rest))
  end.

(** [hashlib.md5(msg).hexdigest()] *)
Definition md5_hex (msg : list byte) : string :=
  let padded := md5_pad (map byte_val msg) in
  let '(a, b, c, d) := md5_blocks (length padded) md5_init padded in
  hex_bytes (le_bytes 4 a ++ le_bytes 4 b ++ le_bytes 4 c ++ le_bytes 4 d).

(** [s[i:j]] for [0 <= i <= j]. *)
Definition slice (i j : nat) (s : string) : string := substring i (j - i) s.

(** [generate_offline_uuid] *)
Definition generate_offline_uuid (username : string) : string :=
  let string_to_hash := ("OfflinePlayer:" ++ username)%string in
  let md5_hash := md5_hex (bytes_of string_to_hash) in
  slice 0 8 md5_hash ++ "-" ++ slice 8 12 md5_hash ++ "-" ++
  slice 12 16 md5_hash ++ "-" ++ slice 16 20 md5_hash ++ "-" ++
  substring 20 (String.length md5_hash - 20) md5_hash.

(** ** The host: platform, network, codecs *)

Record zip_member : Type := {
  filename : string;
  is_dir : bool;
  contents : list byte
}.

(** What running [java -version] and searching its output for the version
    pattern gives. *)
Inductive java_probe : Type :=
| ProbeRaises
| ProbeNoMatch
| ProbeMajor (major : Z).

(** Everything the launcher takes from its surroundings.  [json_loads] is
    [json.loads(body.decode())] on a response body, [json_load] is
    [json.load] on a file opened in text mode, [json_dump] is what
    [json.dump(data, f, indent=2)] writes; each parser gives [None] where
    Python raises.  [zip_infolist] lists an archive ([None]: not an
    archive), [zip_target] is the path [ZipFile.extract] writes a member
    to.  [py_repr] is [str] on values that are not strings.
    [truncated u] is [Some part] when a retrieval of [u] into a file
    breaks off (short read, connection lost) after [part] has been
    written.  [foreign_options target_fps data] is what
    [modify_options_txt] leaves in an options file whose bytes [data] are
    not all ASCII: decoding it depends on the encoding of the locale and
    may fail in the middle of the file. *)
Record host : Type := {
  platform_system : string;
  platform_bits : string;
  pathsep : string;
  path_join : string -> string -> string;
  BASE_DIR : string;
  network : string -> option (list byte);
  json_loads : list byte -> option json;
  json_load : list byte -> option json;
  json_dump : json -> list byte;
  zip_infolist : list byte -> option (list zip_member);
  zip_target : string -> string -> string;
  py_repr : json -> string;
  local_java : java_probe;
  system_java : java_probe;
  truncated : string -> option (list byte);
  foreign_options : Z -> list byte -> list byte
}.

Definition MINECRAFT_DIR (H : host) : string :=
  path_join H (BASE_DIR H) "minecraft".

Definition VERSIONS_DIR (H : host) : string :=
  path_join H (MINECRAFT_DIR H) "versions".

Definition JAVA_DIR (H : host) : string := path_join H (BASE_DIR H) "java".

(** [platform.system().lower()], with "darwin" renamed "osx". *)
Definition current_os (H : host) : string :=
  let s := str_lower (platform_system H) in
  if String.eqb s "darwin" then "osx" else s.

(** ** The world: files and the log of requests *)

Inductive request : Type :=
| UrlOpen (url : string)
| UrlRetrieve (url : string).

Record world : Type := {
  files : gmap string node;
  requests : list request
}.

Definition path_exists (w : world) (p : string) : bool :=
  match files w !! p with
  | Some _ => true
  | None => false
  end.

Definition logged (r : request) (w : world) : world :=
  {| files := files w; requests := requests w ++ [r] |}.

(** [os.remove(p)]: raises on a directory or a missing path. *)
Definition os_remove (p : string) (w : world) : world * res unit :=
  match files w !! p with
  | Some (File _) =>
      ({| files := delete p (files w); requests := requests w |}, Ret tt)
  | _ => (w, Raise)
  end.

(** Opening [p] for writing and writing [data]: raises on a directory. *)
Definition write_file (p : string) (data : list byte) (w : world)
    : world * res unit :=
  match files w !! p with
  | Some Dir => (w, Raise)
  | _ =>
      ({| files := <[p := File data]> (files w); requests := requests w |},
       Ret tt)
  end.

(** [urllib.request.urlretrieve(url, p)]: the destination is opened for
    writing once the request is answered; a transfer that breaks off
    leaves what was written and raises. *)
Definition urlretrieve (H : host) (url : json) (p : string) (w : world)
    : world * res unit :=
  match url with
  | JStr u =>
      let w' := logged (UrlRetrieve u) w in
      match network H u with
      | Some body =>
          match truncated H u with
          | Some part => (fst (write_file p part w'), Raise)
          | None => write_file p body w'
          end
      | None => (w', Raise)
      end
  | _ => (w, Raise)
  end.

(** [if os.path.exists(p): os.remove(p)] *)
Definition remove_if_exists (p : string) (w : world) : world * res unit :=
  if path_exists w p then os_remove p w else (w, Ret tt).

(** The test [not os.path.exists(p) or not verify_file(p, expected)]. *)
Definition needs_download (w : world) (p : string) (expected : json) : bool :=
  negb (path_exists w p) || negb (verify_file (files w) p expected).

(** ** Artifact acquisition *)

Definition as_str (j : json) : res string :=
  match j with
  | JStr s => Ret s
  | _ => Raise
  end.

(** The "Download Client JAR" block of [download_version_files]: [true]
    when control reaches the libraries, [false] when the block returns
    [False] (directly or from one of its two handlers). *)
Definition download_client_jar (H : host) (version_id version_dir : string)
    (version_data : json) (w : world) : world * bool :=
  match (downloads <- py_get version_data "downloads" (JObj []) ;;
         py_get downloads "client" JNull) with
  | Raise => (w, false)
  | Ret jar_info =>
      if negb (truthy jar_info) then (w, false)
      else
        match (jar_url <- py_getitem jar_info "url" ;;
               expected_sha1 <- py_getitem jar_info "sha1" ;;
               Ret (jar_url, expected_sha1)) with
        | Raise => (w, false)
        | Ret (jar_url, expected_sha1) =>
            let jar_path := path_join H version_dir (version_id ++ ".jar") in
            if needs_download w jar_path expected_sha1 then
              match urlretrieve H jar_url jar_path w with
              | (w1, Raise) => (w1, false)
              | (w1, Ret _) =>
                  if negb (verify_file (files w1) jar_path expected_sha1)
                  then (fst (remove_if_exists jar_path w1), false)
                  else (w1, true)
              end
            else (w, true)
        end
  end.

(** The "Download Artifact JAR" part of one iteration of the library loop.
    Only the download, the check and the removal are inside the [try]. *)
Definition download_artifact (H : host) (libraries_dir : string) (lib : json)
    (w : world) : world * res unit :=
  match (has_downloads <- py_in "downloads" lib ;;
         if has_downloads : bool then
           downloads <- py_getitem lib "downloads" ;;
           py_in "artifact" downloads
         else Ret false) with
  | Raise => (w, Raise)
  | Ret false => (w, Ret tt)
  | Ret true =>
      match (downloads <- py_getitem lib "downloads" ;;
             artifact_info <- py_getitem downloads "artifact" ;;
             lib_url <- py_getitem artifact_info "url" ;;
             rel <- py_getitem artifact_info "path" ;;
             rel_path <- as_str rel ;;
             expected_sha1 <- py_getitem artifact_info "sha1" ;;
             Ret (lib_url, path_join H libraries_dir rel_path,
                  expected_sha1)) with
      | Raise => (w, Raise)
      | Ret (lib_url, lib_path, expected_sha1) =>
          if needs_download w lib_path expected_sha1 then
            match urlretrieve H lib_url lib_path w with
            | (w1, Raise) => (w1, Ret tt)
            | (w1, Ret _) =>
                if negb (verify_file (files w1) lib_path expected_sha1)
                then (fst (remove_if_exists lib_path w1), Ret tt)
                else (w1, Ret tt)
            end
          else (w, Ret tt)
      end
  end.

(** The loop over [zip_ref.infolist()]: members that are not directories
    are extracted, a failed extraction is reported and skipped. *)
Fixpoint extract_members (H : host) (natives_dir : string)
    (members : list zip_member) (w : world) : world :=
  match members with
  | [] => w
  | member :: rest =>
      if is_dir member then extract_members H natives_dir rest w
      else
        extract_members H natives_dir rest
          (fst (write_file (zip_target H natives_dir (filename member))
                  (contents member) w))
  end.

(** [ZipFile(p, "r")] followed by the extraction loop. *)
Definition extract_natives (H : host) (natives_dir p : string) (w : world)
    : world :=
  match files w !! p with
  | Some (File data) =>
      match zip_infolist H data with
      | Some members => extract_members H natives_dir members w
      | None => w
      end
  | _ => w
  end.

(** The "Download and Extract Natives" part of one iteration. *)
Definition download_natives (H : host) (natives_dir : string) (lib : json)
    (w : world) : world * res unit :=
  match (has_natives <- py_in "natives" lib ;;
         if has_natives : bool then
           natives <- py_getitem lib "natives" ;;
           py_in (current_os H) natives
         else Ret false) with
  | Raise => (w, Raise)
  | Ret false => (w, Ret tt)
  | Ret true =>
      match (natives <- py_getitem lib "natives" ;;
             template <- py_getitem natives (current_os H) ;;
             template_s <- as_str template ;;
             let classifier :=
               str_replace "${arch}"
                 (str_replace "bit" "" (platform_bits H)) template_s in
             has_downloads <- py_in "downloads" lib ;;
             found <-
               (if has_downloads : bool then
                  downloads <- py_getitem lib "downloads" ;;
                  has_classifiers <- py_in "classifiers" downloads ;;
                  if has_classifiers : bool then
                    classifiers <- py_getitem downloads "classifiers" ;;
                    py_in classifier classifiers
                  else Ret false
                else Ret false) ;;
             Ret (classifier, found)) with
      | Raise => (w, Raise)
      | Ret (_, false) => (w, Ret tt)
      | Ret (classifier, true) =>
          match (downloads <- py_getitem lib "downloads" ;;
                 classifiers <- py_getitem downloads "classifiers" ;;
                 native_info <- py_getitem classifiers classifier ;;
                 native_url <- py_getitem native_info "url" ;;
                 name <- py_getitem lib "name" ;;
                 name_s <- as_str name ;;
                 expected_sha1 <- py_getitem native_info "sha1" ;;
                 Ret (native_url,
                      path_join H natives_dir
                        (last_field ":" name_s "" ++ "-" ++ classifier
                           ++ ".jar"),
                      expected_sha1)) with
          | Raise => (w, Raise)
          | Ret (native_url, native_temp_path, expected_sha1) =>
              if needs_download w native_temp_path expected_sha1 then
                match urlretrieve H native_url native_temp_path w with
                | (w1, Raise) => (w1, Ret tt)
                | (w1, Ret _) =>
                    if negb (verify_file (files w1) native_temp_path
                               expected_sha1)
                    then (fst (remove_if_exists native_temp_path w1), Ret tt)
                    else
                      (extract_natives H natives_dir native_temp_path w1,
                       Ret tt)
                end
              else (w, Ret tt)
          end
      end
  end.

(** One iteration of [for lib in version_data.get("libraries", [])]. *)
Definition download_library (H : host) (libraries_dir natives_dir : string)
    (lib : json) (w : world) : world * res unit :=
  match is_library_allowed lib (current_os H) with
  | Raise => (w, Raise)
  | Ret false => (w, Ret tt)
  | Ret true =>
      match download_artifact H libraries_dir lib w with
      | (w1, Raise) => (w1, Raise)
      | (w1, Ret _) => download_natives H natives_dir lib w1
      end
  end.

Fixpoint download_libraries (H : host) (libraries_dir natives_dir : string)
    (libs : list json) (w : world) : world * res unit :=
  match libs with
  | [] => (w, Ret tt)
  | lib :: rest =>
      match download_library H libraries_dir natives_dir lib w with
      | (w1, Raise) => (w1, Raise)
      | (w1, Ret _) => download_libraries H libraries_dir natives_dir rest w1
      end
  end.

(** [download_version_files] from the test [if not version_data] on.  An
    exception of the library loop is not handled here. *)
Definition acquire_artifacts (H : host) (version_id : string)
    (version_data : json) (w : world) : world * res bool :=
  let version_dir := path_join H (VERSIONS_DIR H) version_id in
  if negb (truthy version_data) then (w, Ret false)
  else
    match download_client_jar H version_id version_dir version_data w with
    | (w1, false) => (w1, Ret false)
    | (w1, true) =>
        let libraries_dir := path_join H (MINECRAFT_DIR H) "libraries" in
        let natives_dir := path_join H version_dir "natives" in
        match (listed <- py_get version_data "libraries" (JArr []) ;;
               py_iter listed) with
        | Raise => (w1, Raise)
        | Ret libs =>
            match download_libraries H libraries_dir natives_dir libs w1 with
            | (w2, Raise) => (w2, Raise)
            | (w2, Ret _) => (w2, Ret true)
            end
        end
    end.

Definition version_json_path (H : host) (version_id : string) : string :=
  path_join H (path_join H (VERSIONS_DIR H) version_id)
    (version_id ++ ".json").

Definition version_jar_path (H : host) (version_id : string) : string :=
  path_join H (path_join H (VERSIONS_DIR H) version_id)
    (version_id ++ ".jar").

(** What [open(p, "r")] and [json.load] give: [None] when either raises. *)
Definition load_json_file (H : host) (w : world) (p : string) : option json :=
  match files w !! p with
  | Some (File data) => json_load H data
  | _ => None
  end.

(** [download_version_files].  [fuel] bounds the depth of the recursive
    call of the source; the result is [None] when it is exhausted.  The
    recursive call stands inside the outer [try], so an exception it lets
    through becomes [False]. *)
Fixpoint download_version_files (H : host) (fuel : nat) (version_id : string)
    (version_url : json) (w : world) : option (world * res bool) :=
  match fuel with
  | O => None
  | S fuel' =>
      let version_json_path := version_json_path H version_id in
      if negb (path_exists w version_json_path) then
        match version_url with
        | JStr u =>
            let w1 := logged (UrlOpen u) w in
            match network H u with
            | None => Some (w1, Ret false)
            | Some body =>
                match json_loads H body with
                | None => Some (w1, Ret false)
                | Some data =>
                    match write_file version_json_path (json_dump H data)
                            w1 with
                    | (w2, Raise) => Some (w2, Ret false)
                    | (w2, Ret _) =>
                        Some (acquire_artifacts H version_id data w2)
                    end
                end
            end
        | _ => Some (w, Ret false)
        end
      else
        match load_json_file H w version_json_path with
        | Some version_data =>
            Some (acquire_artifacts H version_id version_data w)
        | None =>
            match remove_if_exists version_json_path w with
            | (w1, Raise) => Some (w1, Ret false)
            | (w1, Ret _) =>
                match download_version_files H fuel' version_id version_url
                        w1 with
                | None => None
                | Some (w2, Raise) => Some (w2, Ret false)
                | Some (w2, Ret b) => Some (w2, Ret b)
                end
            end
        end
  end.

(** ** Launch plan builder *)

(** [self.cheats] *)
Record cheats : Type := {
  killaura : bool;
  speed : bool;
  fly : bool
}.

Definition java_exe (H : host) : string :=
  if String.eqb (platform_system H) "Windows" then "java.exe" else "java".

Definition local_java_path (H : host) : string :=
  path_join H
    (path_join H (path_join H (JAVA_DIR H) "jdk-21.0.5+11") "bin")
    (java_exe H).

(** [is_java_installed(required_version)], [required] being
    [int(required_version)]. *)
Definition is_java_installed (H : host) (fs : gmap string node)
    (required : Z) : bool :=
  let system :=
    match system_java H with
    | ProbeMajor major_version => (required <=? major_version)%Z
    | _ => false
    end in
  match fs !! local_java_path H with
  | Some _ =>
      match local_java H with
      | ProbeMajor major_version => (required <=? major_version)%Z
      | _ => system
      end
  | None => system
  end.

(** The "Build Classpath" loop over the libraries. *)
Fixpoint classpath_libraries (H : host) (fs : gmap string node)
    (libraries_dir : string) (libs : list json) : res (list string) :=
  match libs with
  | [] => Ret []
  | lib :: rest =>
      allowed <- is_library_allowed lib (current_os H) ;;
      here <-
        (if allowed : bool then
           has_downloads <- py_in "downloads" lib ;;
           has_artifact <-
             (if has_downloads : bool then
                downloads <- py_getitem lib "downloads" ;;
                py_in "artifact" downloads
              else Ret false) ;;
           if has_artifact : bool then
             downloads <- py_getitem lib "downloads" ;;
             artifact <- py_getitem downloads "artifact" ;;
             rel <- py_getitem artifact "path" ;;
             rel_path <- as_str rel ;;
             let lib_path := path_join H libraries_dir rel_path in
             match fs !! lib_path with
             | Some _ => Ret [lib_path]
             | None => Ret []
             end
           else Ret []
         else Ret []) ;;
      more <- classpath_libraries H fs libraries_dir rest ;;
      Ret (here ++ more)
  end.

Definition default_jvm_args : list json :=
  [JStr "-XX:+UseG1GC"; JStr "-XX:-UseAdaptiveSizePolicy";
   JStr "-XX:MinHeapFreeRatio=3"; JStr "-XX:MaxHeapFreeRatio=9";
   JStr "-XX:+DisableExplicitGC"; JStr "-XX:+AlwaysPreTouch";
   JStr "-XX:+UnlockExperimentalVMOptions";
   JStr "-XX:+ParallelRefProcEnabled"].

(** The test ["arguments" in version_data and kind in
    version_data["arguments"]]. *)
Definition has_arguments (version_data : json) (kind : string) : res bool :=
  has <- py_in "arguments" version_data ;;
  if has : bool then
    arguments <- py_getitem version_data "arguments" ;;
    py_in kind arguments
  else Ret false.

(** The list [version_data["arguments"][kind]] as the loop sees it. *)
Definition listed_arguments (version_data : json) (kind : string)
    : res (list json) :=
  arguments <- py_getitem version_data "arguments" ;;
  listed <- py_getitem arguments kind ;;
  py_iter listed.

(** The runtime arguments before the platform-specific additions. *)
Definition jvm_arguments (H : host) (version_data : json)
    : res (list json) :=
  structured <- has_arguments version_data "jvm" ;;
  if structured : bool then
    args <- listed_arguments version_data "jvm" ;;
    expand_arguments args (current_os H)
  else
    legacy <- py_in "minecraftArguments" version_data ;;
    if legacy : bool then Ret default_jvm_args else Ret [].

Fixpoint all_strings (l : list json) : res (list string) :=
  match l with
  | [] => Ret []
  | x :: rest =>
      s <- as_str x ;; more <- all_strings rest ;; Ret (s :: more)
  end.

(** [if platform.system() == "Darwin" and flag not in " ".join(jvm_args):
    jvm_args.append(flag)] *)
Definition add_on_darwin (H : host) (flag : string) (jvm_args : list json)
    : res (list json) :=
  if String.eqb (platform_system H) "Darwin" then
    parts <- all_strings jvm_args ;;
    if negb (str_contains flag (str_join " " parts))
    then Ret (jvm_args ++ [JStr flag])
    else Ret jvm_args
  else Ret jvm_args.

Definition cheat_args (c : cheats) : list json :=
  (if killaura c then [JStr "-Dnova.killaura=true"] else []) ++
  (if speed c then [JStr "-Dnova.speed=true"] else []) ++
  (if fly c then [JStr "-Dnova.fly=true"] else []).

(** The program arguments before substitution; [None] when the version
    has neither form and the build fails. *)
Definition game_arguments (H : host) (version_data : json)
    : res (option (list json)) :=
  structured <- has_arguments version_data "game" ;;
  if structured : bool then
    args <- listed_arguments version_data "game" ;;
    expanded <- expand_arguments args (current_os H) ;;
    Ret (Some expanded)
  else
    legacy <- py_in "minecraftArguments" version_data ;;
    if legacy : bool then
      combined <- py_getitem version_data "minecraftArguments" ;;
      text <- as_str combined ;;
      Ret (Some (map JStr (split_ws text "")))
    else Ret None.

(** [str(value)] *)
Definition py_str (H : host) (value : json) : string :=
  match value with
  | JStr s => s
  | _ => py_repr H value
  end.

(** The dict [replacements], in insertion order, values already passed
    through [str]. *)
Definition replacements (H : host) (version_data : json)
    (version username : string) : res (list (string * string)) :=
  asset_index <- py_get version_data "assetIndex" (JObj []) ;;
  assets_index_name <- py_get asset_index "id" (JStr version) ;;
  version_type <- py_get version_data "type" (JStr "release") ;;
  Ret [("${auth_player_name}", username);
       ("${version_name}", version);
       ("${game_directory}", MINECRAFT_DIR H);
       ("${assets_root}", path_join H (MINECRAFT_DIR H) "assets");
       ("${assets_index_name}", py_str H assets_index_name);
       ("${auth_uuid}", generate_offline_uuid username);
       ("${auth_access_token}", "0");
       ("${user_type}", "legacy");
       ("${version_type}", py_str H version_type);
       ("${user_properties}", "{}");
       ("${quickPlayRealms}", "");
       ("${quickPlaySingleplayer}", "");
       ("${quickPlayMultiplayer}", "")].

(** The inner loop [for key, value in replacements.items()]. *)
Definition apply_replacements (table : list (string * string))
    (arg : string) : string :=
  fold_left (fun replaced_arg kv => str_replace (fst kv) (snd kv) replaced_arg)
    table arg.

(** The outer loop over [game_args]; an argument that is not a string has
    no [replace] method. *)
Fixpoint substitute_all (table : list (string * string)) (game_args : list json)
    : res (list json) :=
  match game_args with
  | [] => Ret []
  | arg :: rest =>
      s <- as_str arg ;;
      more <- substitute_all table rest ;;
      Ret (JStr (apply_replacements table s) :: more)
  end.

(** The "Determine Java Path" block: the managed runtime when it is
    there and recent enough, else the ambient one when it is recent enough,
    else nothing. *)
Definition java_choice (H : host) (fs : gmap string node) : option string :=
  match fs !! local_java_path H with
  | Some _ =>
      if is_java_installed H fs 21 then Some (local_java_path H) else None
  | None => if is_java_installed H fs 21 then Some "java" else None
  end.

(** [build_launch_command] from [command = [java_path]] on. *)
Definition assemble_command (H : host) (c : cheats) (version_data : json)
    (version username : string) (ram : Z) (java_path : string)
    (main_class : json) (classpath_str : string) : res (list json) :=
  let natives_dir :=
    path_join H (path_join H (VERSIONS_DIR H) version) "natives" in
  jvm_args0 <- jvm_arguments H version_data ;;
  jvm_args1 <- add_on_darwin H "-XstartOnFirstThread" jvm_args0 ;;
  jvm_args <-
    add_on_darwin H "-Dorg.lwjgl.opengl.Display.allowSoftwareOpenGL=true"
      jvm_args1 ;;
  let command :=
    [JStr java_path;
     JStr ("-Xmx" ++ str_of_int ram ++ "G");
     JStr ("-Djava.library.path=" ++ natives_dir)]
    ++ jvm_args ++ cheat_args c
    ++ [JStr "-cp"; JStr classpath_str; main_class] in
  game <- game_arguments H version_data ;;
  match game with
  | None => Ret []
  | Some game_args =>
      table <- replacements H version_data version username ;;
      final_game_args <- substitute_all table game_args ;;
      Ret (command ++ final_game_args)
  end.

(** [build_launch_command]; the empty list is the failure value of the
    source. *)
Definition build_launch_command (H : host) (c : cheats)
    (fs : gmap string node) (version username : string) (ram : Z)
    : res (list json) :=
  let version_dir := path_join H (VERSIONS_DIR H) version in
  let json_path := path_join H version_dir (version ++ ".json") in
  match fs !! json_path with
  | None => Ret []
  | Some nd =>
      match (match nd with File data => json_load H data | Dir => None end)
      with
      | None => Ret []
      | Some version_data =>
          match java_choice H fs with
          | None => Ret []
          | Some java_path =>
              main_class <- py_get version_data "mainClass" JNull ;;
              if negb (truthy main_class) then Ret []
              else
                let libraries_dir :=
                  path_join H (MINECRAFT_DIR H) "libraries" in
                listed <- py_get version_data "libraries" (JArr []) ;;
                libs <- py_iter listed ;;
                classpath <- classpath_libraries H fs libraries_dir libs ;;
                let jar_path := path_join H version_dir (version ++ ".jar") in
                match fs !! jar_path with
                | None => Ret []
                | Some _ =>
                    let classpath_str :=
                      str_join (pathsep H) (classpath ++ [jar_path]) in
                    assemble_command H c version_data version username ram
                      java_path main_class classpath_str
                end
          end
      end
  end.

(** ** Vocabulary of the statements *)

(** A rule that vetoes on [current_os]: an object with no feature
    predicate, the action "disallow", and an os predicate that is absent or
    names [current_os]. *)
Definition matching_disallow (current_os : string) (rule : json) : Prop :=
  exists m,
    rule = JObj m /\
    assoc "features" m = None /\
    assoc "action" m = Some (JStr "disallow") /\
    (assoc "os" m = None \/
     exists o, assoc "os" m = Some (JObj o) /\
               assoc "name" o = Some (JStr current_os)).

(** What a conditional argument contributes when it is included. *)
Definition argument_values (value : json) : list json :=
  match value with
  | JArr vs => vs
  | _ => [value]
  end.

(** [s] has an uppercase letter. *)
Definition has_upper (s : string) : Prop := str_lower s <> s.

(** The six category lists by name. *)
Inductive category : Type :=
| LatestRelease
| LatestSnapshot
| Release
| Snapshot
| OldBeta
| OldAlpha.

#[global] Instance category_eq_dec : EqDecision category.
Proof. solve_decision. Defined.

Definition members (k : category) (c : categories) : list json :=
  match k with
  | LatestRelease => latest_release c
  | LatestSnapshot => latest_snapshot c
  | Release => release c
  | Snapshot => snapshot c
  | OldBeta => old_beta c
  | OldAlpha => old_alpha c
  end.

(** The identifier [s] is in the list [l]. *)
Definition holds (s : string) (l : list json) : bool :=
  existsb (fun y => json_eq_str y s) l.

(** In how many of the six lists [s] appears. *)
Definition categories_holding (s : string) (c : categories) : nat :=
  Nat.b2n (holds s (latest_release c)) + Nat.b2n (holds s (latest_snapshot c))
  + Nat.b2n (holds s (release c)) + Nat.b2n (holds s (snapshot c))
  + Nat.b2n (holds s (old_beta c)) + Nat.b2n (holds s (old_alpha c)).

(** The type of an entry, [None] standing for a missing key. *)
Definition entry_type (v : json) : json :=
  match py_getitem v "type" with
  | Ret ty => ty
  | Raise => JNull
  end.

(** The category the manifest designates for the identifier [id] with type
    [ty], the "latest" designations first; [None] when the identifier is
    neither of the two latest ones and the type is not one of the four. *)
Definition designated (latest_release_id latest_snapshot_id : json)
    (id : string) (ty : json) : option category :=
  if json_eq_str latest_release_id id then Some LatestRelease
  else if json_eq_str latest_snapshot_id id then Some LatestSnapshot
  else if json_eq_str ty "release" then Some Release
  else if json_eq_str ty "snapshot" then Some Snapshot
  else if json_eq_str ty "old_beta" then Some OldBeta
  else if json_eq_str ty "old_alpha" then Some OldAlpha
  else None.

Definition manifest_entry (id ty url : string) : json :=
  JObj [("id", JStr id); ("type", JStr ty); ("url", JStr url)].

Definition sample_manifest (listed : list json) : json :=
  JObj [("latest", JObj [("release", JStr "1.21"); ("snapshot", JStr "24w33a")]);
        ("versions", JArr listed)].

Definition empty_app : app :=
  {| versions := []; version_categories := no_categories |}.

(** Whether the entry [v] puts the identifier [s] into the category [k]. *)
Definition entry_in (latest_release_id latest_snapshot_id : json)
    (s : string) (k : category) (v : json) : bool :=
  match py_getitem v "id" with
  | Ret (JStr s') =>
      String.eqb s' s &&
      bool_decide (designated latest_release_id latest_snapshot_id s'
                     (entry_type v) = Some k)
  | _ => false
  end.

(** The world after a download of [u] to [p] that failed verification:
    the request is logged and nothing is left at [p]. *)
Definition after_rejected_download (u p : string) (w : world) : world :=
  {| files := delete p (files w);
     requests := requests w ++ [UrlRetrieve u] |}.

(** The world after a download of [u] to [p] that was kept. *)
Definition after_kept_download (u p : string) (body : list byte) (w : world)
    : world :=
  {| files := <[p := File body]> (files w);
     requests := requests w ++ [UrlRetrieve u] |}.

Definition libraries_dir (H : host) : string :=
  path_join H (MINECRAFT_DIR H) "libraries".

Definition natives_dir (H : host) (version_id : string) : string :=
  path_join H (path_join H (VERSIONS_DIR H) version_id) "natives".

(** The libraries of a metadata document, as the loop runs over them. *)
Definition listed_libraries (version_data : json) : res (list json) :=
  listed <- py_get version_data "libraries" (JArr []) ;;
  py_iter listed.

(** The client entry of a metadata document. *)
Definition client_info (version_data : json) : res json :=
  downloads <- py_get version_data "downloads" (JObj []) ;;
  py_get downloads "client" JNull.

(** The result of the library loop seen from [download_version_files]. *)
Definition finish (r : world * res unit) : world * res bool :=
  match r with
  | (w, Raise) => (w, Raise)
  | (w, Ret _) => (w, Ret true)
  end.

(** The primary-archive descriptor of a library entry: [fields] has
    [downloads.artifact] with a URL, a relative path and a digest. *)
Definition primary_archive (fields : list (string * json)) (url : json)
    (rel : string) (sha : json) : Prop :=
  exists dl info,
    assoc "downloads" fields = Some (JObj dl) /\
    assoc "artifact" dl = Some info /\
    py_getitem info "url" = Ret url /\
    py_getitem info "path" = Ret (JStr rel) /\
    py_getitem info "sha1" = Ret sha.

(** The library entry has no primary archive. *)
Definition no_primary_archive (fields : list (string * json)) : Prop :=
  assoc "downloads" fields = None \/
  exists dl, assoc "downloads" fields = Some (JObj dl) /\
             assoc "artifact" dl = None.

(** How many entries of a request log fetched a document with [urlopen]. *)
Definition is_open (r : request) : bool :=
  match r with
  | UrlOpen _ => true
  | UrlRetrieve _ => false
  end.

Definition opens (log : list request) : nat :=
  length (List.filter is_open log).

(** What the handler of the outer [try] makes of the nested call. *)
Definition absorbed (r : world * res bool) : world * res bool :=
  match r with
  | (w, Raise) => (w, Ret false)
  | (w, Ret b) => (w, Ret b)
  end.

(** *** An already-verified local cache *)

(** The file of the download descriptor [info] is at [p] with the digest
    the descriptor expects. *)
Definition cached_download (w : world) (info : json) (p : string) : Prop :=
  exists url sha,
    py_getitem info "url" = Ret url /\
    py_getitem info "sha1" = Ret sha /\
    verify_file (files w) p sha = true.

(** The primary archive of a library entry, if it has one, is cached. *)
Definition archive_cached (H : host) (w : world)
    (fields : list (string * json)) : Prop :=
  no_primary_archive fields \/
  exists url rel sha,
    primary_archive fields url rel sha /\
    verify_file (files w) (path_join H (libraries_dir H) rel) sha = true.

Definition native_classifier (H : host) (template : string) : string :=
  str_replace "${arch}" (str_replace "bit" "" (platform_bits H)) template.

Definition native_path (H : host) (version_id name classifier : string)
    : string :=
  path_join H (natives_dir H version_id)
    (last_field ":" name "" ++ "-" ++ classifier ++ ".jar").

(** The native bundle of a library entry for this platform, if the entry
    names one and carries its descriptor, is cached. *)
Definition natives_cached (H : host) (version_id : string) (w : world)
    (fields : list (string * json)) : Prop :=
  assoc "natives" fields = None \/
  exists natives,
    assoc "natives" fields = Some (JObj natives) /\
    (assoc (current_os H) natives = None \/
     exists template,
       assoc (current_os H) natives = Some (JStr template) /\
       (assoc "downloads" fields = None \/
        exists dl,
          assoc "downloads" fields = Some (JObj dl) /\
          (assoc "classifiers" dl = None \/
           exists cls,
             assoc "classifiers" dl = Some (JObj cls) /\
             (assoc (native_classifier H template) cls = None \/
              exists info name,
                assoc (native_classifier H template) cls = Some info /\
                assoc "name" fields = Some (JStr name) /\
                cached_download w info
                  (native_path H version_id name
                     (native_classifier H template)))))).

(** A library entry is settled: not applicable on this platform, or
    applicable with its archives cached. *)
Definition library_cached (H : host) (version_id : string) (w : world)
    (lib : json) : Prop :=
  is_library_allowed lib (current_os H) = Ret false \/
  (is_library_allowed lib (current_os H) = Ret true /\
   exists fields,
     lib = JObj fields /\
     archive_cached H w fields /\
     natives_cached H version_id w fields).

(** Every artifact of the version is present and verified: the metadata
    document is on disk and parses, the main archive verifies, and every
    library entry is settled. *)
Definition cache_complete (H : host) (version_id : string) (w : world)
    : Prop :=
  exists data version_data info libs,
    files w !! version_json_path H version_id = Some (File data) /\
    json_load H data = Some version_data /\
    truthy version_data = true /\
    client_info version_data = Ret info /\
    truthy info = true /\
    cached_download w info (version_jar_path H version_id) /\
    listed_libraries version_data = Ret libs /\
    Forall (library_cached H version_id w) libs.

(** *** Launch plans *)

(** The three arguments every command starts with. *)
Definition command_head (H : host) (version : string) (ram : Z)
    (java_path : string) : list json :=
  [JStr java_path;
   JStr ("-Xmx" ++ str_of_int ram ++ "G");
   JStr ("-Djava.library.path=" ++ natives_dir H version)].

(** Something is at the path [p]. *)
Definition present (fs : gmap string node) (p : string) : Prop :=
  exists nd, fs !! p = Some nd.

(** *** Templated arguments *)

(** No dollar sign in [s]. *)
Fixpoint dollar_free (s : string) : bool :=
  match s with
  | EmptyString => true
  | String c s' => negb (Ascii.eqb c "$") && dollar_free s'
  end.

(** A placeholder: a dollar sign followed by text without one. *)
Definition key_shaped (k : string) : bool :=
  match k with
  | EmptyString => false
  | String c k' => Ascii.eqb c "$" && dollar_free k'
  end.

(** The two strings differ at a position both have. *)
Fixpoint diverge (k k' : string) : bool :=
  match k, k' with
  | String c s, String c' s' => if Ascii.eqb c c' then diverge s s' else true
  | _, _ => false
  end.

(** The keys are placeholders, and no one is the beginning of another. *)
Definition keys_apart (keys : list string) : bool :=
  forallb key_shaped keys &&
  forallb (fun k => forallb (fun k' => String.eqb k k' || diverge k k') keys)
    keys.

(** A templated argument: literal text and placeholders. *)
Inductive piece : Type :=
| Lit (text : string)
| Hole (key : string).

Definition piece_text (p : piece) : string :=
  match p with
  | Lit s => s
  | Hole k => k
  end.

(** The token as the metadata document spells it. *)
Fixpoint template_text (t : list piece) : string :=
  match t with
  | [] => ""
  | p :: t' => piece_text p ++ template_text t'
  end.

Fixpoint table_value (k : string) (table : list (string * string))
    : option string :=
  match table with
  | [] => None
  | (k', v) :: table' =>
      if String.eqb k' k then Some v else table_value k table'
  end.

(** The token with every placeholder of the table replaced by its value. *)
Fixpoint template_value (table : list (string * string)) (t : list piece)
    : string :=
  match t with
  | [] => ""
  | Lit s :: t' => s ++ template_value table t'
  | Hole k :: t' =>
      match table_value k table with
      | Some v => v
      | None => k
      end ++ template_value table t'
  end.

(** Literal text has no dollar sign; a placeholder is a key of the table,
    or some other placeholder that differs from every key at a position
    both have. *)
Definition piece_ok (keys : list string) (p : piece) : bool :=
  match p with
  | Lit s => dollar_free s
  | Hole k =>
      key_shaped k &&
      forallb (fun k' => String.eqb k' k || diverge k' k) keys
  end.

(** One pass of the loop on a template: the placeholder [k] becomes the
    literal [v]. *)
Definition fill (k v : string) (p : piece) : piece :=
  match p with
  | Lit s => Lit s
  | Hole k' => if String.eqb k k' then Lit v else Hole k'
  end.

(** What one pass of the loop needs of a piece: literal text without a
    dollar sign; a placeholder that is this key or diverges from it. *)
Definition piece_fits (k : string) (p : piece) : Prop :=
  match p with
  | Lit s => dollar_free s = true
  | Hole k2 => key_shaped k2 = true /\ (k = k2 \/ diverge k k2 = true)
  end.

(** The keys of the dict [replacements], in insertion order. *)
Definition placeholder_keys : list string :=
  ["${auth_player_name}"; "${version_name}"; "${game_directory}";
   "${assets_root}"; "${assets_index_name}"; "${auth_uuid}";
   "${auth_access_token}"; "${user_type}"; "${version_type}";
   "${user_properties}"; "${quickPlayRealms}"; "${quickPlaySingleplayer}";
   "${quickPlayMultiplayer}"].

(** *** A sample host and sample documents *)

Fixpoint ends_with_slash (s : string) : bool :=
  match s with
  | EmptyString => false
  | String c EmptyString => Ascii.eqb c "/"
  | String _ s' => ends_with_slash s'
  end.

(** [posixpath.join] on two components. *)
Definition posix_join (a b : string) : string :=
  if String.prefix "/" b then b
  else if String.eqb a "" || ends_with_slash a then a ++ b
  else a ++ "/" ++ b.

(** A codec given by a table: the document named by the bytes. *)
Definition table_decode (docs : list (string * json)) (data : list byte)
    : option json :=
  assoc (string_of_list_byte data) docs.

(** A Linux host whose network serves [net] (URL, body) and whose JSON
    codec reads the documents of [docs] by name and writes every document
    as [written]. *)
Definition sample_host (net : list (string * string))
    (docs : list (string * json)) (written : string) : host :=
  {| platform_system := "Linux";
     platform_bits := "64bit";
     pathsep := ":";
     path_join := posix_join;
     BASE_DIR := "/home/steve/.nova-client";
     network := fun url => option_map bytes_of (table_value url net);
     json_loads := table_decode docs;
     json_load := table_decode docs;
     json_dump := fun _ => bytes_of written;
     zip_infolist := fun _ => None;
     zip_target := posix_join;
     py_repr := fun _ => "None";
     local_java := ProbeMajor 21;
     system_java := ProbeRaises;
     truncated := fun _ => None;
     foreign_options := fun _ data => data |}.

Definition sha1_of_abc : string := "a9993e364706816aba3e25717850c26c9cd0d89d".

Definition sha1_of_nothing : string :=
  "da39a3ee5e6b4b0d3255bfef95601890afd80709".

Definition sample_library (name rel url sha : string) : json :=
  JObj [("name", JStr name);
        ("downloads",
         JObj [("artifact",
                JObj [("path", JStr rel); ("sha1", JStr sha);
                      ("url", JStr url)])])].

Definition library_a : json :=
  sample_library "org.example:a:1.0" "org/example/a/1.0/a-1.0.jar"
    "https://libraries.example/a-1.0.jar" sha1_of_nothing.

Definition library_b : json :=
  sample_library "org.example:b:2.0" "org/example/b/2.0/b-2.0.jar"
    "https://libraries.example/b-2.0.jar" sha1_of_abc.

(** A library with a native bundle for Linux and no primary archive. *)
Definition library_c : json :=
  JObj [("name", JStr "org.example:c-platform:3.0");
        ("natives", JObj [("linux", JStr "natives-linux-${arch}")]);
        ("downloads",
         JObj [("classifiers",
                JObj [("natives-linux-64",
                       JObj [("sha1", JStr sha1_of_abc);
                             ("url",
                              JStr "https://libraries.example/c-natives.jar")])])])].

Definition path_c : string :=
  "/home/steve/.nova-client/minecraft/versions/1.21/natives/3.0-natives-linux-64.jar".

Definition sample_metadata (libs : list json) : json :=
  JObj [("id", JStr "1.21");
        ("type", JStr "release");
        ("mainClass", JStr "net.minecraft.client.main.Main");
        ("assetIndex", JObj [("id", JStr "17")]);
        ("downloads",
         JObj [("client",
                JObj [("sha1", JStr sha1_of_abc);
                      ("url", JStr "https://piston.example/client.jar")])]);
        ("libraries", JArr libs);
        ("arguments",
         JObj [("game",
                JArr [JStr "--username ${auth_player_name}";
                      JStr "${auth_player_name}@${version_name}";
                      JObj [("rules",
                             JArr [JObj [("action", JStr "allow");
                                         ("features",
                                          JObj [("is_demo_user",
                                                 JBool true)])]]);
                            ("value", JStr "--demo")]]);
               ("jvm",
                JArr [JStr "-Dlauncher.user=${auth_player_name}";
                      JObj [("rules",
                             JArr [JObj [("action", JStr "allow");
                                         ("os",
                                          JObj [("name", JStr "linux")])]]);
                            ("value",
                             JArr [JStr "-Dos.tag=${version_name}"])];
                      JStr "-cp"; JStr "${classpath}"])])].

Definition sample_docs : list (string * json) :=
  [("metadata with a", sample_metadata [library_a]);
   ("metadata with a and b", sample_metadata [library_a; library_b]);
   ("metadata with a, b and c",
    sample_metadata [library_a; library_b; library_c])].

Definition json_path_1_21 : string :=
  "/home/steve/.nova-client/minecraft/versions/1.21/1.21.json".

Definition jar_path_1_21 : string :=
  "/home/steve/.nova-client/minecraft/versions/1.21/1.21.jar".

Definition path_a : string :=
  "/home/steve/.nova-client/minecraft/libraries/org/example/a/1.0/a-1.0.jar".

Definition path_b : string :=
  "/home/steve/.nova-client/minecraft/libraries/org/example/b/2.0/b-2.0.jar".

Definition managed_java : string :=
  "/home/steve/.nova-client/java/jdk-21.0.5+11/bin/java".

Definition world_of (fs : list (string * node)) : world :=
  {| files := list_to_map fs; requests := [] |}.

Definition metadata_url : json := JStr "https://meta.example/1.21.json".

(** A host whose servers return a corrupted body for every archive. *)
Definition corrupting_host : host :=
  sample_host
    [("https://piston.example/client.jar", "corrupted");
     ("https://libraries.example/a-1.0.jar", "corrupted")]
    sample_docs "{}".

(** The metadata document is on disk, the main archive is not. *)
Definition world_without_jar : world :=
  world_of [(json_path_1_21, File (bytes_of "metadata with a"))].

(** The metadata document and the main archive are on disk, the library
    is not. *)
Definition world_without_library : world :=
  world_of [(json_path_1_21, File (bytes_of "metadata with a"));
            (jar_path_1_21, File (bytes_of "abc"))].

(** A host with no network at all. *)
Definition offline_host : host := sample_host [] sample_docs "{}".

(** Every artifact of version 1.21 is on disk with the expected
    contents. *)
Definition cached_world : world :=
  world_of [(json_path_1_21, File (bytes_of "metadata with a and b"));
            (jar_path_1_21, File (bytes_of "abc"));
            (path_a, File []);
            (path_b, File (bytes_of "abc"));
            (managed_java, File (bytes_of "java"))].

(** The same for a version that also has a native bundle. *)
Definition cached_world_natives : world :=
  world_of [(json_path_1_21, File (bytes_of "metadata with a, b and c"));
            (jar_path_1_21, File (bytes_of "abc"));
            (path_a, File []);
            (path_b, File (bytes_of "abc"));
            (path_c, File (bytes_of "abc"))].

(** A host whose server returns a malformed metadata document. *)
Definition malformed_host : host :=
  sample_host [("https://meta.example/1.21.json", "<html>")] sample_docs "{}".

(** The local metadata document is damaged. *)
Definition damaged_world : world :=
  world_of [(json_path_1_21, File (bytes_of "{ truncated"))].

Definition speed_only : cheats :=
  {| killaura := false; speed := true; fly := false |}.

Definition metadata_a_b : json := sample_metadata [library_a; library_b].

(** The command the builder returns on the cached world. *)
Definition sample_command : list json :=
  [JStr "/home/steve/.nova-client/java/jdk-21.0.5+11/bin/java";
   JStr "-Xmx4G";
   JStr "-Djava.library.path=/home/steve/.nova-client/minecraft/versions/1.21/natives";
   JStr "-Dlauncher.user=${auth_player_name}";
   JStr "-Dos.tag=${version_name}";
   JStr "-cp";
   JStr "${classpath}";
   JStr "-Dnova.speed=true";
   JStr "-cp";
   JStr "/home/steve/.nova-client/minecraft/libraries/org/example/a/1.0/a-1.0.jar:/home/steve/.nova-client/minecraft/libraries/org/example/b/2.0/b-2.0.jar:/home/steve/.nova-client/minecraft/versions/1.21/1.21.jar";
   JStr "net.minecraft.client.main.Main";
   JStr "--username Steve";
   JStr "Steve@1.21"].

(** ** Further vocabulary *)

(** What a rule does to the running flag of a rule loop. *)
Inductive verdict : Type :=
| Skips
| Allows
| Vetoes.

Definition action_verdict (os_info action : json) (current_os : string)
    : verdict :=
  if os_match os_info current_os then
    if json_eq_str action "allow" then Allows
    else if json_eq_str action "disallow" then Vetoes
    else Skips
  else Skips.

Definition field_or_null (k : string) (m : list (string * json)) : json :=
  match assoc k m with
  | Some v => v
  | None => JNull
  end.

(** The verdict of a rule object in [is_library_allowed]: a rule with a
    "features" key is skipped. *)
Definition library_verdict (current_os : string) (rule : json) : verdict :=
  match rule with
  | JObj m =>
      match assoc "features" m with
      | Some _ => Skips
      | None =>
          action_verdict (field_or_null "os" m) (field_or_null "action" m)
            current_os
      end
  | _ => Skips
  end.

(** The verdict of a rule object in [evaluate_rules]: a rule whose
    "features" value is not [None] is skipped. *)
Definition argument_verdict (current_os : string) (rule : json) : verdict :=
  match rule with
  | JObj m =>
      if is_none (field_or_null "features" m) then
        action_verdict (field_or_null "os" m) (field_or_null "action" m)
          current_os
      else Skips
  | _ => Skips
  end.

Definition allows (v : verdict) : bool :=
  match v with
  | Allows => true
  | _ => false
  end.

Definition vetoes (v : verdict) : bool :=
  match v with
  | Vetoes => true
  | _ => false
  end.

(** The rule object carries a feature predicate that both evaluators
    see: the key is there and its value is not null. *)
Definition feature_gated (rule : json) : Prop :=
  exists m f,
    rule = JObj m /\ assoc "features" m = Some f /\ is_none f = false.

(** The rule object has no "features" key, or a value that is not null:
    the case in which the two evaluators read the rule alike. *)
Definition features_unambiguous (rule : json) : Prop :=
  exists m, rule = JObj m /\ assoc "features" m <> Some JNull.

(** A rule that asks for the demo feature, as the metadata documents have
    it. *)
Definition demo_rule : json :=
  JObj [("action", JStr "allow");
        ("features", JObj [("is_demo_user", JBool true)])].

(** A rule whose "features" value is null. *)
Definition null_feature_rule : json :=
  JObj [("action", JStr "allow"); ("features", JNull)].

(** Every character of [s] passes [p]. *)
Fixpoint all_chars (p : ascii -> bool) (s : string) : bool :=
  match s with
  | EmptyString => true
  | String c s' => p c && all_chars p s'
  end.

(** A lowercase hexadecimal digit. *)
Definition is_hex (c : ascii) : bool :=
  existsb (Ascii.eqb c) (list_ascii_of_string "0123456789abcdef").

(** [n] lowercase hexadecimal digits. *)
Definition hex_group (n : nat) (s : string) : Prop :=
  String.length s = n /\ all_chars is_hex s = true.

(** The log of [w'] is the log of [w] followed by at most [n] requests. *)
Definition grows (n : nat) (w w' : world) : Prop :=
  exists added,
    requests w' = requests w ++ added /\ (length added <= n)%nat.

(** The number of library entries of a metadata document. *)
Definition libraries_count (version_data : json) : nat :=
  match listed_libraries version_data with
  | Ret libs => length libs
  | Raise => 0
  end.

(** The metadata documents an acquisition can end up using: the local one,
    or the one the server returns. *)
Definition candidate_metadata (H : host) (version_id : string)
    (version_url : json) (w : world) (d : json) : Prop :=
  load_json_file H w (version_json_path H version_id) = Some d \/
  exists u body,
    version_url = JStr u /\ network H u = Some body /\
    json_loads H body = Some d.

Definition library_a_fields : list (string * json) :=
  [("name", JStr "org.example:a:1.0");
   ("downloads",
    JObj [("artifact",
           JObj [("path", JStr "org/example/a/1.0/a-1.0.jar");
                 ("sha1", JStr sha1_of_nothing);
                 ("url", JStr "https://libraries.example/a-1.0.jar")])])].

Definition libraries_dir_1_21 : string :=
  "/home/steve/.nova-client/minecraft/libraries".

(** No request is answered. *)
Definition offline (H : host) : Prop := forall u, network H u = None.

(** What stands at [p] is the part of a retrieval of [url] that broke
    off. *)
Definition broken_off (H : host) (url : json) (fs : gmap string node)
    (p : string) : Prop :=
  exists u part,
    url = JStr u /\ truncated H u = Some part /\
    fs !! p = Some (File part).

(** ** Options file

    [options.txt] is opened in text mode, with the encoding of the locale.
    A file of ASCII bytes reads the same in every such encoding, one
    character per byte, and what is written for it is ASCII again: this is
    the case modelled here.  What the function makes of a file with other
    bytes is [foreign_options] of the host.  Reading turns every line
    ending into a line feed, writing turns a line feed into
    [os.linesep]. *)

Definition LF : ascii := "010".
Definition CR : ascii := "013".

Definition is_ascii (data : list byte) : bool :=
  forallb (fun b => N.ltb (Byte.to_N b) 128) data.

Definition ascii_char (c : ascii) : bool :=
  N.ltb (Byte.to_N (byte_of_ascii c)) 128.

Definition linesep (H : host) : string :=
  if String.eqb (platform_system H) "Windows" then String CR (String LF "")
  else String LF "".

(** Text read with universal newlines. *)
Fixpoint universal_newlines (s : string) : string :=
  match s with
  | EmptyString => EmptyString
  | String c s' =>
      if Ascii.eqb c CR then
        String LF
          match s' with
          | EmptyString => EmptyString
          | String c' s'' =>
              if Ascii.eqb c' LF then universal_newlines s''
              else universal_newlines s'
          end
      else String c (universal_newlines s')
  end.

(** Text as it is written. *)
Fixpoint write_newlines (H : host) (s : string) : string :=
  match s with
  | EmptyString => EmptyString
  | String c s' =>
      if Ascii.eqb c LF then linesep H ++ write_newlines H s'
      else String c (write_newlines H s')
  end.

Definition text_of (data : list byte) : string := string_of_list_byte data.

(** [for line in f]: the lines, each with its line feed; the last one may
    lack it. *)
Fixpoint file_lines (s : string) : list string :=
  match s with
  | EmptyString => []
  | String c s' =>
      if Ascii.eqb c LF then String c "" :: file_lines s'
      else
        match file_lines s' with
        | [] => [String c ""]
        | line :: rest => String c line :: rest
        end
  end.

Fixpoint lstrip (s : string) : string :=
  match s with
  | EmptyString => EmptyString
  | String c s' => if is_space c then lstrip s' else s
  end.

Fixpoint rstrip (s : string) : string :=
  match s with
  | EmptyString => EmptyString
  | String c s' =>
      match rstrip s' with
      | EmptyString => if is_space c then EmptyString else String c ""
      | kept => String c kept
      end
  end.

(** [s.strip()] *)
Definition strip (s : string) : string := rstrip (lstrip s).

(** [s.split(":", 1)] when it has two parts. *)
Fixpoint split_colon (s : string) : option (string * string) :=
  match s with
  | EmptyString => None
  | String c s' =>
      if Ascii.eqb c ":" then Some ("", s')
      else
        match split_colon s' with
        | Some (k, v) => Some (String c k, v)
        | None => None
        end
  end.

(** [options[k] = v] on a dict with string keys: a key keeps the place of
    its first insertion. *)
Fixpoint options_set (k v : string) (options : list (string * string))
    : list (string * string) :=
  match options with
  | [] => [(k, v)]
  | (k', v') :: rest =>
      if String.eqb k k' then (k', v) :: rest
      else (k', v') :: options_set k v rest
  end.

Fixpoint options_get (k : string) (options : list (string * string))
    : option string :=
  match options with
  | [] => None
  | (k', v) :: rest => if String.eqb k k' then Some v else options_get k rest
  end.

(** The body of the reading loop. *)
Definition read_line (options : list (string * string)) (line : string)
    : list (string * string) :=
  match split_colon (strip line) with
  | Some (k, v) => options_set k v options
  | None => options
  end.

Definition read_options (data : list byte) : list (string * string) :=
  fold_left read_line (file_lines (universal_newlines (text_of data))) [].

(** What the writing loop writes. *)
Fixpoint render_options (options : list (string * string)) : string :=
  match options with
  | [] => ""
  | (k, v) :: rest =>
      (k ++ ":" ++ v ++ String LF "") ++ render_options rest
  end.

Definition options_file (H : host) (options : list (string * string))
    : list byte :=
  bytes_of (write_newlines H (render_options options)).

Definition options_path (H : host) : string :=
  path_join H (MINECRAFT_DIR H) "options.txt".

(** The dict after the reading step, for a file of ASCII text: empty when
    the file is missing or cannot be opened. *)
Definition stored_options (H : host) (w : world) : list (string * string) :=
  match files w !! options_path H with
  | Some (File data) => read_options data
  | _ => []
  end.

(** The table that [modify_options_txt] writes. *)
Definition updated_options (target_fps : Z)
    (options : list (string * string)) : list (string * string) :=
  options_set "enableVsync" "false"
    (options_set "maxFps" (str_of_int target_fps) options).

(** [modify_options_txt(target_fps)] *)
Definition modify_options_txt (H : host) (target_fps : Z) (w : world)
    : world :=
  match files w !! options_path H with
  | Some (File data) =>
      if is_ascii data then
        fst (write_file (options_path H)
               (options_file H (updated_options target_fps
                                  (read_options data))) w)
      else
        fst (write_file (options_path H)
               (foreign_options H target_fps data) w)
  | _ =>
      fst (write_file (options_path H)
             (options_file H (updated_options target_fps [])) w)
  end.

(** The options file, if there is one, is ASCII text. *)
Definition ascii_options (H : host) (w : world) : bool :=
  match files w !! options_path H with
  | Some (File data) => is_ascii data
  | _ => true
  end.

Definition no_cr (c : ascii) : bool := negb (Ascii.eqb c CR).
Definition no_lf (c : ascii) : bool := negb (Ascii.eqb c LF).
Definition no_colon (c : ascii) : bool := negb (Ascii.eqb c ":").
Definition no_space (c : ascii) : bool := negb (is_space c).

(** ASCII characters that end no line: neither a line feed nor a carriage
    return. *)
Definition no_break (c : ascii) : bool :=
  negb (Ascii.eqb c LF) && negb (Ascii.eqb c CR) && ascii_char c.

Definition key_char (c : ascii) : bool :=
  no_break c && negb (Ascii.eqb c ":").

(** A character of a text read from ASCII bytes with universal newlines. *)
Definition text_char (c : ascii) : bool :=
  negb (Ascii.eqb c CR) && ascii_char c.

(** An entry that a line of the file can carry as it is. *)
Definition entry_ok (kv : string * string) : bool :=
  all_chars key_char (fst kv) && all_chars no_break (snd kv)
  && String.eqb (strip (fst kv ++ ":" ++ snd kv)) (fst kv ++ ":" ++ snd kv).

Fixpoint distinct_keys (options : list (string * string)) : bool :=
  match options with
  | [] => true
  | (k, _) :: rest =>
      negb (existsb (fun kv => String.eqb k (fst kv)) rest)
      && distinct_keys rest
  end.

(** A table that reading the written file gives back. *)
Definition canonical (options : list (string * string)) : bool :=
  distinct_keys options && forallb entry_ok options.

(** Every line of a text without carriage returns is a run of characters
    that end no line, followed by at most one line feed. *)
Definition line_shape (line : string) : Prop :=
  exists body,
    all_chars no_break body = true /\
    (line = body \/ line = (body ++ String LF "")%string).

Definition starts_tight (s : string) : bool :=
  match s with
  | EmptyString => true
  | String c _ => no_space c
  end.

(** The key [k] is in the table. *)
Definition has_key (k : string) (options : list (string * string)) : bool :=
  existsb (fun kv => String.eqb k (fst kv)) options.

(** The line of an entry, without its line feed. *)
Definition entry_line (kv : string * string) : string :=
  fst kv ++ ":" ++ snd kv.

(** A decimal digit or a minus sign. *)
Definition is_numeral (c : ascii) : bool :=
  existsb (Ascii.eqb c) (list_ascii_of_string "0123456789-").

(** A file of two settings and a line without a colon. *)
Definition sample_options : list byte :=
  bytes_of ("fov:0.5" ++ String LF "" ++ "# tuned by hand" ++ String LF ""
            ++ "maxFps:120" ++ String LF "").

Definition options_world : world :=
  world_of [("/home/steve/.nova-client/minecraft/options.txt",
             File sample_options)].

Definition tidy_options : list (string * string) :=
  [("fov", "0.5"); ("maxFps", "120"); ("lang", "en_us")].

Definition tidy_world : world :=
  world_of [("/home/steve/.nova-client/minecraft/options.txt",
             File (options_file offline_host tidy_options))].

(** ** Java installer

    The installer tests a directory and unpacks an archive, two things the
    file map does not describe.  They are taken from the surroundings:
    [tree_exists fs p] is [os.path.exists(p)] for the directory [p],
    [zip_extractall data dir fs] and [tar_extractall data dir fs] give the
    files after [extractall(dir)] on the archive [data], and whether
    opening or unpacking raised. *)
Record unpacker : Type := {
  tree_exists : gmap string node -> string -> bool;
  zip_extractall :
    list byte -> string -> gmap string node -> gmap string node * res unit;
  tar_extractall :
    list byte -> string -> gmap string node -> gmap string node * res unit
}.

Definition java_url_windows : string :=
  "https://github.com/adoptium/temurin21-binaries/releases/download/jdk-21.0.5%2B11/OpenJDK21U-jdk_x64_windows_hotspot_21.0.5_11.zip".

Definition java_url_linux : string :=
  "https://github.com/adoptium/temurin21-binaries/releases/download/jdk-21.0.5%2B11/OpenJDK21U-jdk_x64_linux_hotspot_21.0.5_11.tar.gz".

Definition java_url_mac : string :=
  "https://github.com/adoptium/temurin21-binaries/releases/download/jdk-21.0.5%2B11/OpenJDK21U-jdk_x64_mac_hotspot_21.0.5_11.tar.gz".

(** [java_url] and [archive_ext] of the platform; [None] where the
    installer gives up. *)
Definition java_archive (H : host) : option (string * string) :=
  let system := platform_system H in
  let arch := platform_bits H in
  if String.eqb system "Windows" && String.eqb arch "64bit" then
    Some (java_url_windows, ".zip")
  else if String.eqb system "Linux" && String.eqb arch "64bit" then
    Some (java_url_linux, ".tar.gz")
  else if String.eqb system "Darwin" && String.eqb arch "64bit" then
    Some (java_url_mac, ".tar.gz")
  else None.

Definition java_archive_path (H : host) (archive_ext : string) : string :=
  path_join H (JAVA_DIR H) ("openjdk" ++ archive_ext).

Definition extracted_java_folder (H : host) : string :=
  path_join H (JAVA_DIR H) "jdk-21.0.5+11".

(** Opening the archive at [archive_path] and unpacking it into
    [JAVA_DIR]. *)
Definition unpack_java (H : host) (U : unpacker) (archive_path : string)
    (w : world) : world * res unit :=
  match files w !! archive_path with
  | Some (File data) =>
      let (fs, r) :=
        if String.eqb (platform_system H) "Windows" then
          zip_extractall U data (JAVA_DIR H) (files w)
        else tar_extractall U data (JAVA_DIR H) (files w) in
      ({| files := fs; requests := requests w |}, r)
  | _ => (w, Raise)
  end.

(** [install_java_if_needed] *)
Definition install_java_if_needed (H : host) (U : unpacker) (w : world)
    : world * bool :=
  if is_java_installed H (files w) 21 then (w, true)
  else
    match java_archive H with
    | None => (w, false)
    | Some (java_url, archive_ext) =>
        let archive_path := java_archive_path H archive_ext in
        if tree_exists U (files w) (extracted_java_folder H) then (w, true)
        else
          let (w1, fetched) := urlretrieve H (JStr java_url) archive_path w in
          match fetched with
          | Raise => (w1, false)
          | Ret _ =>
              let (w2, unpacked) := unpack_java H U archive_path w1 in
              match unpacked with
              | Raise => (w2, false)
              | Ret _ =>
                  let (w3, removed) := os_remove archive_path w2 in
                  match removed with
                  | Raise => (w3, false)
                  | Ret _ => (w3, true)
                  end
              end
          end
    end.

(** ** Launch *)

(** The value a dict with hashable keys holds for the hashable key [k]. *)
Fixpoint dict_find (k : json) (d : list (json * json)) : option json :=
  match d with
  | [] => None
  | (k', v) :: d' => if scalar_eq k k' then Some v else dict_find k d'
  end.

(** [d.get(k)] *)
Definition dict_get (k : json) (d : list (json * json)) : json :=
  match dict_find k d with
  | Some v => v
  | None => JNull
  end.

(** [prepare_and_launch].  [selected_version] and [raw_username] are what
    the two widgets hold, [ram_gb] is [int(self.ram_scale.get())].  The
    result is [Ret (Some launch_cmd)] when [subprocess.Popen] is called
    with [launch_cmd], [Ret None] when the method returns before that and
    [Raise] when an exception leaves it; it is [None] when [fuel] does not
    cover the nested call of [download_version_files]. *)
Definition prepare_and_launch (H : host) (U : unpacker) (fuel : nat)
    (st : app) (c : cheats) (selected_version raw_username : string)
    (ram_gb : Z) (w : world) : option (world * res (option (list json))) :=
  if String.eqb selected_version "" then Some (w, Ret None)
  else
    let username := strip raw_username in
    if String.eqb username "" || String.eqb username "Enter Username" then
      Some (w, Ret None)
    else
      let (w1, installed) := install_java_if_needed H U w in
      if negb installed then Some (w1, Ret None)
      else
        let version_url := dict_get (JStr selected_version) (versions st) in
        if negb (truthy version_url) then Some (w1, Ret None)
        else
          match
            download_version_files H fuel selected_version version_url w1
          with
          | None => None
          | Some (w2, Raise) => Some (w2, Raise)
          | Some (w2, Ret downloaded) =>
              if negb downloaded then Some (w2, Ret None)
              else
                let w3 := modify_options_txt H 60 w2 in
                match
                  build_launch_command H c (files w3) selected_version
                    username ram_gb
                with
                | Raise => Some (w3, Raise)
                | Ret [] => Some (w3, Ret None)
                | Ret launch_cmd => Some (w3, Ret (Some launch_cmd))
                end
          end.

(** An unpacker that finds no tree and puts the archive's bytes where the
    managed executable is expected. *)
Definition sample_unpacker : unpacker :=
  {| tree_exists := fun _ _ => false;
     zip_extractall := fun _ _ fs => (fs, Raise);
     tar_extractall := fun data _ fs => (<[managed_java := File data]> fs,
                                         Ret tt) |}.

(** A host without a system runtime whose server holds the archive of the
    managed one. *)
Definition installing_host : host :=
  sample_host [(java_url_linux, "jdk")] sample_docs "{}".

Definition known_versions : app :=
  {| versions := [(JStr "1.21", metadata_url)];
     version_categories := no_categories |}.

(** ** Order of the categories *)

(** [x] is not smaller than [y]: the comparison is defined and false. *)
Definition not_below (x y : json) : bool :=
  match py_lt x y with
  | Ret false => true
  | _ => false
  end.

(** No element of [l] is smaller than a later one. *)
Fixpoint descending (l : list json) : bool :=
  match l with
  | [] => true
  | x :: rest => forallb (not_below x) rest && descending rest
  end.

(** The four categories that the loader sorts. *)
Definition sorted_category (k : category) : bool :=
  match k with
  | LatestRelease | LatestSnapshot => false
  | _ => true
  end.

Definition listed_releases : list json :=
  [manifest_entry "1.20.6" "release" "https://meta.example/1.20.6.json";
   manifest_entry "1.21" "release" "https://meta.example/1.21.json";
   manifest_entry "1.9" "release" "https://meta.example/1.9.json";
   manifest_entry "1.10" "release" "https://meta.example/1.10.json";
   manifest_entry "24w33a" "snapshot" "https://meta.example/24w33a.json"].

(** ** Platform flags *)

Definition mac_host : host :=
  {| platform_system := "Darwin";
     platform_bits := "64bit";
     pathsep := ":";
     path_join := posix_join;
     BASE_DIR := "/Users/steve/.nova-client";
     network := fun _ => None;
     json_loads := fun _ => None;
     json_load := fun _ => None;
     json_dump := fun _ => [];
     zip_infolist := fun _ => None;
     zip_target := posix_join;
     py_repr := fun _ => "None";
     local_java := ProbeRaises;
     system_java := ProbeMajor 21;
     truncated := fun _ => None;
     foreign_options := fun _ data => data |}.

(** ** How the acquisition comes by its metadata document *)

(** The world after the document [d] was fetched from [u] and written. *)
Definition after_fetch (H : host) (version_id u : string) (d : json)
    (w : world) : world :=
  {| files := <[version_json_path H version_id := File (json_dump H d)]>
                (files w);
     requests := requests w ++ [UrlOpen u] |}.

(** The world after the local document was deleted. *)
Definition without_document (H : host) (version_id : string) (w : world)
    : world :=
  {| files := delete (version_json_path H version_id) (files w);
     requests := requests w |}.

(** [obtains H version_id version_url w nested w1 d]: the first stage of
    [download_version_files] ends with the document [d] in the world [w1].
    The document is the local one, or the one fetched because there was
    none, or ([nested]) the one fetched by the nested call after a local
    copy that does not parse was deleted. *)
Inductive obtains (H : host) (version_id : string) (version_url : json)
    (w : world) : bool -> world -> json -> Prop :=
| obtains_local (data : list byte) (d : json) :
    files w !! version_json_path H version_id = Some (File data) ->
    json_load H data = Some d ->
    obtains H version_id version_url w false w d
| obtains_fresh (u : string) (body : list byte) (d : json) :
    files w !! version_json_path H version_id = None ->
    version_url = JStr u ->
    network H u = Some body ->
    json_loads H body = Some d ->
    obtains H version_id version_url w false
      (after_fetch H version_id u d w) d
| obtains_repaired (data : list byte) (u : string) (body : list byte)
    (d : json) :
    files w !! version_json_path H version_id = Some (File data) ->
    json_load H data = None ->
    version_url = JStr u ->
    network H u = Some body ->
    json_loads H body = Some d ->
    obtains H version_id version_url w true
      (after_fetch H version_id u d (without_document H version_id w)) d.

(** The fuel that covers the run: the nested call takes one unit more. *)
Definition enough (nested : bool) (fuel : nat) : nat :=
  if nested then S (S fuel) else S fuel.

(** What the caller of the nested call makes of its result. *)
Definition settled (nested : bool) (r : world * res bool)
    : world * res bool :=
  if nested then absorbed r else r.

(** The library loop from the native part of its current entry on. *)
Definition after_natives (H : host) (version_id : string) (lib : json)
    (rest : list json) (w : world) : world * res unit :=
  match download_natives H (natives_dir H version_id) lib w with
  | (w1, Raise) => (w1, Raise)
  | (w1, Ret _) =>
      download_libraries H (libraries_dir H) (natives_dir H version_id)
        rest w1
  end.

(** A library with a primary archive and a native bundle for Linux. *)
Definition library_d : json :=
  JObj [("name", JStr "org.example:d:4.0");
        ("natives", JObj [("linux", JStr "natives-linux")]);
        ("downloads",
         JObj [("artifact",
                JObj [("path", JStr "org/example/d/4.0/d-4.0.jar");
                      ("sha1", JStr sha1_of_nothing);
                      ("url", JStr "https://libraries.example/d-4.0.jar")]);
               ("classifiers",
                JObj [("natives-linux",
                       JObj [("sha1", JStr sha1_of_abc);
                             ("url",
                              JStr "https://libraries.example/d-natives.jar")])])])].

Definition path_d : string :=
  "/home/steve/.nova-client/minecraft/libraries/org/example/d/4.0/d-4.0.jar".

Definition path_d_natives : string :=
  "/home/steve/.nova-client/minecraft/versions/1.21/natives/4.0-natives-linux.jar".

Definition first_run_docs : list (string * json) :=
  [("metadata with d", sample_metadata [library_d])].

(** A first run: nothing is on disk; the server returns the metadata
    document and a main archive with another digest than the expected
    one. *)
Definition first_run_bad_jar : host :=
  sample_host
    [("https://meta.example/1.21.json", "metadata with d");
     ("https://piston.example/client.jar", "corrupted")]
    first_run_docs "{}".

(** A first run in which the main archive and the native bundle arrive
    intact and the primary archive of the library does not. *)
Definition first_run_bad_library : host :=
  sample_host
    [("https://meta.example/1.21.json", "metadata with d");
     ("https://piston.example/client.jar", "abc");
     ("https://libraries.example/d-4.0.jar", "corrupted");
     ("https://libraries.example/d-natives.jar", "abc")]
    first_run_docs "{}".

Definition empty_world : world := world_of [].

(** ** The parts of the launch command *)

(** The runtime arguments of the command: those of the document, then the
    two platform flags. *)
Definition runtime_arguments (H : host) (version_data : json)
    : res (list json) :=
  jvm_args0 <- jvm_arguments H version_data ;;
  jvm_args1 <- add_on_darwin H "-XstartOnFirstThread" jvm_args0 ;;
  add_on_darwin H "-Dorg.lwjgl.opengl.Display.allowSoftwareOpenGL=true"
    jvm_args1.

(** The program arguments of the command: those of the document, each
    passed through the replacements; [None] when the document has none. *)
Definition program_arguments (H : host) (version_data : json)
    (version username : string) : res (option (list json)) :=
  game <- game_arguments H version_data ;;
  match game with
  | None => Ret None
  | Some game_args =>
      table <- replacements H version_data version username ;;
      final_game_args <- substitute_all table game_args ;;
      Ret (Some final_game_args)
  end.

(** The command: the head, the runtime arguments, the cheat flags, the
    classpath after the flag of the builder, the entry point, the program
    arguments. *)
Definition launch_command (H : host) (c : cheats) (version : string)
    (ram : Z) (java_path : string) (jvm : list json)
    (classpath_str : string) (main_class : json) (game : list json)
    : list json :=
  command_head H version ram java_path ++ jvm ++ cheat_args c
  ++ [JStr "-cp"; JStr classpath_str; main_class] ++ game.

(** The cache of version 1.21 without the archive of the first library. *)
Definition world_missing_a : world :=
  world_of [(json_path_1_21, File (bytes_of "metadata with a and b"));
            (jar_path_1_21, File (bytes_of "abc"));
            (path_b, File (bytes_of "abc"));
            (managed_java, File (bytes_of "java"))].

(** The runtime and program arguments of the sample document for the user
    Steve. *)
Definition sample_runtime_arguments : list json :=
  [JStr "-Dlauncher.user=${auth_player_name}";
   JStr "-Dos.tag=${version_name}";
   JStr "-cp";
   JStr "${classpath}"].

Definition sample_program_arguments : list json :=
  [JStr "--username Steve"; JStr "Steve@1.21"].

Definition library_b_fields : list (string * json) :=
  [("name", JStr "org.example:b:2.0");
   ("downloads",
    JObj [("artifact",
           JObj [("path", JStr "org/example/b/2.0/b-2.0.jar");
                 ("sha1", JStr sha1_of_abc);
                 ("url", JStr "https://libraries.example/b-2.0.jar")])])].

(** The cache of version 1.21 without the main archive. *)
Definition world_missing_jar : world :=
  world_of [(json_path_1_21, File (bytes_of "metadata with a and b"));
            (path_a, File []);
            (path_b, File (bytes_of "abc"));
            (managed_java, File (bytes_of "java"))].
(** * Properties *)

Example sha1_abc :
  sha1_hex (bytes_of "abc") = "a9993e364706816aba3e25717850c26c9cd0d89d".
Proof. vm_compute. reflexivity. Qed.

Example sha1_empty :
  sha1_hex [] = "da39a3ee5e6b4b0d3255bfef95601890afd80709".
Proof. vm_compute. reflexivity. Qed.

Example sha1_two_blocks :
  sha1_hex (bytes_of "abcdbcdecdefdefgefghfghighijhijkijkljklmklmnlmnomnopnopq")
  = "84983e441c3bd26ebaae4aa1f95129e5e54670f1".
Proof. vm_compute. reflexivity. Qed.

Example md5_empty : md5_hex [] = "d41d8cd98f00b204e9800998ecf8427e".
Proof. vm_compute. reflexivity. Qed.

Example md5_abc : md5_hex (bytes_of "abc") = "900150983cd24fb0d6963f7d28e17f72".
Proof. vm_compute. reflexivity. Qed.

Example offline_uuid_steve :
  generate_offline_uuid "Steve" = "5627dd98-e6be-bc21-f8a8-e92344183641".
Proof. vm_compute. reflexivity. Qed.

(** ** The Python operations at sample inputs *)

Example str_replace_all_occurrences :
  str_replace "ab" "x" "abcabab" = "xcxx".
Proof. reflexivity. Qed.

Example str_replace_leftmost_first : str_replace "aa" "b" "aaa" = "ba".
Proof. reflexivity. Qed.

Example str_replace_empty_pattern : str_replace "" "-" "abc" = "-a-b-c-".
Proof. reflexivity. Qed.

Example split_ws_runs :
  split_ws "  --width 854	--demo " "" = ["--width"; "854"; "--demo"].
Proof. reflexivity. Qed.

Example last_field_of_coordinate :
  last_field ":" "org.lwjgl:lwjgl:3.3.3" "" = "3.3.3".
Proof. reflexivity. Qed.

Example str_contains_inside :
  str_contains "-XstartOnFirstThread" "-Xss1M -XstartOnFirstThread" = true.
Proof. reflexivity. Qed.

Example sort_reverse_identifiers :
  sort_reverse [JStr "1.9"; JStr "1.21"; JStr "1.10"; JStr "1.8.9"]
  = Ret [JStr "1.9"; JStr "1.8.9"; JStr "1.21"; JStr "1.10"].
Proof. reflexivity. Qed.

Example sort_reverse_mixed_raises :
  sort_reverse [JStr "1.9"; JNum 7] = Raise.
Proof. reflexivity. Qed.

Example posix_join_relative :
  posix_join "/home/steve" "minecraft" = "/home/steve/minecraft".
Proof. reflexivity. Qed.

Example posix_join_absolute : posix_join "/home/steve" "/tmp/x" = "/tmp/x".
Proof. reflexivity. Qed.

(** ** Rule evaluator *)

Example allow_then_disallow_osx :
  is_library_allowed
    (JObj [("name", JStr "org.lwjgl:lwjgl:3.3.3");
           ("rules",
            JArr [JObj [("action", JStr "allow")];
                  JObj [("action", JStr "disallow");
                        ("os", JObj [("name", JStr "osx")])]])])
    "linux" = Ret true /\
  is_library_allowed
    (JObj [("name", JStr "org.lwjgl:lwjgl:3.3.3");
           ("rules",
            JArr [JObj [("action", JStr "allow")];
                  JObj [("action", JStr "disallow");
                        ("os", JObj [("name", JStr "osx")])]])])
    "osx" = Ret false.
Proof. split; reflexivity. Qed.

Lemma library_rules_loop_veto current_os rules :
  Forall (fun r => is_dict r = true) rules ->
  Exists (matching_disallow current_os) rules ->
  forall allow, library_rules_loop rules current_os allow = Ret false.
Proof.
  intros Hd Hex. induction Hex as [rule rest Hm | rule rest _ IH]; intros allow.
  - destruct Hm as (m & -> & Hf & Ha & Hos). cbn. rewrite Hf, Ha. cbn.
    destruct Hos as [Hos | (o & Hos & Hn)]; rewrite Hos; cbn.
    + reflexivity.
    + rewrite Hn. cbn. rewrite String.eqb_refl. reflexivity.
  - inversion Hd as [| r l Hr Hrest]; subst.
    destruct rule as [| | | | |m]; try discriminate. cbn.
    destruct (assoc "features" m); [apply IH; assumption|].
    destruct (os_match _ _); [|apply IH; assumption].
    destruct (json_eq_str _ "allow"); [apply IH; assumption|].
    destruct (json_eq_str _ "disallow"); [reflexivity|apply IH; assumption].
Qed.

Lemma argument_rules_loop_veto current_os rules :
  Forall (fun r => is_dict r = true) rules ->
  Exists (matching_disallow current_os) rules ->
  forall allow, argument_rules_loop rules current_os allow = Ret false.
Proof.
  intros Hd Hex. induction Hex as [rule rest Hm | rule rest _ IH]; intros allow.
  - destruct Hm as (m & -> & Hf & Ha & Hos). cbn. rewrite Hf, Ha. cbn.
    destruct Hos as [Hos | (o & Hos & Hn)]; rewrite Hos; cbn.
    + reflexivity.
    + rewrite Hn. cbn. rewrite String.eqb_refl. reflexivity.
  - inversion Hd as [| r l Hr Hrest]; subst.
    destruct rule as [| | | | |m]; try discriminate. cbn.
    destruct (negb (is_none _)); [apply IH; assumption|].
    destruct (os_match _ _); [|apply IH; assumption].
    destruct (json_eq_str _ "allow"); [apply IH; assumption|].
    destruct (json_eq_str _ "disallow"); [reflexivity|apply IH; assumption].
Qed.

(** C2: a rule list (a list of rule objects) that contains a matching
    disallow rule evaluates to false, both when it is the rule list of a
    library entry given to [is_library_allowed] and when it is given to
    [evaluate_rules], whatever allow rules stand before or after it. *)
Theorem disallow_vetoes (current_os : string) (rules : list json) :
  Forall (fun r => is_dict r = true) rules ->
  Exists (matching_disallow current_os) rules ->
  (forall lib, assoc "rules" lib = Some (JArr rules) ->
     is_library_allowed (JObj lib) current_os = Ret false) /\
  evaluate_rules (JArr rules) current_os = Ret false.
Proof.
  intros Hd Hex. split.
  - intros lib Hl. unfold is_library_allowed. cbn. rewrite Hl. cbn.
    apply library_rules_loop_veto; assumption.
  - destruct rules as [|r rest]; [inversion Hex|].
    unfold evaluate_rules. apply argument_rules_loop_veto; assumption.
Qed.

Definition allow_all : json := JObj [("action", JStr "allow")].

Definition disallow_osx : json :=
  JObj [("action", JStr "disallow"); ("os", JObj [("name", JStr "osx")])].

Lemma disallow_vetoes_witness :
  (forall lib, assoc "rules" lib = Some (JArr [allow_all; disallow_osx; allow_all]) ->
     is_library_allowed (JObj lib) "osx" = Ret false) /\
  evaluate_rules (JArr [allow_all; disallow_osx; allow_all]) "osx" = Ret false.
Proof.
  apply (disallow_vetoes "osx" [allow_all; disallow_osx; allow_all]).
  - repeat constructor.
  - apply Exists_cons_tl, Exists_cons_hd.
    exists [("action", JStr "disallow"); ("os", JObj [("name", JStr "osx")])].
    repeat split. right. exists [("name", JStr "osx")]. split; reflexivity.
Defined.

(** C3, as stated, fails twice: a library entry whose rule list is present
    but empty is not applicable, and an argument object that has no rule
    list is dropped instead of included. *)
Lemma empty_or_missing_rules_counterexample :
  ~ (forall lib current_os,
       assoc "rules" lib = None \/ assoc "rules" lib = Some (JArr []) ->
       is_library_allowed (JObj lib) current_os = Ret true) /\
  ~ (forall arg value rest current_os,
       assoc "rules" arg = None \/ assoc "rules" arg = Some (JArr []) ->
       assoc "value" arg = Some value ->
       expand_arguments (JObj arg :: rest) current_os =
       (more <- expand_arguments rest current_os ;;
        Ret (argument_values value ++ more))).
Proof.
  split.
  - intros H.
    specialize (H [("name", JStr "org.lwjgl:lwjgl:3.3.3"); ("rules", JArr [])]
                  "linux" (or_intror eq_refl)).
    discriminate H.
  - intros H.
    specialize (H [("value", JStr "--demo")] (JStr "--demo") [] "linux"
                  (or_introl eq_refl) eq_refl).
    discriminate H.
Qed.

(** C3, amended: a library entry with no rule list is applicable on every
    platform; [evaluate_rules] is true on an empty list and on a value that
    is not a list; a conditional argument (an object with both a rule list
    and a value) whose rule list is empty or null is included; an argument
    object with no rule list is not conditional and is skipped. *)
Theorem empty_rules_amended :
  (forall lib current_os,
     assoc "rules" lib = None ->
     is_library_allowed (JObj lib) current_os = Ret true) /\
  (forall rules current_os,
     rules = JArr [] \/ is_list rules = false ->
     evaluate_rules rules current_os = Ret true) /\
  (forall arg value rest current_os,
     assoc "rules" arg = Some (JArr []) \/ assoc "rules" arg = Some JNull ->
     assoc "value" arg = Some value ->
     expand_arguments (JObj arg :: rest) current_os =
     (more <- expand_arguments rest current_os ;;
      Ret (argument_values value ++ more))) /\
  (forall arg rest current_os,
     assoc "rules" arg = None ->
     expand_arguments (JObj arg :: rest) current_os =
     expand_arguments rest current_os).
Proof.
  repeat split.
  - intros lib os Hl. unfold is_library_allowed. cbn. rewrite Hl. reflexivity.
  - intros rules os [-> | Hl]; [reflexivity|].
    destruct rules; try reflexivity. discriminate.
  - intros arg value rest os Hr Hv. cbn. rewrite Hv.
    destruct Hr as [-> | ->]; cbn;
      destruct value; cbn; destruct (expand_arguments rest os); reflexivity.
  - intros arg rest os Hr. cbn. rewrite Hr. cbn.
    destruct (expand_arguments rest os); reflexivity.
Qed.

Lemma empty_rules_amended_witness :
  is_library_allowed (JObj [("name", JStr "org.lwjgl:lwjgl:3.3.3")]) "linux"
    = Ret true /\
  evaluate_rules (JArr []) "windows" = Ret true /\
  expand_arguments
    [JObj [("rules", JArr []); ("value", JArr [JStr "--width"; JStr "854"])];
     JStr "--demo"] "linux"
    = Ret [JStr "--width"; JStr "854"; JStr "--demo"] /\
  expand_arguments [JObj [("value", JStr "--demo")]; JStr "--fullscreen"] "linux"
    = Ret [JStr "--fullscreen"].
Proof.
  destruct empty_rules_amended as (Hlib & Hrules & Harg & Hskip).
  split; [|split; [|split]].
  - apply Hlib. reflexivity.
  - apply Hrules. left. reflexivity.
  - rewrite (Harg _ (JArr [JStr "--width"; JStr "854"])); [reflexivity | left; reflexivity | reflexivity].
  - rewrite Hskip; reflexivity.
Defined.

(** ** Content verifier *)

Lemma read_chunks_all (n : nat) (fuel : nat) :
  (0 < n)%nat ->
  forall (data acc : list byte),
    (length data < fuel)%nat ->
    fold_left hash_update (read_chunks fuel n data) acc = acc ++ data.
Proof.
  intros Hn. induction fuel as [|fuel IH]; intros data acc Hlen; [lia|].
  cbn [read_chunks].
  destruct (firstn n data) as [|b chunk] eqn:Hchunk.
  - destruct data as [|d data]; [cbn; rewrite app_nil_r; reflexivity|].
    destruct n; [lia | discriminate Hchunk].
  - cbn [fold_left]. rewrite IH.
    + unfold hash_update. rewrite <- Hchunk, <- app_assoc.
      rewrite firstn_skipn. reflexivity.
    + assert (Hd : data <> []) by (intros ->; destruct n; discriminate).
      rewrite length_skipn. destruct data; [congruence|]. cbn in *. lia.
Qed.

Lemma verify_file_whole (fs : gmap string node) (p : string) (e : json) :
  verify_file fs p e =
  match fs !! p with
  | Some (File data) => json_eq_str e (sha1_hex data)
  | _ => false
  end.
Proof.
  unfold verify_file. destruct (fs !! p) as [[data|]|]; try reflexivity.
  rewrite read_chunks_all; [reflexivity | unfold chunk_size; lia | lia].
Qed.

Lemma hex_digit_lower (x : Z) : lower_char (hex_digit x) = hex_digit x.
Proof.
  destruct x as [|q|q]; try reflexivity.
  do 4 (destruct q as [q|q|]; try reflexivity).
Qed.

Lemma hex_word_lower (n : nat) :
  forall x acc, str_lower acc = acc -> str_lower (hex_word n x acc) = hex_word n x acc.
Proof.
  induction n as [|n IH]; intros x acc Hacc; cbn [hex_word]; [assumption|].
  apply IH. cbn [str_lower]. rewrite hex_digit_lower, Hacc. reflexivity.
Qed.

Lemma sha1_hex_lower (data : list byte) :
  str_lower (sha1_hex data) = sha1_hex data.
Proof.
  unfold sha1_hex. destruct (sha1 data) as [[[[h0 h1] h2] h3] h4].
  repeat apply hex_word_lower. reflexivity.
Qed.

Lemma json_eq_str_true (j : json) (s : string) :
  json_eq_str j s = true <-> j = JStr s.
Proof.
  destruct j; cbn; try (split; [discriminate | intros [=]]).
  rewrite String.eqb_eq. split; [intros ->; reflexivity | intros [= ->]; reflexivity].
Qed.

(** C4, as stated, fails: the comparison is case-sensitive, so the
    uppercase spelling of the digest of the file's contents does not
    verify. *)
Lemma verify_file_uppercase_counterexample :
  let fs : gmap string node := {[ "/cache/1.21.jar" := File (bytes_of "abc") ]} in
  let expected := "A9993E364706816ABA3E25717850C26C9CD0D89D" in
  str_lower expected = sha1_hex (bytes_of "abc") /\
  verify_file fs "/cache/1.21.jar" (JStr expected) = false.
Proof. vm_compute. split; reflexivity. Qed.

(** C4, amended: [verify_file] is false when nothing is at the path or when
    it cannot be read; on a readable file it is true exactly when the
    expected digest is, character for character, the lowercase SHA-1 hex
    digest of the whole contents; an expected digest with an uppercase
    letter never verifies. *)
Theorem verify_file_exact (fs : gmap string node) (p : string) :
  (fs !! p = None -> forall e, verify_file fs p e = false) /\
  (fs !! p = Some Dir -> forall e, verify_file fs p e = false) /\
  (forall data e, fs !! p = Some (File data) ->
     (verify_file fs p e = true <-> e = JStr (sha1_hex data))) /\
  (forall s, has_upper s -> verify_file fs p (JStr s) = false).
Proof.
  split; [|split; [|split]].
  - intros Hp e. rewrite verify_file_whole, Hp. reflexivity.
  - intros Hp e. rewrite verify_file_whole, Hp. reflexivity.
  - intros data e Hp. rewrite verify_file_whole, Hp. apply json_eq_str_true.
  - intros s Hs. rewrite verify_file_whole.
    destruct (fs !! p) as [[data|]|]; try reflexivity.
    destruct (json_eq_str (JStr s) (sha1_hex data)) eqn:He; [|reflexivity].
    apply json_eq_str_true in He. injection He as ->.
    exfalso. apply Hs. apply sha1_hex_lower.
Qed.

Lemma verify_file_exact_witness :
  let fs : gmap string node := {[ "/cache/1.21.jar" := File (bytes_of "abc") ]} in
  verify_file fs "/cache/1.21.jar"
    (JStr "a9993e364706816aba3e25717850c26c9cd0d89d") = true /\
  verify_file fs "/cache/1.21.jar"
    (JStr "A9993E364706816ABA3E25717850C26C9CD0D89D") = false /\
  verify_file fs "/cache/absent.jar"
    (JStr "a9993e364706816aba3e25717850c26c9cd0d89d") = false.
Proof.
  intros fs.
  destruct (verify_file_exact fs "/cache/1.21.jar") as (_ & _ & Hfile & Hupper).
  destruct (verify_file_exact fs "/cache/absent.jar") as (Hnone & _).
  split; [|split].
  - apply (Hfile (bytes_of "abc")); [reflexivity | vm_compute; reflexivity].
  - apply Hupper. vm_compute. discriminate.
  - apply Hnone. reflexivity.
Defined.

(** ** Manifest loader *)

Lemma holds_app (s : string) (l1 l2 : list json) :
  holds s (l1 ++ l2) = holds s l1 || holds s l2.
Proof. unfold holds. apply existsb_app. Qed.

Lemma scalar_eq_str (s : string) (j : json) :
  scalar_eq (JStr s) j = json_eq_str j s.
Proof. destruct j; cbn; try reflexivity. apply String.eqb_sym. Qed.

Ltac holds_case :=
  cbn [members version_categories latest_release latest_snapshot release
       snapshot old_beta old_alpha];
  rewrite ?holds_app; cbn;
  rewrite ?orb_false_r, ?andb_false_r, ?andb_true_r, ?orb_false_r;
  reflexivity.

Lemma classify_holds (lr ls v : json) (st st' : app) (s' : string) :
  classify lr ls v st = (st', Ret tt) ->
  py_getitem v "id" = Ret (JStr s') ->
  forall s k,
    holds s (members k (version_categories st')) =
    holds s (members k (version_categories st)) || entry_in lr ls s k v.
Proof.
  intros Hc Hid s k. unfold entry_in, designated, entry_type. rewrite Hid.
  unfold classify in Hc. rewrite Hid in Hc.
  destruct (py_getitem v "url") as [url|]; cbn [bind hashable] in Hc;
    [|discriminate].
  rewrite !scalar_eq_str in Hc.
  destruct (json_eq_str lr s').
  { injection Hc as <-. destruct k; holds_case. }
  destruct (json_eq_str ls s').
  { injection Hc as <-. destruct k; holds_case. }
  destruct (py_getitem v "type") as [ty|]; [|discriminate].
  repeat
    (match type of Hc with
     | context [if json_eq_str ty ?t then _ else _] =>
         destruct (json_eq_str ty t)
     end;
     [injection Hc as <-; destruct k; holds_case|]).
  injection Hc as <-. destruct k; holds_case.
Qed.

Lemma classify_all_holds (lr ls : json) (vs : list json) :
  Forall (fun v => exists s, py_getitem v "id" = Ret (JStr s)) vs ->
  forall st st',
    classify_all lr ls vs st = (st', Ret tt) ->
    forall s k,
      holds s (members k (version_categories st')) =
      holds s (members k (version_categories st))
      || existsb (entry_in lr ls s k) vs.
Proof.
  induction 1 as [|v vs [s' Hid] _ IH]; intros st st' Hc s k.
  - injection Hc as <-. cbn. rewrite orb_false_r. reflexivity.
  - cbn [classify_all] in Hc.
    destruct (classify lr ls v st) as [st1 [[]|]] eqn:Hv; [|discriminate].
    rewrite (IH _ _ Hc), (classify_holds _ _ _ _ _ _ Hv Hid). cbn [existsb].
    rewrite orb_assoc. reflexivity.
Qed.

Lemma insert_desc_holds (s : string) (x : json) :
  forall l l', insert_desc x l = Ret l' -> holds s l' = holds s (x :: l).
Proof.
  unfold holds.
  induction l as [|y l IH]; intros l' Hi; cbn [insert_desc] in Hi.
  - injection Hi as <-. reflexivity.
  - destruct (py_lt x y) as [[|]|]; cbn [bind] in Hi; try discriminate.
    + destruct (insert_desc x l) as [r|]; cbn [bind] in Hi; [|discriminate].
      injection Hi as <-. cbn [existsb]. rewrite (IH r eq_refl). cbn [existsb].
      destruct (json_eq_str x s), (json_eq_str y s); reflexivity.
    + injection Hi as <-. reflexivity.
Qed.

Lemma sort_reverse_holds (s : string) :
  forall l l', sort_reverse l = Ret l' -> holds s l' = holds s l.
Proof.
  induction l as [|x l IH]; intros l' Hs; cbn [sort_reverse] in Hs.
  - injection Hs as <-. reflexivity.
  - destruct (sort_reverse l) as [r|]; cbn [bind] in Hs; [|discriminate].
    rewrite (insert_desc_holds s x r l' Hs). unfold holds in *. cbn [existsb].
    rewrite (IH r eq_refl). reflexivity.
Qed.

Lemma sort_categories_holds (c c' : categories) :
  sort_categories c = (c', Ret tt) ->
  forall s k, holds s (members k c') = holds s (members k c).
Proof.
  unfold sort_categories. intros Hs s k.
  destruct (sort_reverse (release c)) as [r|] eqn:Hr; [|discriminate].
  destruct (sort_reverse (snapshot c)) as [sn|] eqn:Hsn; [|discriminate].
  destruct (sort_reverse (old_beta c)) as [b|] eqn:Hb; [|discriminate].
  destruct (sort_reverse (old_alpha c)) as [a|] eqn:Ha; [|discriminate].
  injection Hs as <-.
  destruct k; cbn; try reflexivity; eauto using sort_reverse_holds.
Qed.

Lemma entry_in_unique (lr ls : json) (vs : list json) (names : list string) :
  Forall2 (fun v n => py_getitem v "id" = Ret (JStr n)) vs names ->
  NoDup names ->
  forall v s k, In v vs -> py_getitem v "id" = Ret (JStr s) ->
    existsb (entry_in lr ls s k) vs
    = bool_decide (designated lr ls s (entry_type v) = Some k).
Proof.
  induction 1 as [|v0 n0 vs names Hid0 Hrest IH]; intros Hnd v s k Hin Hid.
  - destruct Hin.
  - apply NoDup_cons in Hnd as [Hn0 Hnd]. cbn [existsb].
    assert (Hother : forall v', In v' vs ->
              py_getitem v' "id" <> Ret (JStr n0)).
    { clear -Hrest Hn0. induction Hrest as [|v1 n1 vs names H1 _ IH1];
        intros v' Hin'; [destruct Hin'|].
      apply not_elem_of_cons in Hn0 as [Hne Hn0].
      destruct Hin' as [<- | Hin']; [|apply IH1; assumption].
      rewrite H1. intros [= ->]. congruence. }
    destruct Hin as [<- | Hin].
    + unfold entry_in at 1. rewrite Hid0. rewrite Hid0 in Hid.
      injection Hid as ->. rewrite String.eqb_refl. cbn.
      destruct (bool_decide _); [reflexivity|]. cbn.
      apply not_true_is_false. intros Hex.
      apply existsb_exists in Hex as (v' & Hin' & He).
      unfold entry_in in He.
      destruct (py_getitem v' "id") as [[| | |s'| |]|] eqn:Hid';
        try discriminate.
      apply andb_prop in He as [He _]. apply String.eqb_eq in He. subst s'.
      exact (Hother v' Hin' Hid').
    + unfold entry_in at 1. rewrite Hid0.
      destruct (String.eqb n0 s) eqn:He.
      * apply String.eqb_eq in He. subst n0.
        exfalso. exact (Hother v Hin Hid).
      * cbn. apply IH; assumption.
Qed.

(** C5, as stated, fails: an entry whose type is none of the four known
    ones (and which is not one of the two latest) lands in no category, and
    an identifier listed twice with two types lands in two. *)
Lemma manifest_classification_counterexample :
  let listed :=
    [manifest_entry "1.21" "release" "https://meta.example/1.21.json";
     manifest_entry "3D Shareware v1.34" "pending" "https://meta.example/3d.json";
     manifest_entry "1.0" "release" "https://meta.example/1.0.json";
     manifest_entry "1.0" "old_alpha" "https://meta.example/1.0a.json"] in
  let '(st', ok) :=
    load_version_manifest (Some (sample_manifest listed)) empty_app in
  ok = true /\
  categories_holding "3D Shareware v1.34" (version_categories st') = 0 /\
  categories_holding "1.0" (version_categories st') = 2.
Proof. vm_compute. repeat split. Qed.

(** C5, amended: after a successful load of a manifest whose listed
    identifiers are pairwise distinct strings, an entry is in a category
    exactly when that category is the one designated for it (a "latest"
    designation first, else its type); so an entry that is one of the two
    latest ones or has one of the four known types is in exactly one
    category, an entry with any other type is in none, and the identifier
    equal to latest.release is in Latest Release and not in Release. *)
Theorem manifest_classification
    (manifest latest lr ls : json) (vs : list json) (names : list string)
    (st st' : app) :
  load_version_manifest (Some manifest) st = (st', true) ->
  py_getitem manifest "latest" = Ret latest ->
  py_getitem latest "release" = Ret lr ->
  py_getitem latest "snapshot" = Ret ls ->
  py_getitem manifest "versions" = Ret (JArr vs) ->
  Forall2 (fun v n => py_getitem v "id" = Ret (JStr n)) vs names ->
  NoDup names ->
  forall v s, In v vs -> py_getitem v "id" = Ret (JStr s) ->
    let c := version_categories st' in
    (forall k, holds s (members k c) = true
               <-> designated lr ls s (entry_type v) = Some k) /\
    categories_holding s c
      = match designated lr ls s (entry_type v) with
        | Some _ => 1
        | None => 0
        end /\
    (json_eq_str lr s = true ->
     holds s (latest_release c) = true /\ holds s (release c) = false).
Proof.
  intros Hload Hlatest Hlr Hls Hvs Hids Hnd v s Hin Hid c.
  assert (Hk : forall k, holds s (members k c)
                         = bool_decide (designated lr ls s (entry_type v) = Some k)).
  { intros k. subst c. unfold load_version_manifest in Hload.
    rewrite Hlatest in Hload. cbn [bind] in Hload.
    rewrite Hlr, Hls, Hvs in Hload. cbn [bind py_iter] in Hload.
    destruct (classify_all lr ls vs _) as [st1 [[]|]] eqn:Hc; [|discriminate].
    destruct (sort_categories _) as [c1 [[]|]] eqn:Hs; [|discriminate].
    injection Hload as <-. cbn [version_categories].
    rewrite (sort_categories_holds _ _ Hs).
    rewrite (classify_all_holds lr ls vs) with (st := {| versions := []; version_categories := no_categories |}) (st' := st1).
    - rewrite (entry_in_unique lr ls vs names Hids Hnd v s k Hin Hid).
      destruct k; reflexivity.
    - clear -Hids. induction Hids; constructor; eauto.
    - exact Hc. }
  pose proof (Hk LatestRelease) as H1. pose proof (Hk LatestSnapshot) as H2.
  pose proof (Hk Release) as H3. pose proof (Hk Snapshot) as H4.
  pose proof (Hk OldBeta) as H5. pose proof (Hk OldAlpha) as H6.
  cbn [members] in H1, H2, H3, H4, H5, H6.
  split; [|split].
  - intros k. rewrite Hk. apply bool_decide_eq_true.
  - unfold categories_holding. rewrite H1, H2, H3, H4, H5, H6.
    destruct (designated lr ls s (entry_type v)) as [[]|]; reflexivity.
  - intros Hl. rewrite H1, H3.
    unfold designated. rewrite Hl. split; reflexivity.
Qed.

Definition listed_sample : list json :=
  [manifest_entry "1.21" "release" "https://meta.example/1.21.json";
   manifest_entry "24w33a" "snapshot" "https://meta.example/24w33a.json";
   manifest_entry "1.20.6" "release" "https://meta.example/1.20.6.json";
   manifest_entry "b1.7.3" "old_beta" "https://meta.example/b1.7.3.json";
   manifest_entry "3D Shareware v1.34" "pending" "https://meta.example/3d.json"].

Lemma manifest_classification_witness :
  let c :=
    version_categories
      (fst (load_version_manifest (Some (sample_manifest listed_sample))
              empty_app)) in
  categories_holding "1.21" c = 1 /\
  holds "1.21" (latest_release c) = true /\
  holds "1.21" (release c) = false /\
  categories_holding "b1.7.3" c = 1 /\
  categories_holding "3D Shareware v1.34" c = 0.
Proof.
  intros c.
  pose proof (manifest_classification (sample_manifest listed_sample)
    (JObj [("release", JStr "1.21"); ("snapshot", JStr "24w33a")])
    (JStr "1.21") (JStr "24w33a") listed_sample
    ["1.21"; "24w33a"; "1.20.6"; "b1.7.3"; "3D Shareware v1.34"]
    empty_app
    (fst (load_version_manifest (Some (sample_manifest listed_sample))
            empty_app))) as H.
  assert (Hnd : NoDup ["1.21"; "24w33a"; "1.20.6"; "b1.7.3"; "3D Shareware v1.34"]).
  { repeat (apply NoDup_cons_2; [vm_compute; intros Hin;
      repeat (apply elem_of_cons in Hin as [Hin | Hin]; [discriminate Hin|]);
      inversion Hin|]). apply NoDup_nil_2. }
  specialize (H ltac:(vm_compute; reflexivity) eq_refl eq_refl eq_refl eq_refl
                ltac:(repeat constructor) Hnd).
  destruct (H (manifest_entry "1.21" "release" "https://meta.example/1.21.json")
              "1.21" ltac:(cbn; tauto) eq_refl) as (_ & H1 & H2).
  destruct (H (manifest_entry "b1.7.3" "old_beta" "https://meta.example/b1.7.3.json")
              "b1.7.3" ltac:(cbn; tauto) eq_refl) as (_ & H3 & _).
  destruct (H (manifest_entry "3D Shareware v1.34" "pending" "https://meta.example/3d.json")
              "3D Shareware v1.34" ltac:(cbn; tauto) eq_refl) as (_ & H4 & _).
  destruct (H2 eq_refl) as [H2a H2b].
  split; [exact H1|]. split; [exact H2a|]. split; [exact H2b|].
  split; [exact H3 | exact H4].
Defined.

(** ** Artifact acquisition *)

Lemma verify_file_exists (w : world) (p : string) (e : json) :
  verify_file (files w) p e = true -> path_exists w p = true.
Proof.
  rewrite verify_file_whole. unfold path_exists.
  destruct (files w !! p); [reflexivity | discriminate].
Qed.

Lemma needs_download_verified (w : world) (p : string) (e : json) :
  verify_file (files w) p e = true -> needs_download w p e = false.
Proof.
  intros Hv. unfold needs_download.
  rewrite (verify_file_exists _ _ _ Hv), Hv. reflexivity.
Qed.

Lemma verify_file_written (fs : gmap string node) (p : string)
    (body : list byte) (e : json) :
  verify_file (<[p := File body]> fs) p e = json_eq_str e (sha1_hex body).
Proof. rewrite verify_file_whole, lookup_insert_eq. reflexivity. Qed.

Lemma urlretrieve_writes (H : host) (u p : string) (body : list byte)
    (w : world) :
  network H u = Some body ->
  truncated H u = None ->
  files w !! p <> Some Dir ->
  urlretrieve H (JStr u) p w = (after_kept_download u p body w, Ret tt).
Proof.
  intros Hn Htr Hp. unfold urlretrieve, write_file. rewrite Hn, Htr. cbn.
  destruct (files w !! p) as [[d|]|]; try reflexivity. congruence.
Qed.

Lemma remove_after_kept (u p : string) (body : list byte) (w : world) :
  fst (remove_if_exists p (after_kept_download u p body w))
  = after_rejected_download u p w.
Proof.
  unfold remove_if_exists, path_exists, os_remove, after_kept_download.
  cbn. rewrite lookup_insert_eq. cbn. unfold after_rejected_download.
  rewrite delete_insert_eq. reflexivity.
Qed.

(** A download whose body does not have the expected digest. *)
Lemma download_client_jar_rejected (H : host) (version_id : string)
    (version_data info sha : json) (u : string) (body : list byte)
    (w : world) :
  let version_dir := path_join H (VERSIONS_DIR H) version_id in
  let jar_path := version_jar_path H version_id in
  client_info version_data = Ret info ->
  truthy info = true ->
  py_getitem info "url" = Ret (JStr u) ->
  py_getitem info "sha1" = Ret sha ->
  needs_download w jar_path sha = true ->
  files w !! jar_path <> Some Dir ->
  network H u = Some body ->
  truncated H u = None ->
  json_eq_str sha (sha1_hex body) = false ->
  download_client_jar H version_id version_dir version_data w
  = (after_rejected_download u jar_path w, false).
Proof.
  intros version_dir jar_path Hinfo Ht Hurl Hsha Hneed Hdir Hnet Htr Hbad.
  unfold download_client_jar. unfold client_info in Hinfo. rewrite Hinfo.
  rewrite Ht. cbn [negb]. rewrite Hurl, Hsha. cbn [bind].
  fold version_dir. change (path_join H version_dir (version_id ++ ".jar"))
    with jar_path.
  rewrite Hneed, (urlretrieve_writes H u jar_path body w Hnet Htr Hdir).
  cbn [files after_kept_download]. rewrite verify_file_written, Hbad.
  cbn [negb]. rewrite remove_after_kept. reflexivity.
Qed.

Lemma download_client_jar_kept (H : host) (version_id : string)
    (version_data info sha : json) (u : string) (body : list byte)
    (w : world) :
  let version_dir := path_join H (VERSIONS_DIR H) version_id in
  let jar_path := version_jar_path H version_id in
  client_info version_data = Ret info ->
  truthy info = true ->
  py_getitem info "url" = Ret (JStr u) ->
  py_getitem info "sha1" = Ret sha ->
  needs_download w jar_path sha = true ->
  files w !! jar_path <> Some Dir ->
  network H u = Some body ->
  truncated H u = None ->
  json_eq_str sha (sha1_hex body) = true ->
  download_client_jar H version_id version_dir version_data w
  = (after_kept_download u jar_path body w, true).
Proof.
  intros version_dir jar_path Hinfo Ht Hurl Hsha Hneed Hdir Hnet Htr Hok.
  unfold download_client_jar. unfold client_info in Hinfo. rewrite Hinfo.
  rewrite Ht. cbn [negb]. rewrite Hurl, Hsha. cbn [bind].
  fold version_dir. change (path_join H version_dir (version_id ++ ".jar"))
    with jar_path.
  rewrite Hneed, (urlretrieve_writes H u jar_path body w Hnet Htr Hdir).
  cbn [files after_kept_download]. rewrite verify_file_written, Hok.
  reflexivity.
Qed.

Lemma download_client_jar_cached (H : host) (version_id : string)
    (version_data info url sha : json) (w : world) :
  let version_dir := path_join H (VERSIONS_DIR H) version_id in
  client_info version_data = Ret info ->
  truthy info = true ->
  py_getitem info "url" = Ret url ->
  py_getitem info "sha1" = Ret sha ->
  verify_file (files w) (version_jar_path H version_id) sha = true ->
  download_client_jar H version_id version_dir version_data w = (w, true).
Proof.
  intros version_dir Hinfo Ht Hurl Hsha Hv.
  unfold download_client_jar. unfold client_info in Hinfo. rewrite Hinfo.
  rewrite Ht. cbn [negb]. rewrite Hurl, Hsha. cbn [bind].
  fold version_dir.
  change (path_join H version_dir (version_id ++ ".jar"))
    with (version_jar_path H version_id).
  rewrite (needs_download_verified _ _ _ Hv). reflexivity.
Qed.

Lemma py_getitem_obj (m : list (string * json)) (k : string) (v : json) :
  assoc k m = Some v -> py_getitem (JObj m) k = Ret v.
Proof. intros Hk. cbn. rewrite Hk. reflexivity. Qed.

Lemma py_in_obj_some (m : list (string * json)) (k : string) (v : json) :
  assoc k m = Some v -> py_in k (JObj m) = Ret true.
Proof. intros Hk. cbn. rewrite Hk. reflexivity. Qed.

Lemma py_in_obj_none (m : list (string * json)) (k : string) :
  assoc k m = None -> py_in k (JObj m) = Ret false.
Proof. intros Hk. cbn. rewrite Hk. reflexivity. Qed.

Lemma download_artifact_rejected (H : host) (dir : string)
    (fields : list (string * json)) (u rel : string) (sha : json)
    (body : list byte) (w : world) :
  let lib_path := path_join H dir rel in
  primary_archive fields (JStr u) rel sha ->
  needs_download w lib_path sha = true ->
  files w !! lib_path <> Some Dir ->
  network H u = Some body ->
  truncated H u = None ->
  json_eq_str sha (sha1_hex body) = false ->
  download_artifact H dir (JObj fields) w
  = (after_rejected_download u lib_path w, Ret tt).
Proof.
  intros lib_path (dl & info & Hd & Ha & Hu & Hp & Hs) Hneed Hdir Hnet Htr Hbad.
  unfold download_artifact.
  rewrite (py_in_obj_some _ _ _ Hd), (py_getitem_obj _ _ _ Hd).
  cbn [bind]. rewrite (py_in_obj_some _ _ _ Ha), (py_getitem_obj _ _ _ Ha).
  cbn [bind]. rewrite Hu, Hp, Hs. cbn [bind as_str]. fold lib_path.
  rewrite Hneed, (urlretrieve_writes H u lib_path body w Hnet Htr Hdir).
  cbn [files after_kept_download]. rewrite verify_file_written, Hbad.
  cbn [negb]. rewrite remove_after_kept. reflexivity.
Qed.

Lemma download_artifact_cached (H : host) (dir : string)
    (fields : list (string * json)) (url : json) (rel : string) (sha : json)
    (w : world) :
  primary_archive fields url rel sha ->
  verify_file (files w) (path_join H dir rel) sha = true ->
  download_artifact H dir (JObj fields) w = (w, Ret tt).
Proof.
  intros (dl & info & Hd & Ha & Hu & Hp & Hs) Hv.
  unfold download_artifact.
  rewrite (py_in_obj_some _ _ _ Hd), (py_getitem_obj _ _ _ Hd).
  cbn [bind]. rewrite (py_in_obj_some _ _ _ Ha), (py_getitem_obj _ _ _ Ha).
  cbn [bind]. rewrite Hu, Hp, Hs. cbn [bind as_str].
  rewrite (needs_download_verified _ _ _ Hv). reflexivity.
Qed.

Lemma download_artifact_none (H : host) (dir : string)
    (fields : list (string * json)) (w : world) :
  no_primary_archive fields ->
  download_artifact H dir (JObj fields) w = (w, Ret tt).
Proof.
  intros [Hd | (dl & Hd & Ha)]; unfold download_artifact.
  - rewrite (py_in_obj_none _ _ Hd). reflexivity.
  - rewrite (py_in_obj_some _ _ _ Hd), (py_getitem_obj _ _ _ Hd).
    cbn [bind]. rewrite (py_in_obj_none _ _ Ha). reflexivity.
Qed.

Lemma download_natives_none (H : host) (dir : string)
    (fields : list (string * json)) (w : world) :
  assoc "natives" fields = None ->
  download_natives H dir (JObj fields) w = (w, Ret tt).
Proof.
  intros Hn. unfold download_natives. rewrite (py_in_obj_none _ _ Hn).
  reflexivity.
Qed.

Lemma acquire_artifacts_libraries (H : host) (version_id : string)
    (version_data info url sha : json) (libs : list json) (w : world) :
  truthy version_data = true ->
  client_info version_data = Ret info ->
  truthy info = true ->
  py_getitem info "url" = Ret url ->
  py_getitem info "sha1" = Ret sha ->
  verify_file (files w) (version_jar_path H version_id) sha = true ->
  listed_libraries version_data = Ret libs ->
  acquire_artifacts H version_id version_data w
  = finish (download_libraries H (libraries_dir H)
              (natives_dir H version_id) libs w).
Proof.
  intros Ht Hinfo Hti Hurl Hsha Hv Hlibs. unfold acquire_artifacts.
  rewrite Ht. cbn [negb].
  rewrite (download_client_jar_cached H version_id version_data info url sha
             w Hinfo Hti Hurl Hsha Hv).
  unfold listed_libraries in Hlibs. rewrite Hlibs.
  unfold finish, libraries_dir, natives_dir.
  destruct (download_libraries _ _ _ _ _) as [w2 [[]|]]; reflexivity.
Qed.

Lemma download_version_files_local (H : host) (fuel : nat)
    (version_id : string) (version_url version_data : json)
    (data : list byte) (w : world) :
  files w !! version_json_path H version_id = Some (File data) ->
  json_load H data = Some version_data ->
  download_version_files H (S fuel) version_id version_url w
  = Some (acquire_artifacts H version_id version_data w).
Proof.
  intros Hf Hd. cbn [download_version_files].
  unfold path_exists, load_json_file. rewrite Hf. cbn [negb]. rewrite Hd.
  reflexivity.
Qed.

Lemma download_libraries_app (H : host) (ldir ndir : string)
    (before rest : list json) :
  forall w,
    download_libraries H ldir ndir (before ++ rest) w
    = match download_libraries H ldir ndir before w with
      | (w1, Raise) => (w1, Raise)
      | (w1, Ret _) => download_libraries H ldir ndir rest w1
      end.
Proof.
  induction before as [|lib before IH]; intros w; [reflexivity|].
  rewrite <- app_comm_cons. cbn [download_libraries].
  destruct (download_library H ldir ndir lib w) as [w1 [[]|]]; [apply IH|].
  reflexivity.
Qed.

(** *** The request log only gains retrievals after the metadata stage *)

Lemma opens_app (l1 l2 : list request) :
  opens (l1 ++ l2) = (opens l1 + opens l2)%nat.
Proof. unfold opens. rewrite List.filter_app, List.length_app. reflexivity. Qed.

Lemma write_file_requests (p : string) (data : list byte) (w : world) :
  requests (fst (write_file p data w)) = requests w.
Proof. unfold write_file. destruct (files w !! p) as [[|]|]; reflexivity. Qed.

Lemma remove_if_exists_requests (p : string) (w : world) :
  requests (fst (remove_if_exists p w)) = requests w.
Proof.
  unfold remove_if_exists, os_remove.
  destruct (path_exists w p); [|reflexivity].
  destruct (files w !! p) as [[|]|]; reflexivity.
Qed.

Lemma urlretrieve_opens (H : host) (url : json) (p : string) (w : world) :
  opens (requests (fst (urlretrieve H url p w))) = opens (requests w).
Proof.
  unfold urlretrieve. destruct url; try reflexivity.
  destruct (network H s).
  - destruct (truncated H s); cbn [fst]; rewrite write_file_requests;
      unfold logged; cbn [requests]; rewrite opens_app; apply Nat.add_0_r.
  - unfold logged. cbn [fst requests]. rewrite opens_app. apply Nat.add_0_r.
Qed.

Lemma extract_members_requests (H : host) (dir : string)
    (members : list zip_member) :
  forall w, requests (extract_members H dir members w) = requests w.
Proof.
  induction members as [|m members IH]; intros w; cbn [extract_members];
    [reflexivity|].
  destruct (is_dir m); rewrite IH; [reflexivity|].
  apply write_file_requests.
Qed.

Lemma extract_natives_requests (H : host) (dir p : string) (w : world) :
  requests (extract_natives H dir p w) = requests w.
Proof.
  unfold extract_natives. destruct (files w !! p) as [[data|]|]; try reflexivity.
  destruct (zip_infolist H data); [apply extract_members_requests|reflexivity].
Qed.

(** The shared shape of the three download blocks. *)
Lemma fetch_block_opens (H : host) (url : json) (p : string) (e : json)
    (w : world) (keep : world -> world) :
  (forall w1, requests (keep w1) = requests w1) ->
  opens (requests (fst (
    match urlretrieve H url p w with
    | (w1, Raise) => (w1, Ret tt)
    | (w1, Ret _) =>
        if negb (verify_file (files w1) p e)
        then (fst (remove_if_exists p w1), Ret tt)
        else (keep w1, Ret tt)
    end))) = opens (requests w).
Proof.
  intros Hkeep. pose proof (urlretrieve_opens H url p w) as Hu.
  destruct (urlretrieve H url p w) as [w1 [[]|]]; cbn [fst] in *;
    [|assumption].
  destruct (negb _); cbn [fst].
  - rewrite remove_if_exists_requests. assumption.
  - rewrite Hkeep. assumption.
Qed.

Lemma download_client_jar_opens (H : host) (version_id version_dir : string)
    (version_data : json) (w : world) :
  opens (requests (fst (download_client_jar H version_id version_dir
                          version_data w))) = opens (requests w).
Proof.
  unfold download_client_jar.
  destruct (bind _ _) as [jar_info|]; [|reflexivity].
  destruct (negb (truthy jar_info)); [reflexivity|].
  destruct (bind _ _) as [[jar_url sha]|]; [|reflexivity].
  destruct (needs_download _ _ _); [|reflexivity].
  pose proof (urlretrieve_opens H jar_url
                (path_join H version_dir (version_id ++ ".jar")) w) as Hu.
  destruct (urlretrieve _ _ _ _) as [w1 [[]|]]; cbn [fst] in *; [|assumption].
  destruct (negb _); cbn [fst]; [|assumption].
  rewrite remove_if_exists_requests. assumption.
Qed.

Lemma download_artifact_opens (H : host) (dir : string) (lib : json)
    (w : world) :
  opens (requests (fst (download_artifact H dir lib w))) = opens (requests w).
Proof.
  unfold download_artifact.
  destruct (bind _ _) as [[|]|]; try reflexivity.
  destruct (bind _ _) as [[[lib_url lib_path] sha]|]; [|reflexivity].
  destruct (needs_download _ _ _); [|reflexivity].
  apply (fetch_block_opens H lib_url lib_path sha w (fun w1 => w1)).
  reflexivity.
Qed.

Lemma download_natives_opens (H : host) (dir : string) (lib : json)
    (w : world) :
  opens (requests (fst (download_natives H dir lib w))) = opens (requests w).
Proof.
  unfold download_natives.
  destruct (bind _ _) as [[|]|]; try reflexivity.
  destruct (bind _ _) as [[classifier [|]]|]; try reflexivity.
  destruct (bind _ _) as [[[native_url native_path] sha]|]; [|reflexivity].
  destruct (needs_download _ _ _); [|reflexivity].
  apply (fetch_block_opens H native_url native_path sha w
           (extract_natives H dir native_path)).
  intros w1. apply extract_natives_requests.
Qed.

Lemma download_libraries_opens (H : host) (ldir ndir : string)
    (libs : list json) :
  forall w,
    opens (requests (fst (download_libraries H ldir ndir libs w)))
    = opens (requests w).
Proof.
  induction libs as [|lib libs IH]; intros w; cbn [download_libraries];
    [reflexivity|].
  assert (Hlib : opens (requests (fst (download_library H ldir ndir lib w)))
                 = opens (requests w)).
  { unfold download_library.
    destruct (is_library_allowed lib (current_os H)) as [[|]|];
      try reflexivity.
    pose proof (download_artifact_opens H ldir lib w) as Ha.
    destruct (download_artifact H ldir lib w) as [w1 [[]|]]; cbn [fst] in *;
      [|assumption].
    rewrite download_natives_opens. assumption. }
  destruct (download_library H ldir ndir lib w) as [w1 [[]|]]; cbn [fst] in *;
    [|assumption].
  rewrite IH. assumption.
Qed.

Lemma acquire_artifacts_opens (H : host) (version_id : string)
    (version_data : json) (w : world) :
  opens (requests (fst (acquire_artifacts H version_id version_data w)))
  = opens (requests w).
Proof.
  unfold acquire_artifacts. destruct (negb (truthy version_data));
    [reflexivity|].
  pose proof (download_client_jar_opens H version_id
                (path_join H (VERSIONS_DIR H) version_id) version_data w) as Hj.
  destruct (download_client_jar _ _ _ _ _) as [w1 [|]]; cbn [fst] in *;
    [|assumption].
  destruct (bind _ _) as [libs|]; [|assumption].
  pose proof (download_libraries_opens H
                (path_join H (MINECRAFT_DIR H) "libraries")
                (path_join H (path_join H (VERSIONS_DIR H) version_id) "natives")
                libs w1) as Hl.
  destruct (download_libraries _ _ _ _ _) as [w2 [[]|]]; cbn [fst] in *;
    congruence.
Qed.

(** *** The self-repair of the metadata document *)

Lemma opens_snoc_open (l : list request) (u : string) :
  opens (l ++ [UrlOpen u]) = S (opens l).
Proof. rewrite opens_app. cbn. lia. Qed.

(** With no local document the call does not recurse: one unit of fuel is
    as good as any. *)
Lemma download_version_files_fresh (H : host) (fuel : nat)
    (version_id : string) (version_url : json) (w : world) :
  files w !! version_json_path H version_id = None ->
  download_version_files H (S fuel) version_id version_url w
  = download_version_files H 1 version_id version_url w /\
  exists r, download_version_files H 1 version_id version_url w = Some r.
Proof.
  intros Hf. cbn [download_version_files]. unfold path_exists. rewrite Hf.
  cbn [negb]. split; [reflexivity|].
  destruct version_url as [| | |u| |]; eauto.
  destruct (network H u) as [body|]; eauto.
  destruct (json_loads H body) as [d|]; eauto.
  destruct (write_file _ _ _) as [w2 [[]|]]; eauto.
Qed.

Lemma download_version_files_repair (H : host) (fuel : nat)
    (version_id : string) (version_url : json) (data : list byte)
    (w : world) :
  files w !! version_json_path H version_id = Some (File data) ->
  json_load H data = None ->
  download_version_files H (S (S fuel)) version_id version_url w
  = option_map absorbed
      (download_version_files H 1 version_id version_url
         {| files := delete (version_json_path H version_id) (files w);
            requests := requests w |}).
Proof.
  intros Hf Hd.
  set (w1 := {| files := delete (version_json_path H version_id) (files w);
                requests := requests w |}).
  assert (Hgone : files w1 !! version_json_path H version_id = None)
    by apply lookup_delete_eq.
  destruct (download_version_files_fresh H fuel version_id version_url w1
              Hgone) as [Hfuel _].
  change (download_version_files H (S (S fuel)) version_id version_url w)
    with (let version_json_path := version_json_path H version_id in
      if negb (path_exists w version_json_path) then
        match version_url with
        | JStr u =>
            let w1 := logged (UrlOpen u) w in
            match network H u with
            | None => Some (w1, Ret false)
            | Some body =>
                match json_loads H body with
                | None => Some (w1, Ret false)
                | Some data =>
                    match write_file version_json_path (json_dump H data)
                            w1 with
                    | (w2, Raise) => Some (w2, Ret false)
                    | (w2, Ret _) =>
                        Some (acquire_artifacts H version_id data w2)
                    end
                end
            end
        | _ => Some (w, Ret false)
        end
      else
        match load_json_file H w version_json_path with
        | Some version_data =>
            Some (acquire_artifacts H version_id version_data w)
        | None =>
            match remove_if_exists version_json_path w with
            | (w1, Raise) => Some (w1, Ret false)
            | (w1, Ret _) =>
                match download_version_files H (S fuel) version_id version_url
                        w1 with
                | None => None
                | Some (w2, Raise) => Some (w2, Ret false)
                | Some (w2, Ret b) => Some (w2, Ret b)
                end
            end
        end).
  cbv zeta. unfold path_exists, load_json_file, remove_if_exists, path_exists,
    os_remove. rewrite Hf. cbn [negb]. rewrite Hd. fold w1. rewrite Hfuel.
  destruct (download_version_files H 1 version_id version_url w1)
    as [[w2 [b|]]|]; reflexivity.
Qed.

Lemma download_version_files_dir (H : host) (fuel : nat)
    (version_id : string) (version_url : json) (w : world) :
  files w !! version_json_path H version_id = Some Dir ->
  download_version_files H (S fuel) version_id version_url w
  = Some (w, Ret false).
Proof.
  intros Hf. cbn [download_version_files].
  unfold path_exists, load_json_file, remove_if_exists, path_exists, os_remove.
  rewrite Hf. reflexivity.
Qed.

Lemma download_version_files_fuel (H : host) (fuel : nat)
    (version_id : string) (version_url : json) (w : world) :
  download_version_files H (S (S fuel)) version_id version_url w
  = download_version_files H 2 version_id version_url w.
Proof.
  destruct (files w !! version_json_path H version_id) as [[data|]|] eqn:Hf.
  - destruct (json_load H data) as [d|] eqn:Hd.
    + rewrite !(download_version_files_local H _ version_id version_url d data
                  w Hf Hd). reflexivity.
    + rewrite (download_version_files_repair H fuel version_id version_url
                 data w Hf Hd).
      rewrite (download_version_files_repair H 0 version_id version_url
                 data w Hf Hd). reflexivity.
  - rewrite !download_version_files_dir by assumption. reflexivity.
  - destruct (download_version_files_fresh H (S fuel) version_id version_url w
                Hf) as [-> _].
    destruct (download_version_files_fresh H 1 version_id version_url w Hf)
      as [-> _]. reflexivity.
Qed.

Lemma acquire_artifacts_after_jar (H : host) (version_id : string)
    (version_data : json) (libs : list json) (w wj : world) :
  truthy version_data = true ->
  download_client_jar H version_id (path_join H (VERSIONS_DIR H) version_id)
    version_data w = (wj, true) ->
  listed_libraries version_data = Ret libs ->
  acquire_artifacts H version_id version_data w
  = finish (download_libraries H (libraries_dir H) (natives_dir H version_id)
              libs wj).
Proof.
  intros Ht Hjar Hlibs. unfold acquire_artifacts. rewrite Ht. cbn [negb].
  rewrite Hjar. unfold listed_libraries in Hlibs. rewrite Hlibs.
  unfold finish, libraries_dir, natives_dir.
  destruct (download_libraries _ _ _ _ _) as [w2 [[]|]]; reflexivity.
Qed.

Lemma download_version_files_fetch (H : host) (fuel : nat)
    (version_id u : string) (body : list byte) (d : json) (w : world) :
  files w !! version_json_path H version_id = None ->
  network H u = Some body ->
  json_loads H body = Some d ->
  download_version_files H (S fuel) version_id (JStr u) w
  = Some (acquire_artifacts H version_id d (after_fetch H version_id u d w)).
Proof.
  intros Hf Hn Hd. cbn [download_version_files]. unfold path_exists.
  rewrite Hf. cbn [negb]. rewrite Hn, Hd. unfold write_file, logged.
  cbn [files requests]. rewrite Hf. reflexivity.
Qed.

(** Whichever way the document is obtained, the run is the acquisition of
    its artifacts from the world the first stage leaves. *)
Lemma download_version_files_obtains (H : host) (fuel : nat)
    (version_id : string) (version_url : json) (w w1 : world)
    (nested : bool) (d : json) :
  obtains H version_id version_url w nested w1 d ->
  download_version_files H (enough nested fuel) version_id version_url w
  = Some (settled nested (acquire_artifacts H version_id d w1)).
Proof.
  intros [data d' Hf Hd | u body d' Hf -> Hn Hd
          | data u body d' Hf Hd -> Hn Hb]; unfold enough, settled.
  - apply (download_version_files_local H fuel version_id version_url d' data
             w Hf Hd).
  - apply (download_version_files_fetch H fuel version_id u body d' w Hf Hn
             Hd).
  - rewrite (download_version_files_repair H fuel version_id (JStr u) data w
               Hf Hd).
    fold (without_document H version_id w).
    rewrite (download_version_files_fetch H 0 version_id u body d'
               (without_document H version_id w)
               (lookup_delete_eq _ _) Hn Hb).
    reflexivity.
Qed.


(** C9: the load terminates whatever the local and the remote state are
    (two units of fuel, one for the call and one for its nested call,
    always give a result, and more fuel gives the same one).  When the local document exists and does not
    parse, the load deletes it and runs the nested call once, from the
    world without the file; the whole load then fetches the document
    exactly once and never lets an exception through; an unreachable or
    malformed remote document makes it return [False], the local copy
    staying deleted. *)
Theorem metadata_repair_bounded (H : host) (fuel : nat) (version_id : string)
    (version_url : json) (w : world) :
  (exists r,
     download_version_files H (S (S fuel)) version_id version_url w = Some r) /\
  download_version_files H (S (S fuel)) version_id version_url w
  = download_version_files H 2 version_id version_url w /\
  (forall data u,
     files w !! version_json_path H version_id = Some (File data) ->
     json_load H data = None ->
     version_url = JStr u ->
     let repaired :=
       {| files := delete (version_json_path H version_id) (files w);
          requests := requests w |} in
     download_version_files H (S (S fuel)) version_id version_url w
     = option_map absorbed
         (download_version_files H 1 version_id version_url repaired) /\
     (exists w' b,
        download_version_files H (S (S fuel)) version_id version_url w
        = Some (w', Ret b) /\
        opens (requests w') = S (opens (requests w))) /\
     (network H u = None \/
      (exists body, network H u = Some body /\ json_loads H body = None) ->
      download_version_files H (S (S fuel)) version_id version_url w
      = Some ({| files := delete (version_json_path H version_id) (files w);
                 requests := requests w ++ [UrlOpen u] |}, Ret false))).
Proof.
  split.
  - destruct (files w !! version_json_path H version_id) as [nd|] eqn:Hf.
    + cbn [download_version_files]. unfold path_exists. rewrite Hf.
      cbn [negb].
      destruct (load_json_file H w _) as [d|] eqn:Hl; [eauto|].
      destruct (remove_if_exists _ w) as [w1 [[]|]] eqn:Hr; [|eauto].
      assert (Hgone : files w1 !! version_json_path H version_id = None).
      { unfold remove_if_exists, path_exists, os_remove in Hr. rewrite Hf in Hr.
        destruct nd; [|discriminate]. injection Hr as <-.
        apply lookup_delete_eq. }
      unfold path_exists. rewrite Hgone. cbn [negb].
      destruct version_url as [| | |u| |]; eauto.
      destruct (network H u) as [body|]; eauto.
      destruct (json_loads H body) as [d|]; eauto.
      destruct (write_file _ _ _) as [w2 [[]|]]; eauto.
      destruct (acquire_artifacts H version_id d w2) as [w3 [b|]]; eauto.
    + destruct (download_version_files_fresh H (S fuel) version_id version_url
                  w Hf) as [-> Hex]. exact Hex.
  - split; [apply download_version_files_fuel|].
    intros data u Hf Hd -> repaired.
    pose proof (download_version_files_repair H fuel version_id (JStr u) data
                  w Hf Hd) as Hrep. fold repaired in Hrep.
    assert (Hgone : files repaired !! version_json_path H version_id = None)
      by apply lookup_delete_eq.
    split; [exact Hrep|]. rewrite Hrep. clear Hrep.
    cbn [download_version_files]. unfold path_exists. rewrite Hgone.
    cbn [negb]. split.
    + destruct (network H u) as [body|];
        [|cbn [option_map absorbed]; eexists _, _; split; [reflexivity|];
          apply opens_snoc_open].
      destruct (json_loads H body) as [d|];
        [|cbn [option_map absorbed]; eexists _, _; split; [reflexivity|];
          apply opens_snoc_open].
      pose proof (write_file_requests (version_json_path H version_id)
                    (json_dump H d) (logged (UrlOpen u) repaired)) as Hw.
      destruct (write_file _ _ _) as [w2 [[]|]]; cbn [fst] in Hw.
      * pose proof (acquire_artifacts_opens H version_id d w2) as Ha.
        destruct (acquire_artifacts H version_id d w2) as [w3 [b|]];
          cbn [fst] in Ha; cbn [option_map absorbed];
          eexists _, _; (split; [reflexivity|]);
          rewrite Ha, Hw; apply opens_snoc_open.
      * cbn [option_map absorbed]. eexists _, _. split; [reflexivity|].
        rewrite Hw. apply opens_snoc_open.
    + intros [Hn | (body & Hn & Hb)]; rewrite Hn; [reflexivity|].
      rewrite Hb. reflexivity.
Qed.

(** *** Acquisition over a verified cache *)

Lemma download_natives_cached (H : host) (version_id : string)
    (fields : list (string * json)) (w : world) :
  natives_cached H version_id w fields ->
  download_natives H (natives_dir H version_id) (JObj fields) w = (w, Ret tt).
Proof.
  unfold download_natives.
  intros [Hn | (natives & Hn & Hos)].
  { rewrite (py_in_obj_none _ _ Hn). reflexivity. }
  rewrite (py_in_obj_some _ _ _ Hn), (py_getitem_obj _ _ _ Hn). cbn [bind].
  destruct Hos as [Hos | (template & Hos & Hdl)].
  { rewrite (py_in_obj_none _ _ Hos). reflexivity. }
  rewrite (py_in_obj_some _ _ _ Hos), (py_getitem_obj _ _ _ Hos).
  cbn [bind as_str]. fold (native_classifier H template).
  destruct Hdl as [Hdl | (dl & Hdl & Hcls)].
  { rewrite (py_in_obj_none _ _ Hdl). reflexivity. }
  rewrite (py_in_obj_some _ _ _ Hdl), (py_getitem_obj _ _ _ Hdl). cbn [bind].
  destruct Hcls as [Hcls | (cls & Hcls & Hc)].
  { rewrite (py_in_obj_none _ _ Hcls). reflexivity. }
  rewrite (py_in_obj_some _ _ _ Hcls), (py_getitem_obj _ _ _ Hcls).
  cbn [bind].
  destruct Hc as [Hc | (info & name & Hc & Hname & url & sha & Hu & Hs & Hv)].
  { rewrite (py_in_obj_none _ _ Hc). reflexivity. }
  rewrite (py_in_obj_some _ _ _ Hc). cbn [bind].
  rewrite (py_getitem_obj _ _ _ Hc). cbn [bind].
  rewrite Hu, (py_getitem_obj _ _ _ Hname), Hs. cbn [bind as_str].
  fold (native_path H version_id name (native_classifier H template)).
  rewrite (needs_download_verified _ _ _ Hv). reflexivity.
Qed.

Lemma download_libraries_cached (H : host) (version_id : string)
    (libs : list json) (w : world) :
  Forall (library_cached H version_id w) libs ->
  download_libraries H (libraries_dir H) (natives_dir H version_id) libs w
  = (w, Ret tt).
Proof.
  induction 1 as [|lib libs Hlib _ IH]; [reflexivity|].
  cbn [download_libraries]. unfold download_library.
  destruct Hlib as [Hno | (Hyes & fields & -> & Harch & Hnat)].
  - rewrite Hno. exact IH.
  - rewrite Hyes.
    assert (Ha : download_artifact H (libraries_dir H) (JObj fields) w
                 = (w, Ret tt)).
    { destruct Harch as [Hnone | (url & rel & sha & Hp & Hv)].
      - apply download_artifact_none. exact Hnone.
      - apply (download_artifact_cached H _ fields url rel sha w Hp Hv). }
    rewrite Ha, (download_natives_cached H version_id fields w Hnat).
    exact IH.
Qed.

(** C6: over a cache in which every artifact of the version is present and
    verified (in particular the one a first complete run leaves), the
    acquisition returns [True] and leaves the world as it found it: the
    request log is unchanged, so no network request is made, and no file
    is written or deleted. *)
Theorem acquisition_idempotent (H : host) (fuel : nat) (version_id : string)
    (version_url : json) (w : world) :
  cache_complete H version_id w ->
  download_version_files H (S fuel) version_id version_url w
  = Some (w, Ret true).
Proof.
  intros (data & d & info & libs & Hf & Hd & Ht & Hinfo & Hti
          & (url & sha & Hurl & Hsha & Hv) & Hlibs & Hall).
  rewrite (download_version_files_local H fuel version_id version_url d data
             w Hf Hd).
  rewrite (acquire_artifacts_libraries H version_id d info url sha libs w
             Ht Hinfo Hti Hurl Hsha Hv Hlibs).
  rewrite (download_libraries_cached H version_id libs w Hall). reflexivity.
Qed.

(** ** Launch plan builder *)

Lemma classpath_libraries_cons (H : host) (fs : gmap string node)
    (dir : string) (fields : list (string * json)) (url : json)
    (rel : string) (sha : json) (rest : list json) :
  is_library_allowed (JObj fields) (current_os H) = Ret true ->
  primary_archive fields url rel sha ->
  classpath_libraries H fs dir (JObj fields :: rest)
  = (more <- classpath_libraries H fs dir rest ;;
     Ret (match fs !! path_join H dir rel with
          | Some _ => path_join H dir rel :: more
          | None => more
          end)).
Proof.
  intros Hallow (dl & info & Hd & Ha & Hu & Hp & Hs).
  cbn [classpath_libraries]. rewrite Hallow. cbn [bind].
  rewrite (py_in_obj_some _ _ _ Hd), (py_getitem_obj _ _ _ Hd). cbn [bind].
  rewrite (py_in_obj_some _ _ _ Ha), (py_getitem_obj _ _ _ Ha). cbn [bind].
  rewrite Hp. cbn [bind as_str].
  destruct (fs !! path_join H dir rel); cbn [bind];
    destruct (classpath_libraries H fs dir rest); reflexivity.
Qed.

Lemma assemble_command_shape (H : host) (c : cheats) (d : json)
    (version username : string) (ram : Z) (java_path : string)
    (main_class : json) (cp : string) (cmd : list json) :
  assemble_command H c d version username ram java_path main_class cp
  = Ret cmd ->
  cmd <> [] ->
  exists jvm game,
    cmd = command_head H version ram java_path ++ jvm ++ cheat_args c
          ++ [JStr "-cp"; JStr cp; main_class] ++ game.
Proof.
  unfold assemble_command. intros Hc Hne.
  destruct (jvm_arguments H d) as [j0|]; cbn [bind] in Hc; [|discriminate].
  destruct (add_on_darwin H _ j0) as [j1|]; cbn [bind] in Hc; [|discriminate].
  destruct (add_on_darwin H _ j1) as [j2|]; cbn [bind] in Hc; [|discriminate].
  destruct (game_arguments H d) as [[g|]|]; cbn [bind] in Hc;
    [|congruence|discriminate].
  destruct (replacements H d version username) as [table|]; cbn [bind] in Hc;
    [|discriminate].
  destruct (substitute_all table g) as [final|]; cbn [bind] in Hc;
    [|discriminate].
  injection Hc as <-. exists j2, final.
  unfold command_head, natives_dir. rewrite <- !app_assoc. reflexivity.
Qed.

Lemma assemble_command_stages (H : host) (c : cheats) (d : json)
    (version username : string) (ram : Z) (java_path : string)
    (main_class : json) (cp : string) :
  assemble_command H c d version username ram java_path main_class cp
  = (jvm <- runtime_arguments H d ;;
     game <- program_arguments H d version username ;;
     match game with
     | None => Ret []
     | Some final =>
         Ret (launch_command H c version ram java_path jvm cp main_class
                final)
     end).
Proof.
  unfold assemble_command, runtime_arguments, program_arguments,
    launch_command, command_head, natives_dir.
  destruct (jvm_arguments H d) as [j0|]; cbn [bind]; [|reflexivity].
  destruct (add_on_darwin H _ j0) as [j1|]; cbn [bind]; [|reflexivity].
  destruct (add_on_darwin H _ j1) as [j2|]; cbn [bind]; [|reflexivity].
  destruct (game_arguments H d) as [[g|]|]; cbn [bind]; try reflexivity.
  destruct (replacements H d version username) as [table|]; cbn [bind];
    [|reflexivity].
  destruct (substitute_all table g) as [final|]; cbn [bind]; [|reflexivity].
  rewrite <- !app_assoc. reflexivity.
Qed.

Lemma launch_command_not_nil (H : host) (c : cheats) (version : string)
    (ram : Z) (java_path : string) (jvm : list json) (cp : string)
    (main_class : json) (game : list json) :
  launch_command H c version ram java_path jvm cp main_class game <> [].
Proof. unfold launch_command, command_head. discriminate. Qed.

(** The stages of a build that returns a command. *)
Lemma build_launch_command_inv (H : host) (c : cheats)
    (fs : gmap string node) (version username : string) (ram : Z)
    (cmd : list json) :
  build_launch_command H c fs version username ram = Ret cmd ->
  cmd <> [] ->
  exists data d java_path main_class libs classpath jvm game,
    fs !! version_json_path H version = Some (File data) /\
    json_load H data = Some d /\
    java_choice H fs = Some java_path /\
    py_get d "mainClass" JNull = Ret main_class /\
    truthy main_class = true /\
    listed_libraries d = Ret libs /\
    classpath_libraries H fs (libraries_dir H) libs = Ret classpath /\
    present fs (version_jar_path H version) /\
    runtime_arguments H d = Ret jvm /\
    program_arguments H d version username = Ret (Some game) /\
    cmd = launch_command H c version ram java_path jvm
            (str_join (pathsep H) (classpath ++ [version_jar_path H version]))
            main_class game.
Proof.
  intros Hb Hne. unfold build_launch_command in Hb. cbv zeta in Hb.
  change (path_join H (path_join H (VERSIONS_DIR H) version)
            (version ++ ".json")) with (version_json_path H version) in Hb.
  destruct (fs !! version_json_path H version) as [[data|]|] eqn:Hf;
    [|congruence|congruence].
  destruct (json_load H data) as [d|] eqn:Hd; [|congruence].
  destruct (java_choice H fs) as [java_path|] eqn:Hj; [|congruence].
  destruct (py_get d "mainClass" JNull) as [main_class|] eqn:Hm;
    cbn [bind] in Hb; [|discriminate].
  destruct (truthy main_class) eqn:Ht; cbn [negb] in Hb; [|congruence].
  destruct (listed <- py_get d "libraries" (JArr []) ;; py_iter listed)
    as [libs|] eqn:Hlibs.
  2:{ destruct (py_get d "libraries" (JArr [])) as [listed|];
        cbn [bind] in Hlibs, Hb; [|discriminate].
      rewrite Hlibs in Hb. discriminate. }
  assert (Hb' : (classpath <-
                   classpath_libraries H fs (libraries_dir H) libs ;;
                 match fs !! version_jar_path H version with
                 | None => Ret []
                 | Some _ =>
                     assemble_command H c d version username ram java_path
                       main_class
                       (str_join (pathsep H)
                          (classpath ++ [version_jar_path H version]))
                 end) = Ret cmd).
  { destruct (py_get d "libraries" (JArr [])) as [listed|];
      cbn [bind] in Hlibs, Hb; [|discriminate].
    rewrite Hlibs in Hb. exact Hb. }
  clear Hb.
  destruct (classpath_libraries H fs (libraries_dir H) libs)
    as [classpath|] eqn:Hcp; cbn [bind] in Hb'; [|discriminate].
  destruct (fs !! version_jar_path H version) as [jar|] eqn:Hjar;
    [|congruence].
  rewrite assemble_command_stages in Hb'.
  destruct (runtime_arguments H d) as [jvm|] eqn:Hjvm; cbn [bind] in Hb';
    [|discriminate].
  destruct (program_arguments H d version username) as [[game|]|] eqn:Hgame;
    cbn [bind] in Hb'; [|congruence|discriminate].
  injection Hb' as <-.
  exists data, d, java_path, main_class, libs, classpath, jvm, game.
  do 7 (split; [first [reflexivity | assumption]|]).
  split; [exists jar; first [reflexivity | assumption]|].
  split; [first [reflexivity | assumption]|].
  split; first [reflexivity | assumption].
Qed.

(** The command of a build all of whose stages give a result. *)
Lemma build_launch_command_stages (H : host) (c : cheats)
    (fs : gmap string node) (version username : string) (ram : Z)
    (data : list byte) (d main_class : json) (java_path : string)
    (libs : list json) (classpath : list string) (jvm game : list json) :
  fs !! version_json_path H version = Some (File data) ->
  json_load H data = Some d ->
  java_choice H fs = Some java_path ->
  py_get d "mainClass" JNull = Ret main_class ->
  truthy main_class = true ->
  listed_libraries d = Ret libs ->
  classpath_libraries H fs (libraries_dir H) libs = Ret classpath ->
  runtime_arguments H d = Ret jvm ->
  program_arguments H d version username = Ret (Some game) ->
  build_launch_command H c fs version username ram
  = match fs !! version_jar_path H version with
    | None => Ret []
    | Some _ =>
        Ret (launch_command H c version ram java_path jvm
               (str_join (pathsep H)
                  (classpath ++ [version_jar_path H version]))
               main_class game)
    end.
Proof.
  intros Hf Hd Hj Hmain Ht Hlibs Hcp Hjvm Hgame.
  unfold build_launch_command. cbv zeta.
  unfold version_json_path in Hf. rewrite Hf, Hd, Hj, Hmain. cbn [bind].
  rewrite Ht. cbn [negb]. unfold listed_libraries in Hlibs.
  destruct (py_get d "libraries" (JArr [])) as [listed|];
    cbn [bind] in Hlibs |- *; [|discriminate].
  rewrite Hlibs. cbn [bind]. fold (libraries_dir H). rewrite Hcp.
  cbn [bind].
  change (path_join H (path_join H (VERSIONS_DIR H) version)
            (version ++ ".jar")) with (version_jar_path H version).
  destruct (fs !! version_jar_path H version); [|reflexivity].
  rewrite assemble_command_stages, Hjvm. cbn [bind]. rewrite Hgame.
  reflexivity.
Qed.

(** C7: for a metadata document whose library list is [A, B], both
    applicable and both with a primary archive, and whose other stages
    (entry point, runtime and program arguments) give a result, the
    builder returns a command, and in it the builder's "-cp" flag is
    followed by the path of A, then of B, then of the main archive M,
    joined with the path separator; when the file of a library is missing
    the builder still returns the command, with that path left out of the
    classpath; a missing main archive makes the build return the failure
    value. *)
Theorem classpath_order (H : host) (c : cheats) (fs : gmap string node)
    (version username : string) (ram : Z) (data : list byte)
    (d main_class : json) (java_path : string)
    (fa fb : list (string * json)) (ua ub : json) (ra rb : string)
    (sa sb : json) (jvm game : list json) :
  fs !! version_json_path H version = Some (File data) ->
  json_load H data = Some d ->
  java_choice H fs = Some java_path ->
  py_get d "mainClass" JNull = Ret main_class ->
  truthy main_class = true ->
  listed_libraries d = Ret [JObj fa; JObj fb] ->
  is_library_allowed (JObj fa) (current_os H) = Ret true ->
  is_library_allowed (JObj fb) (current_os H) = Ret true ->
  primary_archive fa ua ra sa ->
  primary_archive fb ub rb sb ->
  runtime_arguments H d = Ret jvm ->
  program_arguments H d version username = Ret (Some game) ->
  let pa := path_join H (libraries_dir H) ra in
  let pb := path_join H (libraries_dir H) rb in
  let m := version_jar_path H version in
  let sep := pathsep H in
  let build := build_launch_command H c fs version username ram in
  let command classpath_str :=
    command_head H version ram java_path ++ jvm ++ cheat_args c
    ++ [JStr "-cp"; JStr classpath_str; main_class] ++ game in
  (present fs pa -> present fs pb -> present fs m ->
   build = Ret (command (pa ++ sep ++ pb ++ sep ++ m)%string)) /\
  (fs !! pa = None -> present fs pb -> present fs m ->
   build = Ret (command (pb ++ sep ++ m)%string)) /\
  (present fs pa -> fs !! pb = None -> present fs m ->
   build = Ret (command (pa ++ sep ++ m)%string)) /\
  (fs !! pa = None -> fs !! pb = None -> present fs m ->
   build = Ret (command m)) /\
  (fs !! m = None -> build = Ret []).
Proof.
  intros Hf Hd Hj Hmain Ht Hlibs Haa Hab Hpa Hpb Hjvm Hgame
    pa pb m sep build command.
  assert (Hcp : classpath_libraries H fs (libraries_dir H) [JObj fa; JObj fb]
                = Ret (match fs !! pa with Some _ => [pa] | None => [] end
                       ++ match fs !! pb with Some _ => [pb] | None => [] end)).
  { rewrite (classpath_libraries_cons H fs _ fa ua ra sa [JObj fb] Haa Hpa).
    rewrite (classpath_libraries_cons H fs _ fb ub rb sb [] Hab Hpb).
    cbn [classpath_libraries bind]. fold pa. fold pb.
    destruct (fs !! pa), (fs !! pb); reflexivity. }
  pose proof (build_launch_command_stages H c fs version username ram data d
                main_class java_path _ _ jvm game Hf Hd Hj Hmain Ht Hlibs Hcp
                Hjvm Hgame) as Hbuild.
  fold build in Hbuild. fold m in Hbuild. fold sep in Hbuild.
  unfold launch_command in Hbuild. fold command in Hbuild.
  split; [|split; [|split; [|split]]].
  - intros [na Ha] [nb Hb] [nm Hm]. rewrite Hbuild, Ha, Hb, Hm. reflexivity.
  - intros Ha [nb Hb] [nm Hm]. rewrite Hbuild, Ha, Hb, Hm. reflexivity.
  - intros [na Ha] Hb [nm Hm]. rewrite Hbuild, Ha, Hb, Hm. reflexivity.
  - intros Ha Hb [nm Hm]. rewrite Hbuild, Ha, Hb, Hm. reflexivity.
  - intros Hm. rewrite Hbuild, Hm. reflexivity.
Qed.

(** *** Runtime arguments *)

Lemma expand_arguments_literal (os : string) (args : list json) :
  forall expanded s,
    expand_arguments args os = Ret expanded ->
    In (JStr s) args -> In (JStr s) expanded.
Proof.
  induction args as [|arg args IH]; intros expanded s He Hin; [destruct Hin|].
  cbn [expand_arguments] in He.
  destruct (match arg with JStr _ => _ | _ => _ end) as [here|] eqn:Hh;
    cbn [bind] in He; [|discriminate].
  destruct (expand_arguments args os) as [more|]; cbn [bind] in He;
    [|discriminate].
  injection He as <-. apply List.in_or_app.
  destruct Hin as [-> | Hin].
  - left. injection Hh as <-. left. reflexivity.
  - right. apply (IH more s eq_refl Hin).
Qed.

Lemma expand_arguments_conditional (os : string) (args : list json) :
  forall expanded m rules value v,
    expand_arguments args os = Ret expanded ->
    In (JObj m) args ->
    assoc "rules" m = Some rules ->
    assoc "value" m = Some value ->
    evaluate_rules rules os = Ret true ->
    In v (argument_values value) ->
    In v expanded.
Proof.
  induction args as [|arg args IH];
    intros expanded m rules value v He Hin Hr Hv Hok Hval; [destruct Hin|].
  cbn [expand_arguments] in He.
  destruct (match arg with JStr _ => _ | _ => _ end) as [here|] eqn:Hh;
    cbn [bind] in He; [|discriminate].
  destruct (expand_arguments args os) as [more|]; cbn [bind] in He;
    [|discriminate].
  injection He as <-. apply List.in_or_app.
  destruct Hin as [-> | Hin].
  - left. rewrite Hr, Hv, Hok in Hh. cbn [bind] in Hh.
    destruct value; injection Hh as <-; exact Hval.
  - right. apply (IH more m rules value v eq_refl Hin Hr Hv Hok Hval).
Qed.

Lemma add_on_darwin_extends (H : host) (flag : string) (l l' : list json) :
  add_on_darwin H flag l = Ret l' -> exists extra, l' = l ++ extra.
Proof.
  unfold add_on_darwin. intros Ha.
  destruct (String.eqb _ _).
  - destruct (all_strings l) as [parts|]; cbn [bind] in Ha; [|discriminate].
    destruct (negb _); injection Ha as <-.
    + eexists. reflexivity.
    + exists []. rewrite app_nil_r. reflexivity.
  - injection Ha as <-. exists []. rewrite app_nil_r. reflexivity.
Qed.

Lemma build_launch_command_assembled (H : host) (c : cheats)
    (fs : gmap string node) (version username : string) (ram : Z)
    (data : list byte) (d : json) (cmd : list json) :
  fs !! version_json_path H version = Some (File data) ->
  json_load H data = Some d ->
  build_launch_command H c fs version username ram = Ret cmd ->
  cmd <> [] ->
  exists java_path main_class cp,
    assemble_command H c d version username ram java_path main_class cp
    = Ret cmd.
Proof.
  intros Hf Hd Hb Hne. unfold build_launch_command in Hb. cbv zeta in Hb.
  unfold version_json_path in Hf. rewrite Hf, Hd in Hb.
  destruct (java_choice H fs) as [java_path|]; [|congruence].
  destruct (py_get d "mainClass" JNull) as [main_class|]; cbn [bind] in Hb;
    [|discriminate].
  destruct (negb (truthy main_class)); [congruence|].
  destruct (py_get d "libraries" (JArr [])) as [listed|]; cbn [bind] in Hb;
    [|discriminate].
  destruct (py_iter listed) as [libs|]; cbn [bind] in Hb; [|discriminate].
  destruct (classpath_libraries H fs _ libs) as [classpath|]; cbn [bind] in Hb;
    [|discriminate].
  destruct (fs !! path_join H _ (version ++ ".jar")); [|congruence].
  eexists _, _, _. exact Hb.
Qed.

(** C10: the runtime arguments of the metadata's templated list go into
    the command as they are.  In every command the builder returns, the
    three leading arguments are followed by the expansion of the "jvm"
    list, to which no replacement is applied: every literal entry of the
    list, and every value of a conditional entry whose rules allow it, is
    in the command verbatim, placeholders included. *)
Theorem jvm_arguments_verbatim (H : host) (c : cheats)
    (fs : gmap string node) (version username : string) (ram : Z)
    (data : list byte) (d : json) (args cmd : list json) :
  fs !! version_json_path H version = Some (File data) ->
  json_load H data = Some d ->
  has_arguments d "jvm" = Ret true ->
  listed_arguments d "jvm" = Ret args ->
  build_launch_command H c fs version username ram = Ret cmd ->
  cmd <> [] ->
  (exists java_path expanded rest,
     expand_arguments args (current_os H) = Ret expanded /\
     cmd = command_head H version ram java_path ++ expanded ++ rest) /\
  (forall s, In (JStr s) args -> In (JStr s) cmd) /\
  (forall m rules value v,
     In (JObj m) args ->
     assoc "rules" m = Some rules ->
     assoc "value" m = Some value ->
     evaluate_rules rules (current_os H) = Ret true ->
     In v (argument_values value) ->
     In v cmd).
Proof.
  intros Hf Hd Hhas Hargs Hb Hne.
  destruct (build_launch_command_assembled H c fs version username ram data d
              cmd Hf Hd Hb Hne) as (java_path & main_class & cp & Ha).
  assert (Hshape : exists expanded rest,
            expand_arguments args (current_os H) = Ret expanded /\
            cmd = command_head H version ram java_path ++ expanded ++ rest).
  { unfold assemble_command in Ha. unfold jvm_arguments in Ha.
    rewrite Hhas in Ha. cbn [bind] in Ha. rewrite Hargs in Ha.
    cbn [bind] in Ha.
    destruct (expand_arguments args (current_os H)) as [expanded|];
      cbn [bind] in Ha; [|discriminate].
    destruct (add_on_darwin H _ expanded) as [j1|] eqn:H1; cbn [bind] in Ha;
      [|discriminate].
    destruct (add_on_darwin H _ j1) as [j2|] eqn:H2; cbn [bind] in Ha;
      [|discriminate].
    apply add_on_darwin_extends in H1 as [e1 ->].
    apply add_on_darwin_extends in H2 as [e2 ->].
    destruct (game_arguments H d) as [[g|]|]; cbn [bind] in Ha;
      [|congruence|discriminate].
    destruct (replacements H d version username) as [table|];
      cbn [bind] in Ha; [|discriminate].
    destruct (substitute_all table g) as [final|]; cbn [bind] in Ha;
      [|discriminate].
    injection Ha as <-. eexists expanded, _. split; [reflexivity|].
    unfold command_head, natives_dir. rewrite <- !app_assoc. reflexivity. }
  destruct Hshape as (expanded & rest & He & ->).
  split; [eauto|]. split.
  - intros s Hin. apply List.in_or_app. right. apply List.in_or_app. left.
    apply (expand_arguments_literal _ _ _ _ He Hin).
  - intros m rules value v Hin Hr Hv Hok Hval.
    apply List.in_or_app. right. apply List.in_or_app. left.
    apply (expand_arguments_conditional _ _ _ _ _ _ _ He Hin Hr Hv Hok Hval).
Qed.

(** *** Placeholder substitution *)

Lemma str_app_nil (s : string) : ("" ++ s = s)%string.
Proof. reflexivity. Qed.

Lemma str_app_cons (c : ascii) (a b : string) :
  (String c a ++ b = String c (a ++ b))%string.
Proof. reflexivity. Qed.

Lemma str_app_assoc (a b c : string) : ((a ++ b) ++ c = a ++ (b ++ c))%string.
Proof.
  induction a as [|x a IH]; [reflexivity|].
  rewrite !str_app_cons, IH. reflexivity.
Qed.

Lemma prefix_self_app (k rest : string) : String.prefix k (k ++ rest) = true.
Proof.
  induction k as [|c k IH]; [destruct rest; reflexivity|].
  rewrite str_app_cons. cbn [String.prefix].
  destruct (ascii_dec c c); [exact IH | congruence].
Qed.

Lemma prefix_diverge (k : string) :
  forall k' rest, diverge k k' = true -> String.prefix k (k' ++ rest) = false.
Proof.
  induction k as [|c k IH]; intros [|c' k'] rest Hd; cbn [diverge] in Hd;
    try discriminate.
  rewrite str_app_cons. cbn [String.prefix].
  destruct (ascii_dec c c') as [->|Hne]; [|reflexivity].
  rewrite Ascii.eqb_refl in Hd. apply IH. exact Hd.
Qed.

Lemma replace_scan_skip (old new : string) (a : string) :
  forall rest,
    replace_scan old new (String.length a) (a ++ rest)
    = replace_scan old new 0 rest.
Proof.
  induction a as [|c a IH]; intros rest; [reflexivity|].
  rewrite str_app_cons. cbn [String.length replace_scan]. apply IH.
Qed.

Section Scan.
Variables (k' v : string).

Let k : string := String "$" k'.

Lemma replace_scan_literal (s : string) :
  dollar_free s = true ->
  forall rest,
    replace_scan k v 0 (s ++ rest) = (s ++ replace_scan k v 0 rest)%string.
Proof.
  induction s as [|c s IH]; intros Hs rest; [reflexivity|].
  cbn [dollar_free] in Hs. apply andb_prop in Hs as [Hc Hs].
  rewrite !str_app_cons. cbn [replace_scan]. unfold k at 1.
  cbn [String.prefix].
  destruct (ascii_dec "$" c) as [<-|Hne]; [discriminate Hc|].
  rewrite (IH Hs). reflexivity.
Qed.

Lemma replace_scan_match (rest : string) :
  replace_scan k v 0 (k ++ rest) = (v ++ replace_scan k v 0 rest)%string.
Proof.
  pose proof (prefix_self_app k rest) as Hp.
  assert (Hlen : (String.length k - 1 = String.length k')%nat)
    by (unfold k; cbn [String.length]; lia).
  unfold k at 2 in Hp. unfold k at 2. rewrite str_app_cons in Hp |- *.
  cbn [replace_scan]. rewrite Hp, Hlen, replace_scan_skip. reflexivity.
Qed.

Lemma replace_scan_other (k2 rest : string) :
  key_shaped k2 = true ->
  diverge k k2 = true ->
  replace_scan k v 0 (k2 ++ rest) = (k2 ++ replace_scan k v 0 rest)%string.
Proof.
  intros Hshape Hd. destruct k2 as [|c t2]; [discriminate|].
  cbn [key_shaped] in Hshape. apply andb_prop in Hshape as [_ Ht2].
  pose proof (prefix_diverge k (String c t2) rest Hd) as Hp.
  rewrite !str_app_cons in Hp |- *. cbn [replace_scan]. rewrite Hp.
  rewrite (replace_scan_literal t2 Ht2). reflexivity.
Qed.
End Scan.

Lemma str_replace_key (k v s : string) :
  key_shaped k = true -> str_replace k v s = replace_scan k v 0 s.
Proof. destruct k; [discriminate | reflexivity]. Qed.

Lemma str_replace_template (k v : string) (t : list piece) :
  key_shaped k = true ->
  Forall (piece_fits k) t ->
  str_replace k v (template_text t) = template_text (map (fill k v) t).
Proof.
  intros Hk Ht. rewrite (str_replace_key k v _ Hk).
  destruct k as [|c k']; [discriminate|]. cbn [key_shaped] in Hk.
  apply andb_prop in Hk as [Hc Hk']. apply Ascii.eqb_eq in Hc. subst c.
  induction Ht as [|p t Hp _ IH]; [reflexivity|].
  cbn [template_text map]. destruct p as [s|k2]; cbn [piece_text fill].
  - cbn in Hp. rewrite (replace_scan_literal k' v s Hp), IH. reflexivity.
  - destruct Hp as [Hshape [<- | Hd]].
    + rewrite String.eqb_refl. cbn [piece_text].
      rewrite (replace_scan_match k' v), IH. reflexivity.
    + destruct (String.eqb_spec (String "$" k') k2) as [<- | Hne].
      * cbn [piece_text]. rewrite (replace_scan_match k' v), IH. reflexivity.
      * cbn [piece_text].
        rewrite (replace_scan_other k' v k2 _ Hshape Hd), IH. reflexivity.
Qed.

Lemma template_value_fill (k v : string) (table : list (string * string))
    (t : list piece) :
  template_value ((k, v) :: table) t = template_value table (map (fill k v) t).
Proof.
  induction t as [|p t IH]; [reflexivity|].
  destruct p as [s|k2]; cbn [template_value map fill table_value].
  - rewrite IH. reflexivity.
  - destruct (String.eqb k k2); cbn [template_value]; rewrite IH; reflexivity.
Qed.

Lemma template_value_nil (t : list piece) :
  template_value [] t = template_text t.
Proof.
  induction t as [|p t IH]; [reflexivity|].
  destruct p; cbn; rewrite IH; reflexivity.
Qed.

Lemma substitution_on_templates (table : list (string * string)) :
  forall t,
    Forall (fun kv => key_shaped (fst kv) = true /\
                      dollar_free (snd kv) = true) table ->
    Forall (fun p => Forall (fun kv => piece_fits (fst kv) p) table) t ->
    apply_replacements table (template_text t) = template_value table t.
Proof.
  unfold apply_replacements.
  induction table as [|[k v] table IH]; intros t Htable Ht.
  - cbn. rewrite template_value_nil. reflexivity.
  - cbn [fold_left fst snd]. inversion Htable as [|kv tb [Hk Hv] Htb]; subst.
    cbn [fst snd] in Hk, Hv.
    rewrite (str_replace_template k v t Hk).
    + rewrite template_value_fill. apply IH; [exact Htb|].
      clear -Ht Hv. induction Ht as [|p t Hp _ IHt]; constructor; [|exact IHt].
      apply Forall_cons in Hp as [Hp1 Hp2].
      destruct p as [s|k2]; cbn [fill]; [exact Hp2|].
      destruct (String.eqb k k2); [|exact Hp2].
      apply Forall_true. intros kv. exact Hv.
    + clear -Ht. induction Ht as [|p t Hp _ IHt]; constructor; [|exact IHt].
      apply Forall_cons in Hp as [Hp1 _]. exact Hp1.
Qed.

Lemma pieces_fit (keys : list string) (t : list piece) :
  forallb (piece_ok keys) t = true ->
  Forall (fun p => Forall (fun k => piece_fits k p) keys) t.
Proof.
  intros Ht.
  apply List.Forall_forall. intros p Hp. apply List.Forall_forall. intros k Hin.
  pose proof (proj1 (forallb_forall _ _) Ht p Hp) as Hok.
  destruct p as [s|k2]; cbn [piece_ok piece_fits] in *; [exact Hok|].
  apply andb_prop in Hok as [Hshape Hrow]. split; [exact Hshape|].
  pose proof (proj1 (forallb_forall _ _) Hrow k Hin) as Hcell.
  apply orb_prop in Hcell as [He | Hd]; [left | right; exact Hd].
  apply String.eqb_eq. exact He.
Qed.

(** With keys that are pairwise apart, each key is itself a placeholder a
    template may hold. *)
Lemma known_placeholder_ok (keys : list string) (k : string) :
  keys_apart keys = true -> In k keys -> piece_ok keys (Hole k) = true.
Proof.
  unfold keys_apart. intros Hk Hin. apply andb_prop in Hk as [Hshape Hpair].
  cbn [piece_ok]. apply andb_true_intro. split.
  - exact (proj1 (forallb_forall _ _) Hshape k Hin).
  - apply forallb_forall. intros k' Hin'.
    exact (proj1 (forallb_forall _ _)
             (proj1 (forallb_forall _ _) Hpair k' Hin') k Hin).
Qed.

Example placeholder_keys_apart : keys_apart placeholder_keys = true.
Proof. vm_compute. reflexivity. Qed.

Lemma replacements_keys (H : host) (d : json) (version username : string)
    (table : list (string * string)) :
  replacements H d version username = Ret table ->
  map fst table = placeholder_keys.
Proof.
  unfold replacements. intros Hr.
  destruct (py_get d "assetIndex" _) as [a|]; cbn [bind] in Hr; [|discriminate].
  destruct (py_get a "id" _) as [i|]; cbn [bind] in Hr; [|discriminate].
  destruct (py_get d "type" _) as [ty|]; cbn [bind] in Hr; [|discriminate].
  injection Hr as <-. reflexivity.
Qed.

Lemma substitute_all_strings (table : list (string * string))
    (tokens : list string) :
  substitute_all table (map JStr tokens)
  = Ret (map (fun s => JStr (apply_replacements table s)) tokens).
Proof.
  induction tokens as [|s tokens IH]; [reflexivity|].
  cbn [map substitute_all as_str bind]. rewrite IH. reflexivity.
Qed.

Lemma map_JStr_inj (a b : list string) : map JStr a = map JStr b -> a = b.
Proof.
  revert b. induction a as [|x a IH]; intros [|y b]; try discriminate.
  - reflexivity.
  - cbn [map]. intros [= <- Hab]. rewrite (IH b Hab). reflexivity.
Qed.

Lemma substitute_all_inv (table : list (string * string))
    (game_args final : list json) :
  substitute_all table game_args = Ret final ->
  exists tokens,
    game_args = map JStr tokens /\
    final = map (fun s => JStr (apply_replacements table s)) tokens.
Proof.
  revert final. induction game_args as [|arg rest IH]; intros final Hs.
  - injection Hs as <-. exists []. split; reflexivity.
  - cbn [substitute_all] in Hs.
    destruct arg as [| | |s| |]; cbn [as_str bind] in Hs; try discriminate.
    destruct (substitute_all table rest) as [more|]; cbn [bind] in Hs;
      [|discriminate].
    injection Hs as <-. destruct (IH more eq_refl) as (tokens & -> & ->).
    exists (s :: tokens). split; reflexivity.
Qed.

Lemma program_arguments_inv (H : host) (d : json)
    (version username : string) (final : list json) :
  program_arguments H d version username = Ret (Some final) ->
  exists tokens table,
    game_arguments H d = Ret (Some (map JStr tokens)) /\
    replacements H d version username = Ret table /\
    final = map (fun s => JStr (apply_replacements table s)) tokens.
Proof.
  unfold program_arguments. intros Hp.
  destruct (game_arguments H d) as [[g|]|]; cbn [bind] in Hp;
    try discriminate.
  destruct (replacements H d version username) as [table|]; cbn [bind] in Hp;
    [|discriminate].
  destruct (substitute_all table g) as [more|] eqn:Hs; cbn [bind] in Hp;
    [|discriminate].
  injection Hp as <-. destruct (substitute_all_inv table g more Hs)
    as (tokens & -> & ->).
  exists tokens, table. auto.
Qed.

Lemma table_templates (H : host) (d : json) (version username : string)
    (table : list (string * string)) :
  replacements H d version username = Ret table ->
  forallb (fun kv => dollar_free (snd kv)) table = true ->
  forall t,
    forallb (piece_ok (map fst table)) t = true ->
    apply_replacements table (template_text t) = template_value table t.
Proof.
  intros Hr Hvals t Ht.
  pose proof (replacements_keys H d version username table Hr) as Hkeys.
  assert (Hshape : forallb key_shaped (map fst table) = true)
    by (rewrite Hkeys; vm_compute; reflexivity).
  apply substitution_on_templates.
  + apply List.Forall_forall. intros [k v] Hin. cbn [fst snd]. split.
    * apply (proj1 (forallb_forall _ _) Hshape k).
      apply (List.in_map fst _ _ Hin).
    * exact (proj1 (forallb_forall _ _) Hvals (k, v) Hin).
  + pose proof (pieces_fit _ t Ht) as Hfit.
    apply List.Forall_forall. intros p Hp.
    pose proof (proj1 (List.Forall_forall _ _) Hfit p Hp) as Hrow.
    apply List.Forall_forall. intros kv Hin.
    apply (proj1 (List.Forall_forall _ _) Hrow (fst kv)).
    apply (List.in_map fst _ _ Hin).
Qed.

(** C8, as stated, fails: the keys are replaced one after the other, so a
    value that holds a later key is replaced in its turn.  With the user
    name "${version_name}" the builder turns the program argument
    "--username ${auth_player_name}" of the document into
    "--username 1.21", not into "--username ${version_name}". *)
Lemma placeholders_substituted_counterexample :
  exists table cmd,
    replacements offline_host metadata_a_b "1.21" "${version_name}"
    = Ret table /\
    table_value "${auth_player_name}" table = Some "${version_name}" /\
    game_arguments offline_host metadata_a_b
    = Ret (Some [JStr "--username ${auth_player_name}";
                 JStr "${auth_player_name}@${version_name}"]) /\
    build_launch_command offline_host speed_only (files cached_world) "1.21"
      "${version_name}" 4 = Ret cmd /\
    In (JStr "--username 1.21") cmd /\
    ~ In (JStr "--username ${version_name}") cmd.
Proof.
  eexists _, _. split; [reflexivity|]. split; [reflexivity|].
  split; [reflexivity|]. split; [vm_compute; reflexivity|]. split.
  - cbn. tauto.
  - intros Hin. cbn in Hin.
    repeat (destruct Hin as [Hin|Hin]; [discriminate Hin|]). exact Hin.
Qed.

(** C8, amended: every program argument token goes through the
    replacement of every key of the table, one key after the other.  In
    every command the builder returns, the program arguments are the
    tokens of the document, in their order, each passed through the
    replacements; the token "--username ${auth_player_name}" with the
    username "Steve" becomes "--username Steve"; and, when no replacement
    value has a dollar sign, a token made of literal text (without dollar
    sign) and of any placeholders, wherever they stand and however many
    they are, is in the command as that text with each placeholder of the
    table replaced by its value (a placeholder the table does not know
    stays). *)
Theorem placeholders_substituted (H : host) (c : cheats)
    (fs : gmap string node) (version username : string) (ram : Z)
    (cmd : list json) :
  build_launch_command H c fs version username ram = Ret cmd ->
  cmd <> [] ->
  exists data d java_path jvm classpath_str main_class tokens table,
    fs !! version_json_path H version = Some (File data) /\
    json_load H data = Some d /\
    game_arguments H d = Ret (Some (map JStr tokens)) /\
    replacements H d version username = Ret table /\
    cmd = command_head H version ram java_path ++ jvm ++ cheat_args c
          ++ [JStr "-cp"; JStr classpath_str; main_class]
          ++ map (fun s => JStr (apply_replacements table s)) tokens /\
    (username = "Steve" ->
     In "--username ${auth_player_name}" tokens ->
     In (JStr "--username Steve") cmd) /\
    (forallb (fun kv => dollar_free (snd kv)) table = true ->
     forall t,
       forallb (piece_ok (map fst table)) t = true ->
       apply_replacements table (template_text t) = template_value table t /\
       (In (template_text t) tokens ->
        In (JStr (template_value table t)) cmd)).
Proof.
  intros Hb Hne.
  destruct (build_launch_command_inv H c fs version username ram cmd Hb Hne)
    as (data & d & java_path & main_class & libs & classpath & jvm & game
        & Hf & Hd & _ & _ & _ & _ & _ & _ & _ & Hgame & Hcmd).
  destruct (program_arguments_inv H d version username game Hgame)
    as (tokens & table & Hg & Hr & ->).
  exists data, d, java_path, jvm,
    (str_join (pathsep H) (classpath ++ [version_jar_path H version])),
    main_class, tokens, table.
  split; [exact Hf|]. split; [exact Hd|]. split; [exact Hg|].
  split; [exact Hr|]. split; [exact Hcmd|].
  assert (Hin : forall s, In s tokens ->
                  In (JStr (apply_replacements table s)) cmd).
  { intros s Hs. rewrite Hcmd. unfold launch_command.
    apply in_or_app. right. apply in_or_app. right. apply in_or_app. right.
    apply in_or_app. right.
    apply (in_map (fun s => JStr (apply_replacements table s)) tokens s Hs). }
  split.
  - intros -> Hs. apply Hin in Hs.
    assert (Hsteve : apply_replacements table "--username ${auth_player_name}"
                     = "--username Steve").
    { clear -Hr. unfold replacements in Hr.
      destruct (py_get d "assetIndex" _) as [a|]; cbn [bind] in Hr;
        [|discriminate].
      destruct (py_get a "id" _) as [i|]; cbn [bind] in Hr; [|discriminate].
      destruct (py_get d "type" _) as [ty|]; cbn [bind] in Hr;
        [|discriminate].
      injection Hr as <-. vm_compute. reflexivity. }
    rewrite Hsteve in Hs. exact Hs.
  - intros Hvals t Ht.
    pose proof (table_templates H d version username table Hr Hvals t Ht)
      as Ht'.
    split; [exact Ht'|]. intros Hs. rewrite <- Ht'. apply Hin, Hs.
Qed.

(** ** The theorems at sample inputs *)


Lemma acquisition_idempotent_witness :
  download_version_files offline_host 1 "1.21" metadata_url
    cached_world_natives
  = Some (cached_world_natives, Ret true).
Proof.
  apply (acquisition_idempotent offline_host 0 "1.21" metadata_url
           cached_world_natives).
  exists (bytes_of "metadata with a, b and c"),
    (sample_metadata [library_a; library_b; library_c]),
    (JObj [("sha1", JStr sha1_of_abc);
           ("url", JStr "https://piston.example/client.jar")]),
    [library_a; library_b; library_c].
  split; [vm_compute; reflexivity|]. split; [reflexivity|].
  split; [reflexivity|]. split; [reflexivity|]. split; [reflexivity|].
  split.
  { exists (JStr "https://piston.example/client.jar"), (JStr sha1_of_abc).
    split; [reflexivity|]. split; [reflexivity|]. vm_compute. reflexivity. }
  split; [reflexivity|].
  constructor; [|constructor; [|constructor; [|constructor]]].
  - right. split; [reflexivity|]. eexists. split; [reflexivity|]. split.
    + right.
      exists (JStr "https://libraries.example/a-1.0.jar"),
        "org/example/a/1.0/a-1.0.jar", (JStr sha1_of_nothing).
      split; [|vm_compute; reflexivity].
      eexists _, _. split; [reflexivity|]. split; [reflexivity|].
      split; [reflexivity|]. split; reflexivity.
    + left. reflexivity.
  - right. split; [reflexivity|]. eexists. split; [reflexivity|]. split.
    + right.
      exists (JStr "https://libraries.example/b-2.0.jar"),
        "org/example/b/2.0/b-2.0.jar", (JStr sha1_of_abc).
      split; [|vm_compute; reflexivity].
      eexists _, _. split; [reflexivity|]. split; [reflexivity|].
      split; [reflexivity|]. split; reflexivity.
    + left. reflexivity.
  - right. split; [reflexivity|]. eexists. split; [reflexivity|]. split.
    + left. right. eexists. split; reflexivity.
    + right. eexists. split; [reflexivity|].
      right. exists "natives-linux-${arch}". split; [reflexivity|].
      right. eexists. split; [reflexivity|].
      right. eexists. split; [reflexivity|].
      right.
      exists (JObj [("sha1", JStr sha1_of_abc);
                    ("url", JStr "https://libraries.example/c-natives.jar")]),
        "org.example:c-platform:3.0".
      split; [vm_compute; reflexivity|]. split; [reflexivity|].
      exists (JStr "https://libraries.example/c-natives.jar"),
        (JStr sha1_of_abc).
      split; [reflexivity|]. split; [reflexivity|]. vm_compute. reflexivity.
Defined.

Lemma metadata_repair_bounded_witness :
  download_version_files malformed_host 2 "1.21" metadata_url damaged_world
  = Some ({| files := delete json_path_1_21 (files damaged_world);
             requests := [UrlOpen "https://meta.example/1.21.json"] |},
          Ret false).
Proof.
  refine (proj2 (proj2 (proj2 (proj2 (metadata_repair_bounded malformed_host 0
            "1.21" metadata_url damaged_world)) (bytes_of "{ truncated")
            "https://meta.example/1.21.json" _ _ eq_refl)) _).
  - vm_compute. reflexivity.
  - reflexivity.
  - right. exists (bytes_of "<html>"). split; reflexivity.
Defined.

Example build_launch_command_sample :
  build_launch_command offline_host speed_only (files cached_world) "1.21"
    "Steve" 4 = Ret sample_command.
Proof. vm_compute. reflexivity. Qed.

Lemma classpath_order_witness :
  build_launch_command offline_host speed_only (files cached_world) "1.21"
    "Steve" 4 = Ret sample_command /\
  build_launch_command offline_host speed_only (files world_missing_a) "1.21"
    "Steve" 4
  = Ret (command_head offline_host "1.21" 4 managed_java
         ++ sample_runtime_arguments ++ cheat_args speed_only
         ++ [JStr "-cp"; JStr (path_b ++ ":" ++ jar_path_1_21);
             JStr "net.minecraft.client.main.Main"]
         ++ sample_program_arguments) /\
  build_launch_command offline_host speed_only (files world_missing_jar)
    "1.21" "Steve" 4 = Ret [].
Proof.
  assert (Ha : primary_archive library_a_fields
                 (JStr "https://libraries.example/a-1.0.jar")
                 "org/example/a/1.0/a-1.0.jar" (JStr sha1_of_nothing)).
  { eexists _, _. split; [reflexivity|]. split; [reflexivity|].
    split; [reflexivity|]. split; reflexivity. }
  assert (Hb : primary_archive library_b_fields
                 (JStr "https://libraries.example/b-2.0.jar")
                 "org/example/b/2.0/b-2.0.jar" (JStr sha1_of_abc)).
  { eexists _, _. split; [reflexivity|]. split; [reflexivity|].
    split; [reflexivity|]. split; reflexivity. }
  pose proof (fun fs Hf Hj =>
    classpath_order offline_host speed_only fs "1.21" "Steve" 4
      (bytes_of "metadata with a and b") metadata_a_b
      (JStr "net.minecraft.client.main.Main") managed_java
      library_a_fields library_b_fields _ _ _ _ _ _
      sample_runtime_arguments sample_program_arguments
      Hf eq_refl Hj eq_refl eq_refl eq_refl eq_refl eq_refl Ha Hb
      eq_refl eq_refl) as Hthm.
  cbv zeta in Hthm.
  split; [|split].
  - destruct (Hthm (files cached_world) ltac:(vm_compute; reflexivity)
                ltac:(vm_compute; reflexivity)) as (Hall & _).
    rewrite Hall; [vm_compute; reflexivity | ..];
      eexists; vm_compute; reflexivity.
  - destruct (Hthm (files world_missing_a) ltac:(vm_compute; reflexivity)
                ltac:(vm_compute; reflexivity)) as (_ & Hskip & _).
    rewrite Hskip; [vm_compute; reflexivity | vm_compute; reflexivity | ..];
      eexists; vm_compute; reflexivity.
  - destruct (Hthm (files world_missing_jar)
                ltac:(vm_compute; reflexivity)
                ltac:(vm_compute; reflexivity)) as (_ & _ & _ & _ & Hfail).
    apply Hfail. vm_compute. reflexivity.
Defined.

Lemma placeholders_substituted_witness :
  In (JStr "--username Steve") sample_command /\
  In (JStr "Steve@1.21") sample_command.
Proof.
  destruct (placeholders_substituted offline_host speed_only
              (files cached_world) "1.21" "Steve" 4 sample_command
              ltac:(vm_compute; reflexivity) ltac:(discriminate))
    as (data & d & java_path & jvm & cp & main_class & tokens & table
        & Hf & Hd & Hg & Hr & Hcmd & Hsteve & Htemplate).
  assert (Hdata : data = bytes_of "metadata with a and b").
  { assert (Hf' : files cached_world !! version_json_path offline_host "1.21"
                  = Some (File (bytes_of "metadata with a and b")))
      by (vm_compute; reflexivity).
    rewrite Hf' in Hf. injection Hf as <-. reflexivity. }
  subst data.
  assert (Hd' : json_load offline_host (bytes_of "metadata with a and b")
                = Some metadata_a_b) by (vm_compute; reflexivity).
  rewrite Hd' in Hd. injection Hd as <-.
  assert (Hg' : game_arguments offline_host metadata_a_b
                = Ret (Some (map JStr ["--username ${auth_player_name}";
                                       "${auth_player_name}@${version_name}"])))
    by (vm_compute; reflexivity).
  rewrite Hg' in Hg. injection Hg as Hg.
  assert (Htokens : tokens = ["--username ${auth_player_name}";
                              "${auth_player_name}@${version_name}"]).
  { apply map_JStr_inj. symmetry. exact Hg. }
  subst tokens.
  assert (Hr' : replacements offline_host metadata_a_b "1.21" "Steve"
                = Ret [("${auth_player_name}", "Steve");
                       ("${version_name}", "1.21");
                       ("${game_directory}",
                        "/home/steve/.nova-client/minecraft");
                       ("${assets_root}",
                        "/home/steve/.nova-client/minecraft/assets");
                       ("${assets_index_name}", "17");
                       ("${auth_uuid}",
                        generate_offline_uuid "Steve");
                       ("${auth_access_token}", "0");
                       ("${user_type}", "legacy");
                       ("${version_type}", "release");
                       ("${user_properties}", "{}");
                       ("${quickPlayRealms}", "");
                       ("${quickPlaySingleplayer}", "");
                       ("${quickPlayMultiplayer}", "")])
    by (vm_compute; reflexivity).
  rewrite Hr' in Hr. injection Hr as <-.
  split.
  - apply (Hsteve eq_refl). left. reflexivity.
  - destruct (Htemplate ltac:(vm_compute; reflexivity)
                [Hole "${auth_player_name}"; Lit "@"; Hole "${version_name}"]
                ltac:(vm_compute; reflexivity)) as [_ Hin].
    apply Hin. right. left. reflexivity.
Defined.

Lemma jvm_arguments_verbatim_witness :
  In (JStr "-Dlauncher.user=${auth_player_name}") sample_command /\
  In (JStr "-Dos.tag=${version_name}") sample_command.
Proof.
  destruct (jvm_arguments_verbatim offline_host speed_only (files cached_world)
              "1.21" "Steve" 4 (bytes_of "metadata with a and b") metadata_a_b
              [JStr "-Dlauncher.user=${auth_player_name}";
               JObj [("rules",
                      JArr [JObj [("action", JStr "allow");
                                  ("os", JObj [("name", JStr "linux")])]]);
                     ("value", JArr [JStr "-Dos.tag=${version_name}"])];
               JStr "-cp"; JStr "${classpath}"]
              sample_command)
    as (_ & Hliteral & Hconditional);
    try (vm_compute; reflexivity).
  - discriminate.
  - split.
    + apply Hliteral. left. reflexivity.
    + apply (Hconditional
               [("rules",
                 JArr [JObj [("action", JStr "allow");
                             ("os", JObj [("name", JStr "linux")])]]);
                ("value", JArr [JStr "-Dos.tag=${version_name}"])]
               (JArr [JObj [("action", JStr "allow");
                            ("os", JObj [("name", JStr "linux")])]])
               (JArr [JStr "-Dos.tag=${version_name}"])).
      * right. left. reflexivity.
      * reflexivity.
      * reflexivity.
      * reflexivity.
      * left. reflexivity.
Defined.

(** * Further properties *)

(** ** Rule evaluator: the result as a function of the verdicts *)

Lemma library_rules_loop_verdicts (os : string) (rules : list json) :
  Forall (fun r => is_dict r = true) rules ->
  forall allow,
    library_rules_loop rules os allow
    = Ret ((allow || existsb (fun r => allows (library_verdict os r)) rules)
           && negb (existsb (fun r => vetoes (library_verdict os r)) rules)).
Proof.
  induction 1 as [|rule rules Hd _ IH]; intros allow.
  - cbn. rewrite orb_false_r, andb_true_r. reflexivity.
  - destruct rule as [| | | | |m]; try discriminate.
    cbn [library_rules_loop py_get py_in bind existsb library_verdict].
    unfold field_or_null, action_verdict.
    destruct (assoc "features" m).
    { cbn [allows vetoes orb]. apply IH. }
    destruct (os_match _ os); [|cbn [allows vetoes orb]; apply IH].
    destruct (json_eq_str _ "allow").
    { cbn [allows vetoes orb]. rewrite IH, orb_true_r. reflexivity. }
    destruct (json_eq_str _ "disallow").
    { cbn [allows vetoes orb negb]. rewrite andb_false_r. reflexivity. }
    cbn [allows vetoes orb]. apply IH.
Qed.

Lemma argument_rules_loop_verdicts (os : string) (rules : list json) :
  Forall (fun r => is_dict r = true) rules ->
  forall allow,
    argument_rules_loop rules os allow
    = Ret ((allow || existsb (fun r => allows (argument_verdict os r)) rules)
           && negb (existsb (fun r => vetoes (argument_verdict os r)) rules)).
Proof.
  induction 1 as [|rule rules Hd _ IH]; intros allow.
  - cbn. rewrite orb_false_r, andb_true_r. reflexivity.
  - destruct rule as [| | | | |m]; try discriminate.
    cbn [argument_rules_loop py_get bind existsb argument_verdict].
    unfold field_or_null, action_verdict.
    destruct (is_none _); cbn [negb];
      [|cbn [allows vetoes orb]; apply IH].
    destruct (os_match _ os); [|cbn [allows vetoes orb]; apply IH].
    destruct (json_eq_str _ "allow").
    { cbn [allows vetoes orb]. rewrite IH, orb_true_r. reflexivity. }
    destruct (json_eq_str _ "disallow").
    { cbn [allows vetoes orb negb]. rewrite andb_false_r. reflexivity. }
    cbn [allows vetoes orb]. apply IH.
Qed.

Lemma existsb_permutation {A : Type} (f : A -> bool) (l l' : list A) :
  Permutation l l' -> existsb f l = existsb f l'.
Proof.
  induction 1 as [|x l l' _ IH|x y l|l l' l'' _ IH1 _ IH2]; cbn.
  - reflexivity.
  - rewrite IH. reflexivity.
  - destruct (f x), (f y); reflexivity.
  - congruence.
Qed.

Lemma evaluate_rules_verdicts (os : string) (rules : list json) :
  Forall (fun r => is_dict r = true) rules ->
  evaluate_rules (JArr rules) os
  = Ret (match rules with
         | [] => true
         | _ =>
             existsb (fun r => allows (argument_verdict os r)) rules
             && negb (existsb (fun r => vetoes (argument_verdict os r)) rules)
         end).
Proof.
  intros Hd. destruct rules as [|r rules]; [reflexivity|].
  unfold evaluate_rules. rewrite (argument_rules_loop_verdicts os _ Hd).
  reflexivity.
Qed.

(** X1: the order of the rules does not matter.  For a rule list made of
    objects, both evaluators give the same result on every reordering of
    the list: the result is true exactly when some rule allows and no rule
    vetoes. *)
Theorem rules_order_independent (os : string) (rules rules' : list json) :
  Forall (fun r => is_dict r = true) rules ->
  Permutation rules rules' ->
  (forall lib lib',
     assoc "rules" lib = Some (JArr rules) ->
     assoc "rules" lib' = Some (JArr rules') ->
     is_library_allowed (JObj lib) os = is_library_allowed (JObj lib') os /\
     is_library_allowed (JObj lib) os
     = Ret (existsb (fun r => allows (library_verdict os r)) rules
            && negb (existsb (fun r => vetoes (library_verdict os r)) rules)))
  /\ evaluate_rules (JArr rules) os = evaluate_rules (JArr rules') os.
Proof.
  intros Hd Hp.
  assert (Hd' : Forall (fun r => is_dict r = true) rules').
  { apply List.Forall_forall. intros r Hin.
    apply (proj1 (List.Forall_forall _ _) Hd).
    apply (Permutation_in _ (Permutation_sym Hp) Hin). }
  split.
  - intros lib lib' Hl Hl'. unfold is_library_allowed.
    rewrite (py_in_obj_some _ _ _ Hl), (py_getitem_obj _ _ _ Hl).
    rewrite (py_in_obj_some _ _ _ Hl'), (py_getitem_obj _ _ _ Hl').
    cbn [bind py_iter].
    rewrite (library_rules_loop_verdicts os rules Hd),
      (library_rules_loop_verdicts os rules' Hd').
    rewrite (existsb_permutation _ _ _ Hp).
    rewrite (existsb_permutation (fun r => vetoes _) _ _ Hp).
    split; reflexivity.
  - rewrite (evaluate_rules_verdicts os rules Hd),
      (evaluate_rules_verdicts os rules' Hd').
    rewrite (existsb_permutation _ _ _ Hp).
    rewrite (existsb_permutation (fun r => vetoes _) _ _ Hp).
    destruct rules as [|r rules], rules' as [|r' rules']; try reflexivity.
    + apply Permutation_nil_cons in Hp. destruct Hp.
    + apply Permutation_sym, Permutation_nil_cons in Hp. destruct Hp.
Qed.

Lemma rules_order_independent_witness :
  is_library_allowed (JObj [("rules", JArr [disallow_osx; allow_all])]) "osx"
  = is_library_allowed (JObj [("rules", JArr [allow_all; disallow_osx])]) "osx"
  /\ evaluate_rules (JArr [disallow_osx; allow_all]) "linux"
     = evaluate_rules (JArr [allow_all; disallow_osx]) "linux".
Proof.
  destruct (rules_order_independent "osx" [disallow_osx; allow_all]
              [allow_all; disallow_osx]) as [Hlib _].
  { repeat constructor. }
  { apply perm_swap. }
  destruct (rules_order_independent "linux" [disallow_osx; allow_all]
              [allow_all; disallow_osx]) as [_ Harg].
  { repeat constructor. }
  { apply perm_swap. }
  split; [|exact Harg].
  exact (proj1 (Hlib [("rules", JArr [disallow_osx; allow_all])]
                  [("rules", JArr [allow_all; disallow_osx])]
                  eq_refl eq_refl)).
Defined.

Lemma feature_gated_verdicts (os : string) (rule : json) :
  feature_gated rule ->
  library_verdict os rule = Skips /\ argument_verdict os rule = Skips.
Proof.
  intros (m & f & -> & Hf & Hn). cbn [library_verdict argument_verdict].
  unfold field_or_null. rewrite Hf, Hn. split; reflexivity.
Qed.

Lemma feature_gated_dict (rules : list json) :
  Forall feature_gated rules -> Forall (fun r => is_dict r = true) rules.
Proof.
  induction 1 as [|r rules (m & f & -> & _) _ IH]; constructor;
    [reflexivity | exact IH].
Qed.

Lemma feature_gated_silent (os : string) (rules : list json) :
  Forall feature_gated rules ->
  existsb (fun r => allows (library_verdict os r)) rules = false /\
  existsb (fun r => allows (argument_verdict os r)) rules = false.
Proof.
  induction 1 as [|r rules Hr _ [IH1 IH2]]; [split; reflexivity|].
  destruct (feature_gated_verdicts os r Hr) as [H1 H2].
  cbn [existsb]. rewrite H1, H2, IH1, IH2. split; reflexivity.
Qed.

(** X2: rules with a feature predicate never allow anything.  A non-empty
    rule list in which every rule carries a feature predicate evaluates to
    false in both evaluators, on every platform; so a library entry with
    such a list is not applicable, and a conditional argument gated by such
    a list (the demo flag, the custom resolution) is left out of the
    command. *)
Theorem feature_rules_never_allow (os : string) (rule : json)
    (rules : list json) :
  Forall feature_gated (rule :: rules) ->
  (forall lib,
     assoc "rules" lib = Some (JArr (rule :: rules)) ->
     is_library_allowed (JObj lib) os = Ret false) /\
  evaluate_rules (JArr (rule :: rules)) os = Ret false /\
  (forall arg value rest,
     assoc "rules" arg = Some (JArr (rule :: rules)) ->
     assoc "value" arg = Some value ->
     expand_arguments (JObj arg :: rest) os = expand_arguments rest os).
Proof.
  intros Hg.
  pose proof (feature_gated_dict _ Hg) as Hd.
  destruct (feature_gated_silent os _ Hg) as [Hl Ha].
  assert (He : evaluate_rules (JArr (rule :: rules)) os = Ret false).
  { rewrite (evaluate_rules_verdicts os _ Hd), Ha. reflexivity. }
  split; [|split].
  - intros lib Hlib. unfold is_library_allowed.
    rewrite (py_in_obj_some _ _ _ Hlib), (py_getitem_obj _ _ _ Hlib).
    cbn [bind py_iter]. rewrite (library_rules_loop_verdicts os _ Hd), Hl.
    reflexivity.
  - exact He.
  - intros arg value rest Hr Hv. cbn [expand_arguments].
    rewrite Hr, Hv, He. cbn [bind].
    destruct (expand_arguments rest os); reflexivity.
Qed.

Lemma feature_rules_never_allow_witness :
  is_library_allowed (JObj [("rules", JArr [demo_rule])]) "linux" = Ret false /\
  expand_arguments
    [JObj [("rules", JArr [demo_rule]); ("value", JStr "--demo")];
     JStr "--fullscreen"] "linux"
  = expand_arguments [JStr "--fullscreen"] "linux".
Proof.
  assert (Hg : Forall feature_gated [demo_rule]).
  { constructor; [|constructor].
    eexists _, _. split; [reflexivity|]. split; reflexivity. }
  destruct (feature_rules_never_allow "linux" demo_rule [] Hg)
    as (Hlib & _ & Harg).
  split.
  - apply Hlib. reflexivity.
  - apply (Harg _ (JStr "--demo")); reflexivity.
Defined.

Lemma unambiguous_verdicts (os : string) (rule : json) :
  features_unambiguous rule ->
  library_verdict os rule = argument_verdict os rule.
Proof.
  intros (m & -> & Hf). cbn [library_verdict argument_verdict].
  unfold field_or_null.
  destruct (assoc "features" m) as [[| | | | |]|]; try reflexivity.
  congruence.
Qed.

(** X3: the two evaluators agree except on the empty list and on a null
    feature predicate.  For a non-empty rule list of objects none of which
    has "features": null, [is_library_allowed] on a library entry with that
    list and [evaluate_rules] on the list give the same result. *)
Theorem evaluators_agree (os : string) (rule : json) (rules : list json)
    (lib : list (string * json)) :
  Forall features_unambiguous (rule :: rules) ->
  assoc "rules" lib = Some (JArr (rule :: rules)) ->
  is_library_allowed (JObj lib) os = evaluate_rules (JArr (rule :: rules)) os.
Proof.
  intros Hu Hlib.
  assert (Hd : Forall (fun r => is_dict r = true) (rule :: rules)).
  { apply List.Forall_forall. intros r Hin.
    destruct (proj1 (List.Forall_forall _ _) Hu r Hin) as (m & -> & _).
    reflexivity. }
  unfold is_library_allowed.
  rewrite (py_in_obj_some _ _ _ Hlib), (py_getitem_obj _ _ _ Hlib).
  cbn [bind py_iter].
  rewrite (library_rules_loop_verdicts os _ Hd),
    (evaluate_rules_verdicts os _ Hd).
  assert (Hsame : forall f : verdict -> bool,
            existsb (fun r => f (library_verdict os r)) (rule :: rules)
            = existsb (fun r => f (argument_verdict os r)) (rule :: rules)).
  { intros f. clear -Hu. induction Hu as [|r l Hr _ IH]; [reflexivity|].
    cbn [existsb]. rewrite (unambiguous_verdicts os r Hr), IH. reflexivity. }
  rewrite (Hsame allows), (Hsame vetoes). reflexivity.
Qed.

Lemma evaluators_agree_witness :
  is_library_allowed (JObj [("rules", JArr [allow_all; disallow_osx])]) "osx"
  = evaluate_rules (JArr [allow_all; disallow_osx]) "osx".
Proof.
  apply (evaluators_agree "osx" allow_all [disallow_osx]).
  - repeat constructor; eexists; (split; [reflexivity | discriminate]).
  - reflexivity.
Defined.

(** Where they part: a rule with "features": null is skipped by
    [is_library_allowed] and read by [evaluate_rules]. *)
Example null_feature_rule_parts_them :
  is_library_allowed (JObj [("rules", JArr [null_feature_rule])]) "linux"
  = Ret false /\
  evaluate_rules (JArr [null_feature_rule]) "linux" = Ret true.
Proof. split; reflexivity. Qed.

(** ** Offline identity *)

Lemma hex_digit_is_hex (x : Z) : is_hex (hex_digit x) = true.
Proof.
  destruct x as [|q|q]; try reflexivity.
  do 4 (destruct q as [q|q|]; try reflexivity).
Qed.

Lemma hex_bytes_shape (bs : list Z) :
  String.length (hex_bytes bs) = (2 * length bs)%nat /\
  all_chars is_hex (hex_bytes bs) = true.
Proof.
  induction bs as [|b bs [IHl IHh]]; [split; reflexivity|].
  cbn [hex_bytes String.length all_chars length].
  rewrite !hex_digit_is_hex, IHh, IHl. split; [lia | reflexivity].
Qed.

Lemma le_bytes_length (n : nat) : forall x, length (le_bytes n x) = n.
Proof. induction n as [|n IH]; intros x; cbn; [|rewrite IH]; reflexivity. Qed.

Lemma md5_hex_shape (msg : list byte) : hex_group 32 (md5_hex msg).
Proof.
  unfold md5_hex, hex_group.
  destruct (md5_blocks _ _ _) as [[[a b] c] d].
  destruct (hex_bytes_shape
              (le_bytes 4 a ++ le_bytes 4 b ++ le_bytes 4 c ++ le_bytes 4 d))
    as [Hl Hh].
  rewrite !length_app, !le_bytes_length in Hl. split; assumption.
Qed.

Lemma substring_shape (p : ascii -> bool) (s : string) :
  all_chars p s = true ->
  forall n m,
    (n + m <= String.length s)%nat ->
    String.length (substring n m s) = m /\
    all_chars p (substring n m s) = true.
Proof.
  induction s as [|c s IH]; intros Hs n m Hlen.
  - cbn in Hlen. assert (n = 0%nat) by lia. assert (m = 0%nat) by lia.
    subst. split; reflexivity.
  - cbn [all_chars] in Hs. apply andb_prop in Hs as [Hc Hs].
    cbn [String.length] in Hlen. destruct n as [|n].
    + destruct m as [|m]; [split; reflexivity|].
      cbn [substring String.length all_chars]. rewrite Hc.
      destruct (IH Hs 0%nat m ltac:(lia)) as [Hl Hh].
      rewrite Hl, Hh. split; reflexivity.
    + cbn [substring]. apply (IH Hs). lia.
Qed.

(** X4: the offline identifier always has the canonical layout.  For every
    username, [generate_offline_uuid] returns five groups of 8, 4, 4, 4 and
    12 lowercase hexadecimal digits separated by dashes (36 characters). *)
Theorem offline_uuid_layout (username : string) :
  exists a b c d e,
    generate_offline_uuid username
    = (a ++ "-" ++ b ++ "-" ++ c ++ "-" ++ d ++ "-" ++ e)%string /\
    hex_group 8 a /\ hex_group 4 b /\ hex_group 4 c /\ hex_group 4 d /\
    hex_group 12 e.
Proof.
  unfold generate_offline_uuid, slice.
  destruct (md5_hex_shape (bytes_of ("OfflinePlayer:" ++ username)))
    as [Hlen Hhex].
  set (h := md5_hex (bytes_of ("OfflinePlayer:" ++ username))) in *.
  assert (Hs : forall n m, (n + m <= 32)%nat -> hex_group m (substring n m h)).
  { intros n m Hnm. apply (substring_shape is_hex h Hhex). rewrite Hlen.
    exact Hnm. }
  eexists _, _, _, _, _. split; [reflexivity|]. rewrite Hlen.
  repeat (split; [apply Hs; cbn; lia|]). apply Hs. cbn. lia.
Qed.

(** ** Artifact acquisition: how many requests *)

Lemma grows_refl (w : world) : grows 0 w w.
Proof. exists []. rewrite app_nil_r. split; [reflexivity | cbn; lia]. Qed.

Lemma grows_trans (n m : nat) (w w1 w2 : world) :
  grows n w w1 -> grows m w1 w2 -> grows (n + m) w w2.
Proof.
  intros (l1 & H1 & Hn) (l2 & H2 & Hm). exists (l1 ++ l2).
  rewrite H2, H1, <- app_assoc, length_app. split; [reflexivity | lia].
Qed.

Lemma grows_weaken (n m : nat) (w w' : world) :
  (n <= m)%nat -> grows n w w' -> grows m w w'.
Proof. intros Hnm (l & Hl & Hn). exists l. split; [exact Hl | lia]. Qed.

Lemma grows_same_log (w w' : world) : requests w' = requests w -> grows 0 w w'.
Proof.
  intros Hr. exists []. rewrite app_nil_r. split; [exact Hr | cbn; lia].
Qed.

Lemma urlretrieve_grows (H : host) (url : json) (p : string) (w : world) :
  grows 1 w (fst (urlretrieve H url p w)).
Proof.
  unfold urlretrieve. destruct url as [| | |u| |];
    try (apply (grows_weaken 0 1); [lia | apply grows_refl]).
  exists [UrlRetrieve u]. split; [|cbn; lia].
  destruct (network H u).
  - destruct (truncated H u); cbn [fst]; rewrite write_file_requests;
      reflexivity.
  - reflexivity.
Qed.

Lemma fetch_block_grows (H : host) (url : json) (p : string) (e : json)
    (w : world) (keep : world -> world) :
  (forall w1, requests (keep w1) = requests w1) ->
  grows 1 w (fst (
    match urlretrieve H url p w with
    | (w1, Raise) => (w1, Ret tt)
    | (w1, Ret _) =>
        if negb (verify_file (files w1) p e)
        then (fst (remove_if_exists p w1), Ret tt)
        else (keep w1, Ret tt)
    end)).
Proof.
  intros Hkeep. pose proof (urlretrieve_grows H url p w) as Hu.
  destruct (urlretrieve H url p w) as [w1 [[]|]]; cbn [fst] in *;
    [|assumption].
  destruct (negb _); cbn [fst].
  - apply (grows_trans 1 0 _ _ _ Hu), grows_same_log,
      remove_if_exists_requests.
  - apply (grows_trans 1 0 _ _ _ Hu), grows_same_log, Hkeep.
Qed.

Lemma download_client_jar_grows (H : host) (version_id version_dir : string)
    (version_data : json) (w : world) :
  grows 1 w (fst (download_client_jar H version_id version_dir version_data w)).
Proof.
  unfold download_client_jar.
  assert (H0 : grows 1 w w) by (apply (grows_weaken 0 1); [lia|apply grows_refl]).
  destruct (bind _ _) as [jar_info|]; [|exact H0].
  destruct (negb (truthy jar_info)); [exact H0|].
  destruct (bind _ _) as [[jar_url sha]|]; [|exact H0].
  destruct (needs_download _ _ _); [|exact H0].
  pose proof (urlretrieve_grows H jar_url
                (path_join H version_dir (version_id ++ ".jar")) w) as Hu.
  destruct (urlretrieve _ _ _ _) as [w1 [[]|]]; cbn [fst] in *; [|assumption].
  destruct (negb _); cbn [fst]; [|assumption].
  apply (grows_trans 1 0 _ _ _ Hu), grows_same_log, remove_if_exists_requests.
Qed.

Lemma download_artifact_grows (H : host) (dir : string) (lib : json)
    (w : world) :
  grows 1 w (fst (download_artifact H dir lib w)).
Proof.
  unfold download_artifact.
  assert (H0 : grows 1 w w) by (apply (grows_weaken 0 1); [lia|apply grows_refl]).
  destruct (bind _ _) as [[|]|]; try exact H0.
  destruct (bind _ _) as [[[lib_url lib_path] sha]|]; [|exact H0].
  destruct (needs_download _ _ _); [|exact H0].
  apply (fetch_block_grows H lib_url lib_path sha w (fun w1 => w1)).
  reflexivity.
Qed.

Lemma download_natives_grows (H : host) (dir : string) (lib : json)
    (w : world) :
  grows 1 w (fst (download_natives H dir lib w)).
Proof.
  unfold download_natives.
  assert (H0 : grows 1 w w) by (apply (grows_weaken 0 1); [lia|apply grows_refl]).
  destruct (bind _ _) as [[|]|]; try exact H0.
  destruct (bind _ _) as [[classifier [|]]|]; try exact H0.
  destruct (bind _ _) as [[[native_url native_path] sha]|]; [|exact H0].
  destruct (needs_download _ _ _); [|exact H0].
  apply (fetch_block_grows H native_url native_path sha w
           (extract_natives H dir native_path)).
  intros w1. apply extract_natives_requests.
Qed.

Lemma download_library_grows (H : host) (ldir ndir : string) (lib : json)
    (w : world) :
  grows 2 w (fst (download_library H ldir ndir lib w)).
Proof.
  unfold download_library.
  assert (H0 : grows 2 w w) by (apply (grows_weaken 0 2); [lia|apply grows_refl]).
  destruct (is_library_allowed lib (current_os H)) as [[|]|]; try exact H0.
  pose proof (download_artifact_grows H ldir lib w) as Ha.
  destruct (download_artifact H ldir lib w) as [w1 [[]|]]; cbn [fst] in *.
  - apply (grows_trans 1 1 _ _ _ Ha), download_natives_grows.
  - apply (grows_weaken 1 2); [lia | exact Ha].
Qed.

Lemma download_libraries_grows (H : host) (ldir ndir : string)
    (libs : list json) :
  forall w,
    grows (2 * length libs) w (fst (download_libraries H ldir ndir libs w)).
Proof.
  induction libs as [|lib libs IH]; intros w; cbn [download_libraries].
  - apply grows_refl.
  - pose proof (download_library_grows H ldir ndir lib w) as Hl.
    destruct (download_library H ldir ndir lib w) as [w1 [[]|]];
      cbn [fst] in *.
    + apply (grows_weaken (2 + 2 * length libs)); [cbn [length]; lia|].
      apply (grows_trans _ _ _ _ _ Hl), IH.
    + apply (grows_weaken 2); [cbn [length]; lia | exact Hl].
Qed.

Lemma acquire_artifacts_grows (H : host) (version_id : string)
    (version_data : json) (w : world) :
  grows (1 + 2 * libraries_count version_data) w
    (fst (acquire_artifacts H version_id version_data w)).
Proof.
  unfold acquire_artifacts, libraries_count, listed_libraries.
  destruct (negb (truthy version_data)).
  { apply (grows_weaken 0); [lia | apply grows_refl]. }
  pose proof (download_client_jar_grows H version_id
                (path_join H (VERSIONS_DIR H) version_id) version_data w) as Hj.
  destruct (download_client_jar _ _ _ _ _) as [w1 [|]]; cbn [fst] in *;
    [|apply (grows_weaken 1); [lia | exact Hj]].
  destruct (bind _ _) as [libs|];
    [|apply (grows_weaken 1); [lia | exact Hj]].
  pose proof (download_libraries_grows H
                (path_join H (MINECRAFT_DIR H) "libraries")
                (path_join H (path_join H (VERSIONS_DIR H) version_id) "natives")
                libs w1) as Hl.
  destruct (download_libraries _ _ _ _ _) as [w2 [[]|]]; cbn [fst] in *;
    apply (grows_trans _ _ _ _ _ Hj Hl).
Qed.

Lemma acquire_artifacts_bound (H : host) (version_id : string)
    (d : json) (w w' : world) (r : res bool) (n : nat) :
  acquire_artifacts H version_id d w = (w', r) ->
  (libraries_count d <= n)%nat ->
  exists added,
    requests w' = requests w ++ added /\
    opens added = 0%nat /\
    (length added <= 1 + 2 * n)%nat.
Proof.
  intros Hrun Hn.
  pose proof (acquire_artifacts_grows H version_id d w) as (l & Hl & Hlen).
  pose proof (acquire_artifacts_opens H version_id d w) as Ho.
  rewrite Hrun in Hl, Ho. cbn [fst] in Hl, Ho.
  exists l. split; [exact Hl|]. rewrite Hl, opens_app in Ho. split; lia.
Qed.

(** The branch that fetches the metadata document. *)
Lemma fresh_fetch_bound (H : host) (version_id : string) (version_url : json)
    (w w' : world) (r : res bool) (n : nat) :
  files w !! version_json_path H version_id = None ->
  download_version_files H 1 version_id version_url w = Some (w', r) ->
  (forall u body d,
     version_url = JStr u -> network H u = Some body ->
     json_loads H body = Some d -> (libraries_count d <= n)%nat) ->
  exists added,
    requests w' = requests w ++ added /\
    (opens added <= 1)%nat /\
    (length added <= 2 + 2 * n)%nat.
Proof.
  intros Hf Hrun Hn. cbn [download_version_files] in Hrun.
  unfold path_exists in Hrun. rewrite Hf in Hrun. cbn [negb] in Hrun.
  assert (Hnone : exists added,
            requests w = requests w ++ added /\ (opens added <= 1)%nat /\
            (length added <= 2 + 2 * n)%nat).
  { exists []. rewrite app_nil_r. repeat split; cbn; lia. }
  assert (Hone : forall u, exists added,
            requests w ++ [UrlOpen u] = requests w ++ added /\
            (opens added <= 1)%nat /\ (length added <= 2 + 2 * n)%nat).
  { intros u. exists [UrlOpen u]. repeat split; cbn; lia. }
  destruct version_url as [| | |u| |];
    try (injection Hrun as <- <-; exact Hnone).
  destruct (network H u) as [body|] eqn:Hnet;
    [|injection Hrun as <- <-; exact (Hone u)].
  destruct (json_loads H body) as [d|] eqn:Hd;
    [|injection Hrun as <- <-; exact (Hone u)].
  pose proof (write_file_requests (version_json_path H version_id)
                (json_dump H d) (logged (UrlOpen u) w)) as Hw.
  destruct (write_file _ _ _) as [w2 [[]|]]; cbn [fst] in Hw;
    [|injection Hrun as <- <-; rewrite Hw; exact (Hone u)].
  injection Hrun as Hrun.
  destruct (acquire_artifacts_bound H version_id d w2 w' r n Hrun
              (Hn u body d eq_refl Hnet Hd)) as (l & Hl & Ho & Hlen).
  exists ([UrlOpen u] ++ l). rewrite Hl, Hw. cbn [logged requests].
  rewrite <- app_assoc. split; [reflexivity|].
  rewrite opens_app, length_app, Ho. cbn. split; lia.
Qed.

(** X5: one request per artifact at most.  Whatever the local and the
    remote state, an acquisition only appends to the request log, fetches
    the metadata document at most once, and, when every metadata document
    it can end up using lists at most [n] library entries, makes at most
    [2 + 2 n] requests: one for the metadata, one for the main archive, and
    for each library entry one for its primary archive and one for its
    native bundle. *)
Theorem acquisition_request_bound (H : host) (fuel : nat)
    (version_id : string) (version_url : json) (w w' : world)
    (r : res bool) (n : nat) :
  download_version_files H fuel version_id version_url w = Some (w', r) ->
  (forall d, candidate_metadata H version_id version_url w d ->
             (libraries_count d <= n)%nat) ->
  exists added,
    requests w' = requests w ++ added /\
    (opens added <= 1)%nat /\
    (length added <= 2 + 2 * n)%nat.
Proof.
  intros Hrun Hn. destruct fuel as [|fuel]; [discriminate|].
  assert (Hremote : forall u body d,
            version_url = JStr u -> network H u = Some body ->
            json_loads H body = Some d -> (libraries_count d <= n)%nat).
  { intros u body d Hu Hnet Hd. apply Hn. right. eauto. }
  destruct (files w !! version_json_path H version_id) as [[data|]|] eqn:Hf.
  - destruct (json_load H data) as [d|] eqn:Hd.
    + rewrite (download_version_files_local H fuel version_id version_url d
                 data w Hf Hd) in Hrun. injection Hrun as Hrun.
      destruct (acquire_artifacts_bound H version_id d w w' r n Hrun)
        as (l & Hl & Ho & Hlen).
      { apply Hn. left. unfold load_json_file. rewrite Hf. exact Hd. }
      exists l. split; [exact Hl|]. split; lia.
    + destruct fuel as [|fuel].
      * cbn [download_version_files] in Hrun.
        unfold path_exists, load_json_file, remove_if_exists, path_exists,
          os_remove in Hrun. rewrite Hf in Hrun. cbn [negb] in Hrun.
        rewrite Hd in Hrun. discriminate.
      * rewrite (download_version_files_repair H fuel version_id version_url
                   data w Hf Hd) in Hrun.
        destruct (download_version_files H 1 version_id version_url _)
          as [[w2 r2]|] eqn:Hnested; [|discriminate].
        assert (Hw : w2 = w').
        { destruct r2; cbn in Hrun; congruence. }
        subst w2.
        apply (fresh_fetch_bound H version_id version_url _ w' r2 n
                 (lookup_delete_eq _ _) Hnested Hremote).
  - rewrite (download_version_files_dir H fuel version_id version_url w Hf)
      in Hrun. injection Hrun as <- <-.
    exists []. rewrite app_nil_r. repeat split; cbn; lia.
  - destruct (download_version_files_fresh H fuel version_id version_url w Hf)
      as [Hfuel _]. rewrite Hfuel in Hrun.
    apply (fresh_fetch_bound H version_id version_url w w' r n Hf Hrun
             Hremote).
Qed.

Lemma acquisition_request_bound_witness :
  exists added,
    requests (after_rejected_download "https://libraries.example/a-1.0.jar"
                path_a world_without_library)
    = requests world_without_library ++ added /\
    (opens added <= 1)%nat /\
    (length added <= 2 + 2 * 1)%nat.
Proof.
  apply (acquisition_request_bound corrupting_host 1 "1.21" metadata_url
           world_without_library _ (Ret true) 1).
  - vm_compute. reflexivity.
  - intros d [Hl | (u & body & Hu & Hnet & Hd)].
    + vm_compute in Hl. injection Hl as <-. vm_compute. lia.
    + injection Hu as <-. vm_compute in Hnet. discriminate Hnet.
Defined.

(** ** Artifact acquisition: what is left on disk *)

Lemma urlretrieve_files (H : host) (url : json) (p : string) (w w1 : world)
    (r : res unit) :
  urlretrieve H url p w = (w1, r) ->
  (r = Raise /\ (files w1 = files w \/ broken_off H url (files w1) p)) \/
  (r = Ret tt /\ exists body, files w1 = <[p := File body]> (files w)).
Proof.
  unfold urlretrieve, write_file. intros Hu.
  destruct url as [| | |u| |];
    try (injection Hu as <- <-; left; split; [|left]; reflexivity).
  destruct (network H u) as [body|];
    [|injection Hu as <- <-; left; split; [|left]; reflexivity].
  cbn [logged files] in Hu.
  destruct (truncated H u) as [part|] eqn:Htr.
  - destruct (files w !! p) as [[d|]|]; cbn [fst] in Hu;
      injection Hu as <- <-; left; (split; [reflexivity|]);
      try (right; exists u, part; cbn [files]; rewrite lookup_insert_eq;
           auto).
    left. reflexivity.
  - destruct (files w !! p) as [[d|]|]; injection Hu as <- <-;
      try (right; split; [reflexivity | exists body; reflexivity]).
    left. split; [|left]; reflexivity.
Qed.

Lemma urlretrieve_frame (H : host) (url : json) (p : string) (w : world) :
  forall q, q <> p ->
    files (fst (urlretrieve H url p w)) !! q = files w !! q.
Proof.
  intros q Hq. unfold urlretrieve, write_file.
  destruct url as [| | |u| |]; try reflexivity.
  destruct (network H u) as [body|]; [|reflexivity].
  cbn [logged files].
  destruct (truncated H u) as [part|];
    destruct (files w !! p) as [[d|]|]; cbn [fst files];
    try reflexivity; apply lookup_insert_ne; congruence.
Qed.

(** The download, check and removal shared by the blocks: the path ends
    up unchanged, verified, empty or with the part of a transfer that
    broke off, and no other path is touched. *)
Lemma fetch_checked_files (H : host) (url : json) (p : string) (sha : json)
    (w w1 : world) (r : res unit) :
  urlretrieve H url p w = (w1, r) ->
  let w' :=
    match r with
    | Raise => w1
    | Ret _ =>
        if negb (verify_file (files w1) p sha)
        then fst (remove_if_exists p w1)
        else w1
    end in
  (forall q, q <> p -> files w' !! q = files w !! q) /\
  (match r with
   | Raise => files w' !! p = files w !! p \/ broken_off H url (files w') p
   | Ret _ => files w' !! p = None \/ verify_file (files w') p sha = true
   end) /\
  (r = Ret tt -> verify_file (files w1) p sha = true -> w' = w1).
Proof.
  intros Hu w'. subst w'.
  pose proof (urlretrieve_frame H url p w) as Hframe.
  rewrite Hu in Hframe. cbn [fst] in Hframe.
  destruct (urlretrieve_files H url p w w1 r Hu)
    as [[-> Hf] | [-> [body Hf]]].
  - split; [exact Hframe|]. split; [|discriminate].
    destruct Hf as [Hf | Hf]; [left; rewrite Hf; reflexivity | right; exact Hf].
  - destruct (verify_file (files w1) p sha) eqn:Hv; cbn [negb].
    + split; [exact Hframe|]. split; [right; exact Hv | reflexivity].
    + unfold remove_if_exists, path_exists, os_remove.
      rewrite Hf, lookup_insert_eq. cbn [fst files]. split; [|split].
      * intros q Hq. rewrite lookup_delete_ne by congruence.
        apply lookup_insert_ne. congruence.
      * left. apply lookup_delete_eq.
      * discriminate.
Qed.

(** X6: a library's primary archive is verified, as it was, or not there,
    unless a transfer broke off.  For a library entry with a
    primary-archive descriptor, the download step touches no other path;
    the file it leaves at the archive's path is the one it found, or none,
    or one that verifies against the descriptor's digest, or the part
    written by a retrieval that broke off; a completely downloaded file
    that does not verify is removed; and a file that already verifies is
    left as it is, with no request. *)
Theorem library_archive_safe (H : host) (dir : string)
    (fields : list (string * json)) (url : json) (rel : string) (sha : json)
    (w w' : world) (r : res unit) :
  primary_archive fields url rel sha ->
  download_artifact H dir (JObj fields) w = (w', r) ->
  let p := path_join H dir rel in
  (forall q, q <> p -> files w' !! q = files w !! q) /\
  (files w' !! p = files w !! p \/ files w' !! p = None \/
   verify_file (files w') p sha = true \/ broken_off H url (files w') p) /\
  (forall w1,
     urlretrieve H url p w = (w1, Ret tt) ->
     needs_download w p sha = true ->
     verify_file (files w1) p sha = false ->
     files w' !! p = None) /\
  (verify_file (files w) p sha = true -> w' = w).
Proof.
  intros Hprim Hrun p.
  pose proof Hprim as (dl & info & Hd & Ha & Hu & Hp & Hs).
  destruct (verify_file (files w) p sha) eqn:Hv.
  { rewrite (download_artifact_cached H dir fields url rel sha w Hprim Hv)
      in Hrun. injection Hrun as <- <-.
    split; [reflexivity|]. split; [left; reflexivity|].
    split; [|reflexivity].
    intros w1 _ Hneed. rewrite (needs_download_verified _ _ _ Hv) in Hneed.
    discriminate. }
  unfold download_artifact in Hrun.
  rewrite (py_in_obj_some _ _ _ Hd), (py_getitem_obj _ _ _ Hd) in Hrun.
  cbn [bind] in Hrun.
  rewrite (py_in_obj_some _ _ _ Ha), (py_getitem_obj _ _ _ Ha) in Hrun.
  cbn [bind] in Hrun. rewrite Hu, Hp, Hs in Hrun.
  cbn [bind as_str] in Hrun. fold p in Hrun.
  unfold needs_download in Hrun. rewrite Hv, orb_true_r in Hrun.
  destruct (urlretrieve H url p w) as [w1 r1] eqn:Hret.
  destruct (fetch_checked_files H url p sha w w1 r1 Hret)
    as (Hframe & Hat & _).
  assert (Hw' : w' = match r1 with
                     | Raise => w1
                     | Ret _ =>
                         if negb (verify_file (files w1) p sha)
                         then fst (remove_if_exists p w1)
                         else w1
                     end).
  { destruct r1 as [[]|]; [destruct (negb _)|]; injection Hrun as <- _;
      reflexivity. }
  rewrite <- Hw' in Hframe, Hat.
  split; [exact Hframe|]. split; [|split; [|discriminate]].
  - destruct r1 as [[]|]; tauto.
  - intros w2 Hw2 _ Hbad. injection Hw2 as Hw1 Hr1. subst w2 r1.
    rewrite Hbad in Hw'. cbn [negb] in Hw'. rewrite Hw'.
    destruct (urlretrieve_files H url p w w1 (Ret tt) Hret)
      as [[Hr _] | [_ [body Hf]]]; [discriminate|].
    unfold remove_if_exists, path_exists, os_remove.
    rewrite Hf, lookup_insert_eq. cbn [fst files]. apply lookup_delete_eq.
Qed.

Lemma library_archive_safe_witness :
  let w' :=
    fst (download_artifact corrupting_host libraries_dir_1_21
           (JObj library_a_fields) world_without_library) in
  (forall q, q <> path_a ->
     files w' !! q = files world_without_library !! q) /\
  files w' !! path_a = None.
Proof.
  intros w'.
  destruct (library_archive_safe corrupting_host libraries_dir_1_21
              library_a_fields (JStr "https://libraries.example/a-1.0.jar")
              "org/example/a/1.0/a-1.0.jar" (JStr sha1_of_nothing)
              world_without_library w' (Ret tt))
    as (Hframe & _ & Hgone & _).
  - eexists _, _. split; [reflexivity|]. split; [reflexivity|].
    split; [reflexivity|]. split; reflexivity.
  - vm_compute. reflexivity.
  - split; [exact Hframe|].
    apply (Hgone (after_kept_download "https://libraries.example/a-1.0.jar"
                    path_a (bytes_of "corrupted") world_without_library));
      vm_compute; reflexivity.
Defined.

(** X7: the main-archive block passes control on only with a verified
    archive.  Whatever the metadata document and the world, the block
    touches no path but the main archive's; when it lets the acquisition
    continue, the file at that path verifies against the digest of the
    metadata document; when it makes the acquisition fail, the path holds
    what it held before, or nothing, or the part written by a retrieval
    that broke off: a completely downloaded file that does not verify is
    never left behind. *)
Theorem main_archive_block_safe (H : host) (version_id : string)
    (version_data : json) (w w' : world) (ok : bool) :
  download_client_jar H version_id (path_join H (VERSIONS_DIR H) version_id)
    version_data w = (w', ok) ->
  let jar := version_jar_path H version_id in
  (forall q, q <> jar -> files w' !! q = files w !! q) /\
  (ok = true ->
   exists info sha,
     client_info version_data = Ret info /\
     py_getitem info "sha1" = Ret sha /\
     verify_file (files w') jar sha = true) /\
  (ok = false ->
   files w' !! jar = files w !! jar \/ files w' !! jar = None \/
   exists info url,
     client_info version_data = Ret info /\
     py_getitem info "url" = Ret url /\
     broken_off H url (files w') jar).
Proof.
  intros Hrun jar. unfold download_client_jar in Hrun.
  fold (client_info version_data) in Hrun.
  assert (Hsame : forall b : bool,
    (w, b) = (w', ok) -> b = false ->
    (forall q, q <> jar -> files w' !! q = files w !! q) /\
    (ok = true ->
     exists info sha,
       client_info version_data = Ret info /\
       py_getitem info "sha1" = Ret sha /\
       verify_file (files w') jar sha = true) /\
    (ok = false ->
     files w' !! jar = files w !! jar \/ files w' !! jar = None \/
     exists info url,
       client_info version_data = Ret info /\
       py_getitem info "url" = Ret url /\
       broken_off H url (files w') jar)).
  { intros b [= <- <-] ->. split; [reflexivity|].
    split; [discriminate | left; reflexivity]. }
  destruct (client_info version_data) as [info|]; [|eauto].
  destruct (negb (truthy info)); [eauto|].
  destruct (py_getitem info "url") as [jar_url|] eqn:Hurl; cbn [bind] in Hrun;
    [|eauto].
  destruct (py_getitem info "sha1") as [sha|] eqn:Hsha; cbn [bind] in Hrun;
    [|eauto].
  change (path_join H (path_join H (VERSIONS_DIR H) version_id)
            (version_id ++ ".jar")) with jar in Hrun.
  destruct (needs_download w jar sha) eqn:Hneed.
  - destruct (urlretrieve H jar_url jar w) as [w1 r1] eqn:Hret.
    destruct (fetch_checked_files H jar_url jar sha w w1 r1 Hret)
      as (Hframe & Hat & Hkeep).
    destruct r1 as [[]|].
    + destruct (verify_file (files w1) jar sha) eqn:Hv; cbn [negb] in *;
        injection Hrun as <- <-.
      * split; [exact Hframe|]. split; [eauto | discriminate].
      * split; [exact Hframe|]. split; [discriminate|]. intros _.
        destruct Hat as [Hat | Hat]; [right; left; exact Hat|].
        right. left. unfold remove_if_exists, path_exists, os_remove in *.
        destruct (urlretrieve_files H jar_url jar w w1 (Ret tt) Hret)
          as [[Hr _] | [_ [body Hf]]]; [discriminate|].
        rewrite Hf, lookup_insert_eq. cbn [fst files].
        apply lookup_delete_eq.
    + injection Hrun as <- <-. split; [exact Hframe|].
      split; [discriminate|]. intros _.
      destruct Hat as [Hat | Hat]; [left; exact Hat|].
      right. right. exists info, jar_url. auto.
  - injection Hrun as <- <-. split; [reflexivity|]. split; [|discriminate].
    intros _. exists info, sha. split; [reflexivity|]. split; [exact Hsha|].
    unfold needs_download in Hneed. apply orb_false_elim in Hneed as [_ Hv].
    apply negb_false_iff in Hv. exact Hv.
Qed.

Lemma main_archive_block_safe_witness :
  let w' :=
    fst (download_client_jar corrupting_host "1.21"
           "/home/steve/.nova-client/minecraft/versions/1.21"
           (sample_metadata [library_a]) world_without_jar) in
  (forall q, q <> jar_path_1_21 ->
     files w' !! q = files world_without_jar !! q) /\
  files w' !! jar_path_1_21 = None.
Proof.
  intros w'.
  destruct (main_archive_block_safe corrupting_host "1.21"
              (sample_metadata [library_a]) world_without_jar w' false)
    as (Hframe & _ & _).
  - vm_compute. reflexivity.
  - split; [exact Hframe|]. vm_compute. reflexivity.
Defined.

(** ** Artifact acquisition with the network down *)

Section Offline.
Variable H : host.
Hypothesis Hoff : offline H.

Lemma offline_urlretrieve (url : json) (p : string) (w : world) :
  snd (urlretrieve H url p w) = Raise /\
  files (fst (urlretrieve H url p w)) = files w.
Proof.
  unfold urlretrieve. destruct url as [| | |u| |]; try (split; reflexivity).
  rewrite (Hoff u). split; reflexivity.
Qed.

Lemma offline_fetch_block (url : json) (p : string) (e : json) (w : world)
    (keep : world -> world) :
  files (fst (
    match urlretrieve H url p w with
    | (w1, Raise) => (w1, Ret tt)
    | (w1, Ret _) =>
        if negb (verify_file (files w1) p e)
        then (fst (remove_if_exists p w1), Ret tt)
        else (keep w1, Ret tt)
    end)) = files w.
Proof.
  destruct (offline_urlretrieve url p w) as [Hr Hf].
  destruct (urlretrieve H url p w) as [w1 r]. cbn [fst snd] in *. subst r.
  exact Hf.
Qed.

Lemma offline_client_jar (version_id version_dir : string) (d : json)
    (w : world) :
  files (fst (download_client_jar H version_id version_dir d w)) = files w.
Proof.
  unfold download_client_jar.
  destruct (bind _ _) as [jar_info|]; [|reflexivity].
  destruct (negb (truthy jar_info)); [reflexivity|].
  destruct (bind _ _) as [[jar_url sha]|]; [|reflexivity].
  destruct (needs_download _ _ _); [|reflexivity].
  destruct (offline_urlretrieve jar_url
              (path_join H version_dir (version_id ++ ".jar")) w) as [Hr Hf].
  destruct (urlretrieve _ _ _ _) as [w1 r]. cbn [fst snd] in *. subst r.
  exact Hf.
Qed.

Lemma offline_artifact (dir : string) (lib : json) (w : world) :
  files (fst (download_artifact H dir lib w)) = files w.
Proof.
  unfold download_artifact.
  destruct (bind _ _) as [[|]|]; try reflexivity.
  destruct (bind _ _) as [[[lib_url lib_path] sha]|]; [|reflexivity].
  destruct (needs_download _ _ _); [|reflexivity].
  apply (offline_fetch_block lib_url lib_path sha w (fun w1 => w1)).
Qed.

Lemma offline_natives (dir : string) (lib : json) (w : world) :
  files (fst (download_natives H dir lib w)) = files w.
Proof.
  unfold download_natives.
  destruct (bind _ _) as [[|]|]; try reflexivity.
  destruct (bind _ _) as [[classifier [|]]|]; try reflexivity.
  destruct (bind _ _) as [[[native_url native_path] sha]|]; [|reflexivity].
  destruct (needs_download _ _ _); [|reflexivity].
  apply (offline_fetch_block native_url native_path sha w
           (extract_natives H dir native_path)).
Qed.

Lemma offline_libraries (ldir ndir : string) (libs : list json) :
  forall w, files (fst (download_libraries H ldir ndir libs w)) = files w.
Proof.
  induction libs as [|lib libs IH]; intros w; cbn [download_libraries];
    [reflexivity|].
  assert (Hlib : files (fst (download_library H ldir ndir lib w)) = files w).
  { unfold download_library.
    destruct (is_library_allowed lib (current_os H)) as [[|]|];
      try reflexivity.
    pose proof (offline_artifact ldir lib w) as Ha.
    destruct (download_artifact H ldir lib w) as [w1 [[]|]]; cbn [fst] in *;
      [|exact Ha].
    rewrite offline_natives. exact Ha. }
  destruct (download_library H ldir ndir lib w) as [w1 [[]|]]; cbn [fst] in *;
    [|exact Hlib].
  rewrite IH. exact Hlib.
Qed.

Lemma offline_acquire (version_id : string) (d : json) (w : world) :
  files (fst (acquire_artifacts H version_id d w)) = files w.
Proof.
  unfold acquire_artifacts. destruct (negb (truthy d)); [reflexivity|].
  pose proof (offline_client_jar version_id
                (path_join H (VERSIONS_DIR H) version_id) d w) as Hj.
  destruct (download_client_jar _ _ _ _ _) as [w1 [|]]; cbn [fst] in *;
    [|exact Hj].
  destruct (bind _ _) as [libs|]; [|exact Hj].
  pose proof (offline_libraries (path_join H (MINECRAFT_DIR H) "libraries")
                (path_join H (path_join H (VERSIONS_DIR H) version_id) "natives")
                libs w1) as Hl.
  destruct (download_libraries _ _ _ _ _) as [w2 [[]|]]; cbn [fst] in *;
    congruence.
Qed.

Lemma offline_fresh (version_id : string) (version_url : json) (w : world) :
  files w !! version_json_path H version_id = None ->
  exists w',
    download_version_files H 1 version_id version_url w = Some (w', Ret false)
    /\ files w' = files w.
Proof.
  intros Hf. cbn [download_version_files]. unfold path_exists. rewrite Hf.
  cbn [negb]. destruct version_url as [| | |u| |]; eauto.
  rewrite (Hoff u). eauto.
Qed.
End Offline.



(** ** Launch plan builder: what a returned command is made of *)

Lemma classpath_libraries_present (H : host) (fs : gmap string node)
    (dir : string) (libs : list json) :
  forall cp,
    classpath_libraries H fs dir libs = Ret cp -> Forall (present fs) cp.
Proof.
  induction libs as [|lib libs IH]; intros cp Hc; cbn [classpath_libraries] in Hc.
  - injection Hc as <-. constructor.
  - destruct (is_library_allowed lib (current_os H)) as [allowed|];
      cbn [bind] in Hc; [|discriminate].
    match type of Hc with
    | bind ?e _ = _ => destruct e as [here|] eqn:Hh
    end; cbn [bind] in Hc; [|discriminate].
    destruct (classpath_libraries H fs dir libs) as [more|];
      cbn [bind] in Hc; [|discriminate].
    injection Hc as <-. apply Forall_app. split; [|apply IH; reflexivity].
    destruct allowed; [|injection Hh as <-; constructor].
    destruct (py_in "downloads" lib) as [has|]; cbn [bind] in Hh;
      [|discriminate].
    destruct (if has then _ else _) as [[|]|]; cbn [bind] in Hh;
      try discriminate; [|injection Hh as <-; constructor].
    destruct (py_getitem lib "downloads") as [dl|]; cbn [bind] in Hh;
      [|discriminate].
    destruct (py_getitem dl "artifact") as [a|]; cbn [bind] in Hh;
      [|discriminate].
    destruct (py_getitem a "path") as [rel|]; cbn [bind] in Hh;
      [|discriminate].
    destruct (as_str rel) as [rel_path|]; cbn [bind] in Hh; [|discriminate].
    destruct (fs !! path_join H dir rel_path) as [nd|] eqn:Hp;
      injection Hh as <-; constructor; [exists nd; exact Hp | constructor].
Qed.



Lemma str_app_nil_r (s : string) : (s ++ "" = s)%string.
Proof.
  induction s as [|c s IH]; [reflexivity|].
  rewrite str_app_cons, IH. reflexivity.
Qed.

Lemma str_replace_dollar_free (k v s : string) :
  key_shaped k = true -> dollar_free s = true -> str_replace k v s = s.
Proof.
  intros Hk Hs. rewrite (str_replace_key k v s Hk).
  destruct k as [|c k']; [discriminate|]. cbn [key_shaped] in Hk.
  apply andb_prop in Hk as [Hc _]. apply Ascii.eqb_eq in Hc. subst c.
  pose proof (replace_scan_literal k' v s Hs "") as Hl.
  rewrite !str_app_nil_r in Hl. destruct s; exact Hl.
Qed.

(** X10: a token without a dollar sign passes unchanged.  Whatever the
    username, the version, the directories and the metadata document put
    into the replacement table, the substitution leaves a program argument
    with no dollar sign exactly as it is. *)
Theorem plain_tokens_unchanged (H : host) (d : json)
    (version username : string) (table : list (string * string))
    (s : string) :
  replacements H d version username = Ret table ->
  dollar_free s = true ->
  apply_replacements table s = s.
Proof.
  intros Hr Hs.
  pose proof (replacements_keys H d version username table Hr) as Hkeys.
  assert (Hshape : Forall (fun kv => key_shaped (fst kv) = true) table).
  { apply List.Forall_forall. intros kv Hin.
    assert (Hk : forallb key_shaped (map fst table) = true)
      by (rewrite Hkeys; vm_compute; reflexivity).
    apply (proj1 (forallb_forall _ _) Hk). apply (List.in_map fst _ _ Hin). }
  clear Hr Hkeys. unfold apply_replacements.
  induction Hshape as [|[k v] table Hk _ IH]; [reflexivity|].
  cbn [fold_left fst snd]. cbn [fst] in Hk.
  rewrite (str_replace_dollar_free k v s Hk Hs). exact IH.
Qed.

Lemma plain_tokens_unchanged_witness :
  apply_replacements
    [("${auth_player_name}", "Steve"); ("${version_name}", "1.21");
     ("${game_directory}", "/home/steve/.nova-client/minecraft");
     ("${assets_root}", "/home/steve/.nova-client/minecraft/assets");
     ("${assets_index_name}", "17");
     ("${auth_uuid}", "5627dd98-e6be-bc21-f8a8-e92344183641");
     ("${auth_access_token}", "0"); ("${user_type}", "legacy");
     ("${version_type}", "release"); ("${user_properties}", "{}");
     ("${quickPlayRealms}", ""); ("${quickPlaySingleplayer}", "");
     ("${quickPlayMultiplayer}", "")]
    "--fullscreen" = "--fullscreen".
Proof.
  apply (plain_tokens_unchanged offline_host metadata_a_b "1.21" "Steve").
  - vm_compute. reflexivity.
  - reflexivity.
Defined.

(** ** Launch plan builder: the choice of the runtime *)

(** X11: a managed runtime shadows the system one.  When the managed
    executable exists, the system runtime is never the one launched: every
    command the builder returns starts with the managed executable; when
    the managed executable reports a major version below 21 the build
    fails whatever the system runtime is; and when the managed probe gives
    no version while the system runtime is recent enough, it is still the
    managed executable that is chosen. *)
Theorem managed_runtime_shadows (H : host) (c : cheats)
    (fs : gmap string node) (version username : string) (ram : Z)
    (nd : node) :
  fs !! local_java_path H = Some nd ->
  (forall first rest,
     build_launch_command H c fs version username ram = Ret (first :: rest) ->
     first = JStr (local_java_path H)) /\
  (forall major,
     local_java H = ProbeMajor major -> (major < 21)%Z ->
     build_launch_command H c fs version username ram = Ret []) /\
  (forall major,
     (forall m, local_java H <> ProbeMajor m) ->
     system_java H = ProbeMajor major -> (21 <= major)%Z ->
     java_choice H fs = Some (local_java_path H)).
Proof.
  intros Hl.
  assert (Hchoice : forall p, java_choice H fs = Some p -> p = local_java_path H).
  { unfold java_choice. rewrite Hl. intros p.
    destruct (is_java_installed H fs 21); congruence. }
  split; [|split].
  - intros first rest Hb.
    unfold build_launch_command in Hb. cbv zeta in Hb.
    destruct (fs !! path_join H _ (version ++ ".json")) as [nd'|];
      [|discriminate].
    destruct (match nd' with File data => _ | Dir => _ end) as [d|];
      [|discriminate].
    destruct (java_choice H fs) as [java_path|] eqn:Hj; [|discriminate].
    rewrite (Hchoice java_path eq_refl) in Hb.
    destruct (py_get d "mainClass" JNull) as [main_class|]; cbn [bind] in Hb;
      [|discriminate].
    destruct (negb (truthy main_class)); [discriminate|].
    destruct (py_get d "libraries" (JArr [])) as [listed|]; cbn [bind] in Hb;
      [|discriminate].
    destruct (py_iter listed) as [libs|]; cbn [bind] in Hb; [|discriminate].
    destruct (classpath_libraries H fs _ libs) as [cp|]; cbn [bind] in Hb;
      [|discriminate].
    destruct (fs !! path_join H _ (version ++ ".jar")); [|discriminate].
    destruct (assemble_command_shape H c d version username ram _ main_class
                _ _ Hb ltac:(discriminate)) as (jvm & game & Hcmd).
    unfold command_head in Hcmd. rewrite <- !app_comm_cons in Hcmd.
    congruence.
  - intros major Hprobe Hold.
    assert (Hnone : java_choice H fs = None).
    { unfold java_choice, is_java_installed. rewrite Hl, Hprobe.
      destruct (Z.leb_spec 21 major); [lia | reflexivity]. }
    unfold build_launch_command. cbv zeta. rewrite Hnone.
    destruct (fs !! path_join H _ (version ++ ".json")) as [[data|]|];
      try reflexivity.
    destruct (json_load H data); reflexivity.
  - intros major Hno Hsys Hnew. unfold java_choice, is_java_installed.
    rewrite Hl, Hsys.
    destruct (local_java H) as [| |m]; [| |exfalso; exact (Hno m eq_refl)];
      destruct (Z.leb_spec 21 major); (reflexivity || lia).
Qed.

Lemma managed_runtime_shadows_witness :
  files cached_world !! local_java_path offline_host
    = Some (File (bytes_of "java")) /\
  forall first rest,
    build_launch_command offline_host speed_only (files cached_world)
      "1.21" "Steve" 4 = Ret (first :: rest) ->
    first = JStr (local_java_path offline_host).
Proof.
  split; [vm_compute; reflexivity|].
  apply (managed_runtime_shadows offline_host speed_only (files cached_world)
           "1.21" "Steve" 4 (File (bytes_of "java"))).
  vm_compute. reflexivity.
Defined.

(** * The options file *)

Lemma text_of_bytes_of (s : string) : text_of (bytes_of s) = s.
Proof. apply string_of_list_byte_of_string. Qed.

Lemma all_chars_app (p : ascii -> bool) (a b : string) :
  all_chars p (a ++ b) = all_chars p a && all_chars p b.
Proof.
  induction a as [|c a IH]; [reflexivity|].
  rewrite str_app_cons. cbn [all_chars]. rewrite IH, andb_assoc. reflexivity.
Qed.

Lemma all_chars_impl (p q : ascii -> bool) (s : string) :
  (forall c, p c = true -> q c = true) ->
  all_chars p s = true -> all_chars q s = true.
Proof.
  intros Hpq. induction s as [|c s IH]; [reflexivity|].
  cbn [all_chars]. intros Hs. apply andb_prop in Hs as [Hc Hs].
  rewrite (Hpq c Hc), (IH Hs). reflexivity.
Qed.

Lemma all_chars_both (p q : ascii -> bool) (s : string) :
  all_chars p s = true -> all_chars q s = true ->
  all_chars (fun c => p c && q c) s = true.
Proof.
  induction s as [|c s IH]; [reflexivity|].
  cbn [all_chars]. intros Hp Hq.
  apply andb_prop in Hp as [Hp1 Hp2]. apply andb_prop in Hq as [Hq1 Hq2].
  rewrite Hp1, Hq1, (IH Hp2 Hq2). reflexivity.
Qed.

(** *** Line endings *)

Lemma universal_newlines_write (H : host) (s : string) :
  all_chars no_cr s = true ->
  universal_newlines (write_newlines H s) = s.
Proof.
  induction s as [|c s IH]; [reflexivity|].
  cbn [all_chars write_newlines]. intros Hs.
  apply andb_prop in Hs as [Hc Hs]. specialize (IH Hs).
  destruct (Ascii.eqb c LF) eqn:Hlf.
  - apply Ascii.eqb_eq in Hlf. subst c. unfold linesep.
    destruct (String.eqb (platform_system H) "Windows").
    + rewrite !str_app_cons, str_app_nil. cbn. rewrite IH. reflexivity.
    + rewrite !str_app_cons, str_app_nil. cbn. rewrite IH. reflexivity.
  - cbn [universal_newlines]. unfold no_cr in Hc.
    apply negb_true_iff in Hc. rewrite Hc, IH. reflexivity.
Qed.

Lemma universal_newlines_text (s : string) :
  all_chars ascii_char s = true ->
  all_chars text_char (universal_newlines s) = true.
Proof.
  enough (Hboth :
    (all_chars ascii_char s = true ->
     all_chars text_char (universal_newlines s) = true) /\
    forall c, ascii_char c = true -> all_chars ascii_char s = true ->
              all_chars text_char (universal_newlines (String c s)) = true)
    by exact (proj1 Hboth).
  induction s as [|a s [IH1 IH2]].
  - split; [reflexivity|]. intros c Hc _. cbn [universal_newlines].
    destruct (Ascii.eqb c CR) eqn:Hcr; [reflexivity|].
    cbn [all_chars]. unfold text_char at 1. rewrite Hcr, Hc. reflexivity.
  - split.
    + cbn [all_chars]. intros Ha. apply andb_prop in Ha as [Ha Hs].
      exact (IH2 a Ha Hs).
    + intros c Hc Has. cbn [all_chars] in Has.
      apply andb_prop in Has as [Ha Hs].
      change (universal_newlines (String c (String a s)))
        with (if Ascii.eqb c CR then
                String LF (if Ascii.eqb a LF then universal_newlines s
                           else universal_newlines (String a s))
              else String c (universal_newlines (String a s))).
      destruct (Ascii.eqb c CR) eqn:Hcr.
      * change (all_chars text_char (String LF ?t))
          with (all_chars text_char t).
        destruct (Ascii.eqb a LF); [exact (IH1 Hs) | exact (IH2 a Ha Hs)].
      * change (all_chars text_char (String c ?t))
          with (text_char c && all_chars text_char t).
        unfold text_char at 1. rewrite Hcr, Hc. exact (IH2 a Ha Hs).
Qed.

Lemma write_newlines_all (H : host) (p : ascii -> bool) (s : string) :
  p LF = true -> p CR = true -> all_chars p s = true ->
  all_chars p (write_newlines H s) = true.
Proof.
  intros Hlf Hcr. induction s as [|c s IH]; [reflexivity|].
  cbn [all_chars write_newlines]. intros Hs.
  apply andb_prop in Hs as [Hc Hs]. specialize (IH Hs).
  destruct (Ascii.eqb c LF).
  - rewrite all_chars_app, IH. unfold linesep.
    destruct (String.eqb (platform_system H) "Windows"); cbn [all_chars];
      rewrite ?Hlf, ?Hcr; reflexivity.
  - cbn [all_chars]. rewrite Hc, IH. reflexivity.
Qed.

Lemma is_ascii_bytes_of (s : string) :
  is_ascii (bytes_of s) = all_chars ascii_char s.
Proof.
  unfold is_ascii, bytes_of, list_byte_of_string.
  induction s as [|c s IH]; [reflexivity|].
  cbn [list_ascii_of_string map forallb all_chars]. rewrite IH. reflexivity.
Qed.

Lemma is_ascii_text_of (data : list byte) :
  all_chars ascii_char (text_of data) = is_ascii data.
Proof.
  rewrite <- (list_byte_of_string_of_list_byte data) at 2.
  symmetry. apply is_ascii_bytes_of.
Qed.

Lemma file_lines_line (body rest : string) :
  all_chars no_lf body = true ->
  file_lines (body ++ String LF rest)%string
  = (body ++ String LF "")%string :: file_lines rest.
Proof.
  induction body as [|c body IH]; [reflexivity|].
  cbn [all_chars]. intros Hb. apply andb_prop in Hb as [Hc Hb].
  rewrite !str_app_cons. cbn [file_lines].
  unfold no_lf in Hc. apply negb_true_iff in Hc. rewrite Hc, (IH Hb).
  reflexivity.
Qed.

Lemma file_lines_shape (s : string) :
  all_chars text_char s = true -> Forall line_shape (file_lines s).
Proof.
  induction s as [|c s IH]; [constructor|].
  cbn [all_chars file_lines]. intros Hs.
  apply andb_prop in Hs as [Hc Hs]. specialize (IH Hs).
  destruct (Ascii.eqb c LF) eqn:Hlf.
  - apply Ascii.eqb_eq in Hlf. subst c. constructor; [|exact IH].
    exists "". split; [reflexivity | right; reflexivity].
  - assert (Hb : no_break c = true)
      by (unfold no_break; rewrite Hlf; exact Hc).
    destruct (file_lines s) as [|line rest].
    + constructor; [|constructor]. exists (String c "").
      split; [cbn [all_chars]; rewrite Hb; reflexivity | left; reflexivity].
    + apply Forall_cons in IH as [(body & Hbody & Hline) Hrest].
      constructor; [|exact Hrest]. exists (String c body). split.
      * cbn [all_chars]. rewrite Hb, Hbody. reflexivity.
      * destruct Hline as [-> | ->]; [left | right]; reflexivity.
Qed.

(** *** Stripping *)

Lemma lstrip_tight (s : string) : starts_tight (lstrip s) = true.
Proof.
  induction s as [|c s IH]; [reflexivity|]. cbn [lstrip].
  destruct (is_space c) eqn:Hc; [exact IH|].
  cbn [starts_tight]. unfold no_space. rewrite Hc. reflexivity.
Qed.

Lemma lstrip_fixed (s : string) : starts_tight s = true -> lstrip s = s.
Proof.
  destruct s as [|c s]; [reflexivity|]. cbn [starts_tight lstrip].
  unfold no_space. intros Hc. apply negb_true_iff in Hc. rewrite Hc.
  reflexivity.
Qed.

Lemma rstrip_tight (s : string) :
  starts_tight s = true -> starts_tight (rstrip s) = true.
Proof.
  destruct s as [|c s]; [reflexivity|]. cbn [starts_tight rstrip].
  intros Hc. destruct (rstrip s).
  - unfold no_space in Hc. apply negb_true_iff in Hc. rewrite Hc. exact
      (eq_trans (f_equal negb Hc) eq_refl).
  - exact Hc.
Qed.

Lemma rstrip_idempotent (s : string) : rstrip (rstrip s) = rstrip s.
Proof.
  induction s as [|c s IH]; [reflexivity|]. cbn [rstrip].
  destruct (rstrip s) as [|d kept] eqn:Hr.
  - destruct (is_space c) eqn:Hc; [reflexivity|].
    cbn [rstrip]. rewrite Hc. reflexivity.
  - change (rstrip (String c (String d kept)))
      with (match rstrip (String d kept) with
            | EmptyString => if is_space c then EmptyString else String c ""
            | k => String c k
            end).
    rewrite IH. reflexivity.
Qed.

Lemma strip_idempotent (s : string) : strip (strip s) = strip s.
Proof.
  unfold strip.
  rewrite (lstrip_fixed (rstrip (lstrip s))
             (rstrip_tight _ (lstrip_tight s))).
  apply rstrip_idempotent.
Qed.

Lemma lstrip_snoc (s : string) (c : ascii) :
  is_space c = true ->
  lstrip (s ++ String c "")%string
  = match lstrip s with
    | EmptyString => EmptyString
    | String d t => (String d t ++ String c "")%string
    end.
Proof.
  intros Hc. induction s as [|a s IH].
  - rewrite str_app_nil. cbn [lstrip]. rewrite Hc. reflexivity.
  - rewrite str_app_cons. cbn [lstrip].
    destruct (is_space a); [exact IH | reflexivity].
Qed.

Lemma rstrip_snoc (s : string) (c : ascii) :
  is_space c = true -> rstrip (s ++ String c "")%string = rstrip s.
Proof.
  intros Hc. induction s as [|a s IH].
  - rewrite str_app_nil. cbn [rstrip]. rewrite Hc. reflexivity.
  - rewrite str_app_cons. cbn [rstrip]. rewrite IH. reflexivity.
Qed.

Lemma strip_snoc (s : string) (c : ascii) :
  is_space c = true -> strip (s ++ String c "")%string = strip s.
Proof.
  intros Hc. unfold strip. rewrite (lstrip_snoc s c Hc).
  destruct (lstrip s) as [|d t]; [reflexivity|].
  apply (rstrip_snoc _ c Hc).
Qed.

Lemma all_chars_lstrip (p : ascii -> bool) (s : string) :
  all_chars p s = true -> all_chars p (lstrip s) = true.
Proof.
  induction s as [|c s IH]; [reflexivity|]. cbn [lstrip].
  destruct (is_space c); [|exact id].
  cbn [all_chars]. intros Hs. apply andb_prop in Hs as [_ Hs]. exact (IH Hs).
Qed.

Lemma all_chars_rstrip (p : ascii -> bool) (s : string) :
  all_chars p s = true -> all_chars p (rstrip s) = true.
Proof.
  induction s as [|c s IH]; [reflexivity|]. cbn [rstrip all_chars].
  intros Hs. apply andb_prop in Hs as [Hc Hs]. specialize (IH Hs).
  destruct (rstrip s) as [|d kept].
  - destruct (is_space c); [reflexivity|].
    cbn [all_chars]. rewrite Hc. reflexivity.
  - change (all_chars p (String c (String d kept)))
      with (p c && all_chars p (String d kept)).
    rewrite Hc, IH. reflexivity.
Qed.

Lemma all_chars_strip (p : ascii -> bool) (s : string) :
  all_chars p s = true -> all_chars p (strip s) = true.
Proof.
  intros Hs. apply all_chars_rstrip, all_chars_lstrip, Hs.
Qed.

Lemma strip_plain (s : string) :
  all_chars no_space s = true -> strip s = s.
Proof.
  intros Hs. unfold strip.
  assert (Hl : lstrip s = s).
  { destruct s as [|c s]; [reflexivity|]. cbn [all_chars] in Hs.
    apply andb_prop in Hs as [Hc _]. apply lstrip_fixed. exact Hc. }
  rewrite Hl. clear Hl. induction s as [|c s IH]; [reflexivity|].
  cbn [all_chars] in Hs. apply andb_prop in Hs as [Hc Hs].
  cbn [rstrip]. rewrite (IH Hs).
  destruct s; [|reflexivity].
  unfold no_space in Hc. apply negb_true_iff in Hc. rewrite Hc. reflexivity.
Qed.

Lemma strip_line_shape (line : string) :
  line_shape line -> all_chars no_break (strip line) = true.
Proof.
  intros (body & Hbody & [-> | ->]).
  - apply all_chars_strip, Hbody.
  - rewrite (strip_snoc body LF eq_refl). apply all_chars_strip, Hbody.
Qed.

(** *** Splitting at the first colon *)

Lemma split_colon_app (k v : string) :
  all_chars no_colon k = true ->
  split_colon (k ++ ":" ++ v)%string = Some (k, v).
Proof.
  induction k as [|c k IH].
  - intros _. reflexivity.
  - cbn [all_chars]. intros Hk. apply andb_prop in Hk as [Hc Hk].
    rewrite str_app_cons. cbn [split_colon].
    unfold no_colon in Hc. apply negb_true_iff in Hc.
    rewrite Hc, (IH Hk). reflexivity.
Qed.

Lemma split_colon_inv (s k v : string) :
  split_colon s = Some (k, v) ->
  s = (k ++ ":" ++ v)%string /\ all_chars no_colon k = true.
Proof.
  revert k. induction s as [|c s IH]; [discriminate|].
  intros k. cbn [split_colon].
  destruct (Ascii.eqb c ":") eqn:Hc.
  - intros [= <- <-]. apply Ascii.eqb_eq in Hc. subst c.
    split; reflexivity.
  - destruct (split_colon s) as [[k' v']|]; [|discriminate].
    intros [= <- <-]. destruct (IH k' eq_refl) as [-> Hk].
    split; [reflexivity|]. cbn [all_chars]. unfold no_colon at 1.
    rewrite Hc, Hk. reflexivity.
Qed.

(** *** The table *)

Lemma options_get_set_same (k v : string) (o : list (string * string)) :
  options_get k (options_set k v o) = Some v.
Proof.
  induction o as [|[k' v'] o IH]; cbn [options_set options_get].
  - rewrite String.eqb_refl. reflexivity.
  - destruct (String.eqb k k') eqn:Hk; cbn [options_get]; rewrite Hk;
      [reflexivity | exact IH].
Qed.

Lemma options_get_set_other (k k0 v : string) (o : list (string * string)) :
  k0 <> k -> options_get k0 (options_set k v o) = options_get k0 o.
Proof.
  intros Hne. apply String.eqb_neq in Hne.
  induction o as [|[k' v'] o IH]; cbn [options_set options_get].
  - rewrite Hne. reflexivity.
  - destruct (String.eqb k k') eqn:Hk; cbn [options_get].
    + apply String.eqb_eq in Hk. subst k'. rewrite Hne. reflexivity.
    + rewrite IH. reflexivity.
Qed.

Lemma options_set_present (k v : string) (o : list (string * string)) :
  options_get k o = Some v -> options_set k v o = o.
Proof.
  induction o as [|[k' v'] o IH]; [discriminate|].
  cbn [options_set options_get]. destruct (String.eqb k k').
  - intros [= ->]. reflexivity.
  - intros Hg. rewrite (IH Hg). reflexivity.
Qed.

Lemma options_set_twice (k v v' : string) (o : list (string * string)) :
  options_set k v' (options_set k v o) = options_set k v' o.
Proof.
  induction o as [|[k' v0] o IH]; cbn [options_set].
  - rewrite String.eqb_refl. reflexivity.
  - destruct (String.eqb k k') eqn:Hk; cbn [options_set]; rewrite Hk;
      [reflexivity | rewrite IH; reflexivity].
Qed.

Lemma has_key_set (k k0 v : string) (o : list (string * string)) :
  has_key k0 (options_set k v o) = has_key k0 o || String.eqb k0 k.
Proof.
  unfold has_key.
  induction o as [|[k' v'] o IH]; cbn [options_set existsb fst].
  - rewrite orb_false_r. reflexivity.
  - destruct (String.eqb k k') eqn:Hk; cbn [existsb fst].
    + apply String.eqb_eq in Hk. subst k'. clear IH.
      destruct (String.eqb k0 k); [reflexivity|].
      cbn [orb]. rewrite orb_false_r. reflexivity.
    + rewrite IH, orb_assoc. reflexivity.
Qed.

Lemma options_set_swap (k k' v v' : string) (o : list (string * string)) :
  k <> k' -> has_key k o = true ->
  options_set k v (options_set k' v' o)
  = options_set k' v' (options_set k v o).
Proof.
  intros Hne. unfold has_key.
  induction o as [|[k0 v0] o IH]; [discriminate|].
  cbn [existsb fst options_set].
  destruct (String.eqb k k0) eqn:Hk, (String.eqb k' k0) eqn:Hk'.
  - apply String.eqb_eq in Hk, Hk'. congruence.
  - intros _. cbn [options_set]. rewrite Hk, Hk'. reflexivity.
  - intros Ho. cbn [options_set]. rewrite Hk, Hk'. reflexivity.
  - cbn [orb]. intros Ho. cbn [options_set]. rewrite Hk, Hk', (IH Ho).
    reflexivity.
Qed.

Lemma options_set_absent (k v : string) (o : list (string * string)) :
  has_key k o = false -> options_set k v o = o ++ [(k, v)].
Proof.
  unfold has_key. induction o as [|[k' v'] o IH]; [reflexivity|].
  cbn [existsb fst options_set]. destruct (String.eqb k k'); [discriminate|].
  cbn [orb]. intros Ho. rewrite (IH Ho). reflexivity.
Qed.

Lemma distinct_keys_set (k v : string) (o : list (string * string)) :
  distinct_keys o = true -> distinct_keys (options_set k v o) = true.
Proof.
  induction o as [|[k' v'] o IH]; [reflexivity|].
  cbn [distinct_keys options_set]. intros Ho.
  apply andb_prop in Ho as [Hk' Ho].
  destruct (String.eqb k k') eqn:Hk; cbn [distinct_keys].
  - rewrite Hk', Ho. reflexivity.
  - fold (has_key k' (options_set k v o)). rewrite has_key_set.
    fold (has_key k' o) in Hk'. apply negb_true_iff in Hk'. rewrite Hk'.
    rewrite String.eqb_sym, Hk, (IH Ho). reflexivity.
Qed.

Lemma entries_ok_set (k v : string) (o : list (string * string)) :
  entry_ok (k, v) = true -> forallb entry_ok o = true ->
  forallb entry_ok (options_set k v o) = true.
Proof.
  intros Hkv. induction o as [|[k' v'] o IH].
  - intros _. cbn [options_set forallb]. rewrite Hkv. reflexivity.
  - cbn [options_set forallb]. intros Ho. apply andb_prop in Ho as [Hk' Ho].
    destruct (String.eqb k k') eqn:Hk; cbn [forallb].
    + apply String.eqb_eq in Hk. subst k'. rewrite Hkv, Ho. reflexivity.
    + rewrite Hk', (IH Ho). reflexivity.
Qed.

Lemma canonical_set (k v : string) (o : list (string * string)) :
  entry_ok (k, v) = true -> canonical o = true ->
  canonical (options_set k v o) = true.
Proof.
  unfold canonical. intros Hkv Ho. apply andb_prop in Ho as [Hd Ho].
  rewrite (distinct_keys_set k v o Hd), (entries_ok_set k v o Hkv Ho).
  reflexivity.
Qed.

(** *** Reading *)

Lemma entry_ok_parts (kv : string * string) :
  entry_ok kv = true ->
  all_chars key_char (fst kv) = true /\ all_chars no_break (snd kv) = true /\
  strip (entry_line kv) = entry_line kv.
Proof.
  unfold entry_ok, entry_line. intros Hkv.
  apply andb_prop in Hkv as [Hkv Hs]. apply andb_prop in Hkv as [Hk Hv].
  apply String.eqb_eq in Hs. auto.
Qed.

Lemma read_line_entry (o : list (string * string)) (kv : string * string) :
  entry_ok kv = true ->
  read_line o (entry_line kv ++ String LF "") = options_set (fst kv) (snd kv) o.
Proof.
  intros Hkv. destruct (entry_ok_parts kv Hkv) as (Hk & _ & Hs).
  unfold read_line. rewrite (strip_snoc _ LF eq_refl), Hs.
  unfold entry_line. rewrite split_colon_app; [reflexivity|].
  apply (all_chars_impl key_char); [|exact Hk].
  intros c Hc. unfold key_char in Hc. apply andb_prop in Hc as [_ Hc].
  exact Hc.
Qed.

Lemma read_line_ok (o : list (string * string)) (line : string) :
  line_shape line -> canonical o = true -> canonical (read_line o line) = true.
Proof.
  intros Hl Ho. unfold read_line.
  destruct (split_colon (strip line)) as [[k v]|] eqn:Hsplit; [|exact Ho].
  destruct (split_colon_inv _ _ _ Hsplit) as [Hline Hk].
  pose proof (strip_line_shape line Hl) as Hb.
  rewrite Hline, !all_chars_app in Hb.
  apply andb_prop in Hb as [Hbk Hbv]. apply andb_prop in Hbv as [_ Hbv].
  apply canonical_set; [|exact Ho].
  assert (Hkey : all_chars key_char k = true)
    by exact (all_chars_both no_break no_colon k Hbk Hk).
  unfold entry_ok. cbn [fst snd]. rewrite Hkey, Hbv.
  rewrite <- Hline, strip_idempotent, String.eqb_refl. reflexivity.
Qed.

Lemma read_lines_ok (lines : list string) (o : list (string * string)) :
  Forall line_shape lines -> canonical o = true ->
  canonical (fold_left read_line lines o) = true.
Proof.
  intros Hl. revert o. induction Hl as [|line lines Hline _ IH]; intros o Ho.
  - exact Ho.
  - cbn [fold_left]. apply IH, read_line_ok; assumption.
Qed.

Lemma read_options_canonical (data : list byte) :
  is_ascii data = true -> canonical (read_options data) = true.
Proof.
  intros Ha. unfold read_options. apply read_lines_ok; [|reflexivity].
  apply file_lines_shape, universal_newlines_text.
  rewrite is_ascii_text_of. exact Ha.
Qed.

(** *** Writing and reading back *)

Lemma render_options_cons (kv : string * string)
    (rest : list (string * string)) :
  render_options (kv :: rest)
  = (entry_line kv ++ String LF (render_options rest))%string.
Proof.
  destruct kv as [k v]. unfold entry_line. cbn [render_options fst snd].
  rewrite !str_app_assoc. reflexivity.
Qed.

Lemma key_char_no_break (c : ascii) : key_char c = true -> no_break c = true.
Proof. unfold key_char. intros Hc. apply andb_prop in Hc as [Hc _]. exact Hc. Qed.

Lemma no_break_no_lf (c : ascii) : no_break c = true -> no_lf c = true.
Proof.
  unfold no_break. intros Hc. apply andb_prop in Hc as [Hc _].
  apply andb_prop in Hc as [Hc _]. exact Hc.
Qed.

Lemma no_break_no_cr (c : ascii) : no_break c = true -> no_cr c = true.
Proof.
  unfold no_break. intros Hc. apply andb_prop in Hc as [Hc _].
  apply andb_prop in Hc as [_ Hc]. exact Hc.
Qed.

Lemma no_break_ascii (c : ascii) : no_break c = true -> ascii_char c = true.
Proof. unfold no_break. intros Hc. apply andb_prop in Hc as [_ Hc]. exact Hc. Qed.

Lemma entry_line_no_break (kv : string * string) :
  entry_ok kv = true -> all_chars no_break (entry_line kv) = true.
Proof.
  intros Hkv. destruct (entry_ok_parts kv Hkv) as (Hk & Hv & _).
  unfold entry_line. rewrite !all_chars_app.
  rewrite (all_chars_impl _ _ _ key_char_no_break Hk), Hv. reflexivity.
Qed.

Lemma render_options_no_cr (o : list (string * string)) :
  forallb entry_ok o = true -> all_chars no_cr (render_options o) = true.
Proof.
  induction o as [|kv o IH]; [reflexivity|].
  cbn [forallb]. intros Ho. apply andb_prop in Ho as [Hkv Ho].
  rewrite render_options_cons, all_chars_app.
  rewrite (all_chars_impl _ _ _ no_break_no_cr (entry_line_no_break kv Hkv)).
  cbn [all_chars andb]. rewrite (IH Ho). reflexivity.
Qed.

Lemma render_options_lines (o : list (string * string)) :
  forallb entry_ok o = true ->
  file_lines (render_options o)
  = map (fun kv => (entry_line kv ++ String LF "")%string) o.
Proof.
  induction o as [|kv o IH]; [reflexivity|].
  cbn [forallb]. intros Ho. apply andb_prop in Ho as [Hkv Ho].
  rewrite render_options_cons, file_lines_line, (IH Ho); [reflexivity|].
  exact (all_chars_impl _ _ _ no_break_no_lf (entry_line_no_break kv Hkv)).
Qed.

Lemma has_key_app (k : string) (a b : list (string * string)) :
  has_key k (a ++ b) = has_key k a || has_key k b.
Proof. unfold has_key. apply existsb_app. Qed.

Lemma read_entries (o acc : list (string * string)) :
  forallb entry_ok o = true -> distinct_keys o = true ->
  (forall kv, In kv o -> has_key (fst kv) acc = false) ->
  fold_left read_line
    (map (fun kv => (entry_line kv ++ String LF "")%string) o) acc
  = acc ++ o.
Proof.
  revert acc. induction o as [|[k v] o IH]; intros acc Hok Hd Hacc.
  - cbn [map fold_left]. rewrite app_nil_r. reflexivity.
  - cbn [forallb] in Hok. apply andb_prop in Hok as [Hkv Hok].
    cbn [distinct_keys] in Hd. apply andb_prop in Hd as [Hk Hd].
    apply negb_true_iff in Hk.
    cbn [map fold_left]. rewrite (read_line_entry acc (k, v) Hkv).
    cbn [fst snd].
    rewrite (options_set_absent k v acc (Hacc (k, v) (or_introl eq_refl))).
    rewrite (IH (acc ++ [(k, v)]) Hok Hd).
    + rewrite <- app_assoc. reflexivity.
    + intros kv Hin. rewrite has_key_app, (Hacc kv (or_intror Hin)).
      unfold has_key. cbn [existsb fst orb]. rewrite orb_false_r.
      destruct (String.eqb (fst kv) k) eqn:Hkk; [|reflexivity].
      apply String.eqb_eq in Hkk. subst k.
      assert (Hex : existsb (fun kv' => String.eqb (fst kv) (fst kv')) o
                    = true).
      { apply existsb_exists. exists kv. split; [exact Hin|].
        apply String.eqb_refl. }
      congruence.
Qed.

Lemma render_options_ascii (o : list (string * string)) :
  forallb entry_ok o = true ->
  all_chars ascii_char (render_options o) = true.
Proof.
  induction o as [|kv o IH]; [reflexivity|].
  cbn [forallb]. intros Ho. apply andb_prop in Ho as [Hkv Ho].
  rewrite render_options_cons, all_chars_app.
  rewrite (all_chars_impl _ _ _ no_break_ascii (entry_line_no_break kv Hkv)).
  cbn [all_chars andb]. rewrite (IH Ho). reflexivity.
Qed.

Lemma options_file_ascii (H : host) (o : list (string * string)) :
  canonical o = true -> is_ascii (options_file H o) = true.
Proof.
  unfold canonical. intros Ho. apply andb_prop in Ho as [_ Hok].
  unfold options_file. rewrite is_ascii_bytes_of.
  apply write_newlines_all; [reflexivity | reflexivity |].
  apply render_options_ascii, Hok.
Qed.

Lemma read_written (H : host) (o : list (string * string)) :
  canonical o = true -> read_options (options_file H o) = o.
Proof.
  unfold canonical. intros Ho. apply andb_prop in Ho as [Hd Hok].
  unfold read_options, options_file.
  rewrite text_of_bytes_of.
  rewrite (universal_newlines_write H _ (render_options_no_cr o Hok)).
  rewrite (render_options_lines o Hok).
  apply (read_entries o [] Hok Hd). intros kv _. reflexivity.
Qed.

(** *** The two settings *)

Lemma string_of_uint_numeral (d : Decimal.uint) :
  all_chars is_numeral (NilEmpty.string_of_uint d) = true.
Proof.
  induction d as [|d IH|d IH|d IH|d IH|d IH|d IH|d IH|d IH|d IH|d IH];
    [reflexivity|..]; cbn [NilEmpty.string_of_uint all_chars]; rewrite IH;
    reflexivity.
Qed.

Lemma str_of_int_numeral (n : Z) : all_chars is_numeral (str_of_int n) = true.
Proof.
  unfold str_of_int, NilZero.string_of_int, NilZero.string_of_uint.
  destruct (Z.to_int n) as [d|d].
  - destruct d; try reflexivity; apply (string_of_uint_numeral (_ d)).
  - cbn [all_chars].
    destruct d; try reflexivity; apply (string_of_uint_numeral (_ d)).
Qed.

Lemma numeral_plain (c : ascii) :
  is_numeral c = true -> (no_break c && no_space c) = true.
Proof.
  destruct c as [[] [] [] [] [] [] [] []]; intros Hc; try discriminate Hc;
    reflexivity.
Qed.

Lemma max_fps_entry_ok (n : Z) : entry_ok ("maxFps", str_of_int n) = true.
Proof.
  pose proof (str_of_int_numeral n) as Hn.
  assert (Hb : all_chars no_break (str_of_int n) = true).
  { apply (all_chars_impl is_numeral); [|exact Hn]. intros c Hc.
    apply numeral_plain in Hc. apply andb_prop in Hc as [Hc _]. exact Hc. }
  assert (Hs : all_chars no_space (str_of_int n) = true).
  { apply (all_chars_impl is_numeral); [|exact Hn]. intros c Hc.
    apply numeral_plain in Hc. apply andb_prop in Hc as [_ Hc]. exact Hc. }
  unfold entry_ok. cbn [fst snd]. rewrite Hb.
  rewrite strip_plain; [rewrite String.eqb_refl; reflexivity|].
  rewrite !all_chars_app, Hs. reflexivity.
Qed.

Lemma updated_options_canonical (n : Z) (o : list (string * string)) :
  canonical o = true -> canonical (updated_options n o) = true.
Proof.
  intros Ho. unfold updated_options.
  apply canonical_set; [reflexivity|].
  apply canonical_set; [apply max_fps_entry_ok | exact Ho].
Qed.

Lemma updated_options_twice (m n : Z) (o : list (string * string)) :
  updated_options m (updated_options n o) = updated_options m o.
Proof.
  unfold updated_options.
  rewrite (options_set_swap "maxFps" "enableVsync" (str_of_int m) "false");
    [|discriminate|].
  - rewrite !options_set_twice. reflexivity.
  - rewrite has_key_set, String.eqb_refl, orb_true_r. reflexivity.
Qed.

Lemma modify_options_txt_file (H : host) (n : Z) (w : world) :
  files w !! options_path H <> Some Dir ->
  ascii_options H w = true ->
  modify_options_txt H n w
  = {| files :=
         <[options_path H :=
             File (options_file H (updated_options n (stored_options H w)))]>
           (files w);
       requests := requests w |}.
Proof.
  intros Hdir. unfold modify_options_txt, ascii_options, stored_options,
    write_file.
  destruct (files w !! options_path H) as [[data|]|];
    [|contradiction|reflexivity].
  intros ->. reflexivity.
Qed.

Lemma modify_options_txt_dir (H : host) (n : Z) (w : world) :
  files w !! options_path H = Some Dir -> modify_options_txt H n w = w.
Proof.
  intros Hdir. unfold modify_options_txt, write_file.
  rewrite Hdir. reflexivity.
Qed.

Lemma stored_options_canonical (H : host) (w : world) :
  ascii_options H w = true -> canonical (stored_options H w) = true.
Proof.
  unfold stored_options, ascii_options.
  destruct (files w !! options_path H) as [[data|]|]; try reflexivity.
  apply read_options_canonical.
Qed.

Lemma stored_after_modify (H : host) (n : Z) (w : world) :
  files w !! options_path H <> Some Dir ->
  ascii_options H w = true ->
  stored_options H (modify_options_txt H n w)
  = updated_options n (stored_options H w) /\
  ascii_options H (modify_options_txt H n w) = true.
Proof.
  intros Hdir Ha. rewrite (modify_options_txt_file H n w Hdir Ha).
  unfold stored_options at 1, ascii_options at 1. cbn [files].
  rewrite lookup_insert_eq.
  pose proof (updated_options_canonical n _
                (stored_options_canonical H w Ha)) as Hc.
  split; [apply read_written, Hc | apply options_file_ascii, Hc].
Qed.

(** X12: the last run of the options tweak wins.  When the options file,
    if there is one, is ASCII text, running [modify_options_txt] again,
    with the same or another frame-rate cap, leaves the world exactly as
    the last run alone would have left it; in particular a second run
    with the same cap changes nothing.  This holds on every platform,
    whatever line separator it writes. *)
Theorem options_last_run_wins (H : host) (m n : Z) (w : world) :
  ascii_options H w = true ->
  modify_options_txt H m (modify_options_txt H n w)
  = modify_options_txt H m w.
Proof.
  intros Ha.
  assert (Hcases : files w !! options_path H = Some Dir \/
                   files w !! options_path H <> Some Dir).
  { destruct (files w !! options_path H) as [[data|]|];
      [right; discriminate | left; reflexivity | right; discriminate]. }
  destruct Hcases as [Hdir|Hdir].
  - rewrite (modify_options_txt_dir H n w Hdir). reflexivity.
  - destruct (stored_after_modify H n w Hdir Ha) as [Hstored Ha'].
    rewrite (modify_options_txt_file H m (modify_options_txt H n w)).
    + rewrite Hstored, updated_options_twice.
      rewrite (modify_options_txt_file H n w Hdir Ha).
      rewrite (modify_options_txt_file H m w Hdir Ha).
      cbn [files requests]. rewrite insert_insert_eq. reflexivity.
    + rewrite (modify_options_txt_file H n w Hdir Ha). cbn [files].
      rewrite lookup_insert_eq. discriminate.
    + exact Ha'.
Qed.

(** X13: the two settings are read back and every other setting is kept.
    When the options file, if there is one, is ASCII text and no directory
    stands at its path, the file that [modify_options_txt] leaves is ASCII
    text which, read by the reading loop of the function, gives the
    requested cap for maxFps, false for enableVsync, and for every other
    key exactly what the file gave before. *)
Theorem options_settings_read_back (H : host) (n : Z) (w : world) :
  files w !! options_path H <> Some Dir ->
  ascii_options H w = true ->
  let w' := modify_options_txt H n w in
  let after := stored_options H w' in
  ascii_options H w' = true /\
  (exists data, files w' !! options_path H = Some (File data)) /\
  options_get "maxFps" after = Some (str_of_int n) /\
  options_get "enableVsync" after = Some "false" /\
  forall k, k <> "maxFps" -> k <> "enableVsync" ->
    options_get k after = options_get k (stored_options H w).
Proof.
  intros Hdir Ha w' after. subst w' after.
  destruct (stored_after_modify H n w Hdir Ha) as [-> Ha'].
  split; [exact Ha'|]. split.
  { rewrite (modify_options_txt_file H n w Hdir Ha). cbn [files].
    rewrite lookup_insert_eq. eauto. }
  unfold updated_options. split; [|split].
  - rewrite options_get_set_other by discriminate.
    apply options_get_set_same.
  - apply options_get_set_same.
  - intros k Hm Hv. rewrite !options_get_set_other by assumption.
    reflexivity.
Qed.

(** X14: reading inverts writing.  A table with distinct keys, whose keys
    and values are ASCII text without line breaks, whose keys hold no
    colon and whose lines have no white space at either end, is written
    as ASCII bytes and is read back from them exactly as it was, in the
    same order, whatever line separator the platform writes. *)
Theorem options_round_trip (H : host) (o : list (string * string)) :
  canonical o = true ->
  is_ascii (options_file H o) = true /\
  read_options (options_file H o) = o.
Proof.
  intros Ho. split; [apply options_file_ascii | apply read_written]; exact Ho.
Qed.

(** X15: a well-formed options file keeps its lines.  When the options
    file is the one written for a canonical table, [modify_options_txt]
    leaves the file written for the same table with maxFps and
    enableVsync set: each in its old place when the table had the key, at
    the end otherwise; no other line moves or changes. *)
Theorem well_formed_options_kept (H : host) (n : Z) (w : world)
    (o : list (string * string)) :
  canonical o = true ->
  files w !! options_path H = Some (File (options_file H o)) ->
  files (modify_options_txt H n w) !! options_path H
  = Some (File (options_file H (updated_options n o))).
Proof.
  intros Ho Hf.
  assert (Ha : ascii_options H w = true).
  { unfold ascii_options. rewrite Hf. apply options_file_ascii, Ho. }
  rewrite (modify_options_txt_file H n w) by (rewrite ?Hf; (discriminate || exact Ha)).
  cbn [files]. rewrite lookup_insert_eq. unfold stored_options.
  rewrite Hf, (read_written H o Ho). reflexivity.
Qed.

Lemma options_last_run_wins_witness :
  modify_options_txt offline_host 30
    (modify_options_txt offline_host 60 options_world)
  = modify_options_txt offline_host 30 options_world.
Proof.
  apply (options_last_run_wins offline_host 30 60 options_world).
  vm_compute. reflexivity.
Defined.

Lemma options_settings_read_back_witness :
  files options_world !! options_path offline_host <> Some Dir /\
  ascii_options offline_host options_world = true /\
  options_get "maxFps"
    (stored_options offline_host
       (modify_options_txt offline_host 60 options_world)) = Some "60".
Proof.
  assert (Hdir : files options_world !! options_path offline_host
                 <> Some Dir) by (vm_compute; discriminate).
  assert (Ha : ascii_options offline_host options_world = true)
    by (vm_compute; reflexivity).
  split; [exact Hdir|]. split; [exact Ha|].
  exact (proj1 (proj2 (proj2
           (options_settings_read_back offline_host 60 options_world
              Hdir Ha)))).
Defined.

Lemma options_round_trip_witness :
  canonical tidy_options = true /\
  read_options (options_file offline_host tidy_options) = tidy_options.
Proof.
  split; [reflexivity|].
  apply (proj2 (options_round_trip offline_host tidy_options eq_refl)).
Defined.

Lemma well_formed_options_kept_witness :
  files (modify_options_txt offline_host 60 tidy_world)
    !! options_path offline_host
  = Some (File (options_file offline_host
                  [("fov", "0.5"); ("maxFps", "60"); ("lang", "en_us");
                   ("enableVsync", "false")])).
Proof.
  apply (well_formed_options_kept offline_host 60 tidy_world tidy_options).
  - reflexivity.
  - vm_compute. reflexivity.
Defined.

(** A line without a colon does not survive the rewrite. *)
Example options_comment_dropped :
  files (modify_options_txt offline_host 60 options_world)
    !! options_path offline_host
  = Some (File (options_file offline_host
                  [("fov", "0.5"); ("maxFps", "60");
                   ("enableVsync", "false")])).
Proof. vm_compute. reflexivity. Qed.

(** * The Java installer and the launch *)

Lemma urlretrieve_log (H : host) (u p : string) (w : world) :
  requests (fst (urlretrieve H (JStr u) p w))
  = requests w ++ [UrlRetrieve u].
Proof.
  unfold urlretrieve, write_file, logged. cbv zeta.
  destruct (network H u) as [body|]; [|reflexivity].
  cbn [files].
  destruct (truncated H u), (files w !! p) as [[data|]|]; reflexivity.
Qed.

Lemma urlretrieve_done (H : host) (u p : string) (w w1 : world) :
  urlretrieve H (JStr u) p w = (w1, Ret tt) ->
  exists body,
    network H u = Some body /\ truncated H u = None /\
    w1 = after_kept_download u p body w.
Proof.
  unfold urlretrieve, write_file, logged. cbv zeta.
  destruct (network H u) as [body|]; [|discriminate].
  destruct (truncated H u); [discriminate|].
  cbn [files requests].
  destruct (files w !! p) as [[data|]|]; try discriminate;
    intros [= <-]; exists body; auto.
Qed.

Lemma unpack_java_log (H : host) (U : unpacker) (p : string) (w : world) :
  requests (fst (unpack_java H U p w)) = requests w.
Proof.
  unfold unpack_java. destruct (files w !! p) as [[data|]|]; try reflexivity.
  destruct (if String.eqb (platform_system H) "Windows"
            then zip_extractall U data (JAVA_DIR H) (files w)
            else tar_extractall U data (JAVA_DIR H) (files w)) as [fs r].
  reflexivity.
Qed.

Lemma os_remove_log (p : string) (w : world) :
  requests (fst (os_remove p w)) = requests w.
Proof.
  unfold os_remove. destruct (files w !! p) as [[data|]|]; reflexivity.
Qed.

Lemma os_remove_done (p : string) (w w' : world) :
  os_remove p w = (w', Ret tt) -> files w' !! p = None.
Proof.
  unfold os_remove. destruct (files w !! p) as [[data|]|]; try discriminate.
  intros [= <-]. cbn [files]. apply lookup_delete_eq.
Qed.

(** X16: the installer asks the network for one thing at most.  It makes
    no request at all when a runtime of version 21 or more is found, when
    the platform is not one of the three it knows, or when the directory
    of the managed runtime exists; otherwise it makes exactly one request,
    the retrieval of the archive of the platform, whether the download,
    the unpacking and the clean-up succeed or not. *)
Theorem java_install_requests (H : host) (U : unpacker) (w : world) :
  let after := fst (install_java_if_needed H U w) in
  ((is_java_installed H (files w) 21 = true \/ java_archive H = None \/
    tree_exists U (files w) (extracted_java_folder H) = true) ->
   after = w) /\
  (is_java_installed H (files w) 21 = false ->
   tree_exists U (files w) (extracted_java_folder H) = false ->
   forall java_url archive_ext,
     java_archive H = Some (java_url, archive_ext) ->
     requests after = requests w ++ [UrlRetrieve java_url]).
Proof.
  cbv zeta. unfold install_java_if_needed. split.
  - intros Hskip.
    destruct (is_java_installed H (files w) 21); [reflexivity|].
    destruct (java_archive H) as [[java_url archive_ext]|]; [|reflexivity].
    destruct (tree_exists U (files w) (extracted_java_folder H));
      [reflexivity|].
    destruct Hskip as [Hs|[Hs|Hs]]; discriminate Hs.
  - intros -> -> java_url archive_ext ->.
    pose proof (urlretrieve_log H java_url
                  (java_archive_path H archive_ext) w) as H1.
    destruct (urlretrieve H (JStr java_url) _ w) as [w1 [[]|]];
      cbn [fst] in H1 |- *; [|exact H1].
    pose proof (unpack_java_log H U (java_archive_path H archive_ext) w1)
      as H2.
    destruct (unpack_java H U _ w1) as [w2 [[]|]]; cbn [fst] in H2 |- *;
      [|congruence].
    pose proof (os_remove_log (java_archive_path H archive_ext) w2) as H3.
    destruct (os_remove _ w2) as [w3 [[]|]]; cbn [fst] in H3 |- *;
      congruence.
Qed.

(** X17: what a successful installation means.  When the installer
    answers [True], either it changed nothing, because a runtime of
    version 21 or more was found or because the directory of the managed
    runtime exists, or each of its three steps returned without an
    exception, one after the other: the server answered and the archive
    of the platform was written completely, the archive was opened and
    unpacked into the Java directory, and the archive was removed, so that
    no downloaded archive is left behind. *)
Theorem java_install_success (H : host) (U : unpacker) (w w' : world) :
  install_java_if_needed H U w = (w', true) ->
  (w' = w /\
   (is_java_installed H (files w) 21 = true \/
    tree_exists U (files w) (extracted_java_folder H) = true)) \/
  exists java_url archive_ext body w2,
    java_archive H = Some (java_url, archive_ext) /\
    network H java_url = Some body /\
    truncated H java_url = None /\
    let archive_path := java_archive_path H archive_ext in
    let w1 := after_kept_download java_url archive_path body w in
    urlretrieve H (JStr java_url) archive_path w = (w1, Ret tt) /\
    unpack_java H U archive_path w1 = (w2, Ret tt) /\
    os_remove archive_path w2 = (w', Ret tt) /\
    files w' !! archive_path = None.
Proof.
  unfold install_java_if_needed.
  destruct (is_java_installed H (files w) 21);
    [intros [= <-]; left; auto|].
  destruct (java_archive H) as [[java_url archive_ext]|]; [|discriminate].
  destruct (tree_exists U (files w) (extracted_java_folder H));
    [intros [= <-]; left; auto|].
  intros Hrun. right.
  destruct (urlretrieve H (JStr java_url) _ w) as [w1 [[]|]] eqn:Hget;
    [|discriminate].
  destruct (unpack_java H U _ w1) as [w2 [[]|]] eqn:Hunpack; [|discriminate].
  destruct (os_remove _ w2) as [w3 [[]|]] eqn:Hrm; [|discriminate].
  injection Hrun as <-.
  destruct (urlretrieve_done H java_url _ w w1 Hget) as (body & Hn & Htr & ->).
  exists java_url, archive_ext, body, w2. cbv zeta.
  split; [reflexivity|]. split; [exact Hn|]. split; [exact Htr|].
  split; [exact Hget|]. split; [exact Hunpack|]. split; [exact Hrm|].
  exact (os_remove_done _ _ _ Hrm).
Qed.

Lemma java_install_requests_witness :
  requests (fst (install_java_if_needed installing_host sample_unpacker
                   world_without_jar))
  = [UrlRetrieve java_url_linux].
Proof.
  apply (proj2 (java_install_requests installing_host sample_unpacker
                  world_without_jar)
           eq_refl eq_refl java_url_linux ".tar.gz" eq_refl).
Defined.

Lemma java_install_success_witness :
  let after :=
    fst (install_java_if_needed installing_host sample_unpacker
           world_without_jar) in
  (after = world_without_jar /\
   (is_java_installed installing_host (files world_without_jar) 21 = true \/
    tree_exists sample_unpacker (files world_without_jar)
      (extracted_java_folder installing_host) = true)) \/
  exists java_url archive_ext body w2,
    java_archive installing_host = Some (java_url, archive_ext) /\
    network installing_host java_url = Some body /\
    truncated installing_host java_url = None /\
    let archive_path := java_archive_path installing_host archive_ext in
    let w1 := after_kept_download java_url archive_path body
                world_without_jar in
    urlretrieve installing_host (JStr java_url) archive_path world_without_jar
    = (w1, Ret tt) /\
    unpack_java installing_host sample_unpacker archive_path w1
    = (w2, Ret tt) /\
    os_remove archive_path w2 = (after, Ret tt) /\
    files after !! archive_path = None.
Proof.
  apply (java_install_success installing_host sample_unpacker
           world_without_jar).
  vm_compute. reflexivity.
Defined.

Lemma download_version_files_total (H : host) (fuel : nat)
    (version_id : string) (version_url : json) (w : world) :
  exists r,
    download_version_files H (S (S fuel)) version_id version_url w = Some r.
Proof.
  destruct (files w !! version_json_path H version_id) as [[data|]|] eqn:Hf.
  - destruct (json_load H data) as [d|] eqn:Hd.
    + rewrite (download_version_files_local H _ version_id version_url d data
                 w Hf Hd). eauto.
    + rewrite (download_version_files_repair H fuel version_id version_url
                 data w Hf Hd).
      destruct (download_version_files_fresh H 0 version_id version_url
                  {| files := delete (version_json_path H version_id)
                                (files w);
                     requests := requests w |}
                  (lookup_delete_eq _ _)) as [_ [r Hr]].
      rewrite Hr. cbn [option_map]. eauto.
  - rewrite (download_version_files_dir H _ version_id version_url w Hf).
    eauto.
  - destruct (download_version_files_fresh H (S fuel) version_id version_url
                w Hf) as [-> Hex]. exact Hex.
Qed.

(** The launch returns, and two units of fuel are as good as more. *)
Lemma prepare_and_launch_total (H : host) (U : unpacker) (fuel : nat)
    (st : app) (c : cheats) (selected_version raw_username : string)
    (ram_gb : Z) (w : world) :
  (exists r,
     prepare_and_launch H U (S (S fuel)) st c selected_version raw_username
       ram_gb w = Some r) /\
  prepare_and_launch H U (S (S fuel)) st c selected_version raw_username
    ram_gb w
  = prepare_and_launch H U 2 st c selected_version raw_username ram_gb w.
Proof.
  unfold prepare_and_launch.
  destruct (String.eqb selected_version ""); [split; eauto|].
  cbv zeta.
  destruct (String.eqb (strip raw_username) ""
            || String.eqb (strip raw_username) "Enter Username");
    [split; eauto|].
  destruct (install_java_if_needed H U w) as [w1 installed].
  destruct (negb installed); [split; eauto|].
  destruct (negb (truthy _)); [split; eauto|].
  rewrite (download_version_files_fuel H fuel).
  split; [|reflexivity].
  destruct (download_version_files_total H 0 selected_version
              (dict_get (JStr selected_version) (versions st)) w1)
    as [[w2 [downloaded|]] ->]; [|eauto].
  destruct (negb downloaded); [eauto|].
  destruct (build_launch_command H c _ selected_version _ ram_gb)
    as [[|a cmd]|]; eauto.
Qed.

(** X18: what is launched is ready to run.  Whenever [prepare_and_launch]
    reaches [subprocess.Popen], the selected version is not empty, the
    user name, stripped, is neither empty nor the placeholder, the
    installer answered [True], the table of versions gives a truthy
    address for the selection, the acquisition from that address returned
    [True], the options file was rewritten after it with a cap of 60, and
    the command was built on the files this leaves: the Java check of the
    builder succeeded on them, the command starts with the executable the
    builder chose (the managed one whenever it exists) and every path of
    its classpath exists, the last one being the main archive. *)
Theorem launch_is_ready (H : host) (U : unpacker) (fuel : nat) (st : app)
    (c : cheats) (selected_version raw_username : string) (ram_gb : Z)
    (w w' : world) (launch_cmd : list json) :
  prepare_and_launch H U fuel st c selected_version raw_username ram_gb w
  = Some (w', Ret (Some launch_cmd)) ->
  selected_version <> "" /\
  strip raw_username <> "" /\ strip raw_username <> "Enter Username" /\
  truthy (dict_get (JStr selected_version) (versions st)) = true /\
  (exists w1 w2,
     install_java_if_needed H U w = (w1, true) /\
     download_version_files H fuel selected_version
       (dict_get (JStr selected_version) (versions st)) w1
     = Some (w2, Ret true) /\
     w' = modify_options_txt H 60 w2) /\
  build_launch_command H c (files w') selected_version (strip raw_username)
    ram_gb = Ret launch_cmd /\
  is_java_installed H (files w') 21 = true /\
  (exists java_path jvm libs main_class game,
     java_choice H (files w') = Some java_path /\
     (forall nd, files w' !! local_java_path H = Some nd ->
                 java_path = local_java_path H) /\
     launch_cmd
     = command_head H selected_version ram_gb java_path ++ jvm
       ++ cheat_args c
       ++ [JStr "-cp";
           JStr (str_join (pathsep H)
                   (libs ++ [version_jar_path H selected_version]));
           main_class] ++ game /\
     Forall (present (files w'))
       (libs ++ [version_jar_path H selected_version])).
Proof.
  unfold prepare_and_launch.
  destruct (String.eqb selected_version "") eqn:Hsel; [discriminate|].
  cbv zeta.
  destruct (String.eqb (strip raw_username) "") eqn:Hu1; [discriminate|].
  destruct (String.eqb (strip raw_username) "Enter Username") eqn:Hu2;
    [discriminate|].
  cbn [orb].
  destruct (install_java_if_needed H U w) as [w1 installed] eqn:Hinst.
  destruct installed; cbn [negb]; [|discriminate].
  destruct (truthy (dict_get (JStr selected_version) (versions st))) eqn:Hurl;
    cbn [negb]; [|discriminate].
  destruct (download_version_files H fuel selected_version _ w1)
    as [[w2 [downloaded|]]|] eqn:Hdl; [|discriminate|discriminate].
  destruct downloaded; cbn [negb]; [|discriminate].
  destruct (build_launch_command H c _ selected_version _ ram_gb)
    as [[|a cmd]|] eqn:Hb; [discriminate| |discriminate].
  intros [= <- <-].
  apply String.eqb_neq in Hsel, Hu1, Hu2.
  split; [exact Hsel|]. split; [exact Hu1|]. split; [exact Hu2|].
  split; [reflexivity|].
  split; [exists w1, w2; split; [first [reflexivity | assumption]|];
          split; first [reflexivity | assumption]|].
  split; [exact Hb|].
  destruct (build_launch_command_inv H c _ selected_version _ ram_gb
              (a :: cmd) Hb ltac:(discriminate))
    as (data & d & java_path & main_class & libs & classpath & jvm & game
        & _ & _ & Hj & _ & _ & _ & Hcp & Hjar & _ & _ & Hcmd).
  assert (Hjava : is_java_installed H (files (modify_options_txt H 60 w2)) 21
                  = true /\
                  forall nd,
                    files (modify_options_txt H 60 w2) !! local_java_path H
                    = Some nd -> java_path = local_java_path H).
  { unfold java_choice in Hj.
    destruct (files (modify_options_txt H 60 w2) !! local_java_path H),
      (is_java_installed H (files (modify_options_txt H 60 w2)) 21);
      try discriminate; injection Hj as <-; split; try reflexivity;
      intros nd; congruence. }
  split; [exact (proj1 Hjava)|].
  exists java_path, jvm, classpath, main_class, game.
  split; [exact Hj|]. split; [exact (proj2 Hjava)|]. split; [exact Hcmd|].
  apply Forall_app. split.
  - apply (classpath_libraries_present H _ _ libs classpath Hcp).
  - constructor; [exact Hjar | constructor].
Qed.

Lemma launch_is_ready_witness :
  build_launch_command offline_host speed_only
    (files (modify_options_txt offline_host 60 cached_world)) "1.21"
    (strip "  Steve ") 4 = Ret sample_command /\
  is_java_installed offline_host
    (files (modify_options_txt offline_host 60 cached_world)) 21 = true.
Proof.
  assert (Hrun : prepare_and_launch offline_host sample_unpacker 2
                   known_versions speed_only "1.21" "  Steve " 4 cached_world
                 = Some (modify_options_txt offline_host 60 cached_world,
                         Ret (Some sample_command)))
    by (vm_compute; reflexivity).
  destruct (launch_is_ready offline_host sample_unpacker 2 known_versions
              speed_only "1.21" "  Steve " 4 cached_world _ sample_command
              Hrun) as (_ & _ & _ & _ & _ & Hbuild & Hjava & _).
  split; [exact Hbuild | exact Hjava].
Defined.

(** * The table of versions and the order of the categories *)

Lemma dict_find_set_same (s : string) (url : json) (d : list (json * json)) :
  dict_find (JStr s) (dict_set (JStr s) url d) = Some url.
Proof.
  induction d as [|[k0 v0] d IH]; cbn [dict_set dict_find].
  - cbn [scalar_eq]. rewrite String.eqb_refl. reflexivity.
  - destruct (scalar_eq (JStr s) k0) eqn:Hk; cbn [dict_find]; rewrite Hk;
      [reflexivity | exact IH].
Qed.

Lemma dict_find_set_other (s n : string) (url : json)
    (d : list (json * json)) :
  s <> n ->
  dict_find (JStr s) (dict_set (JStr n) url d) = dict_find (JStr s) d.
Proof.
  intros Hne. apply String.eqb_neq in Hne.
  induction d as [|[k0 v0] d IH]; cbn [dict_set dict_find].
  - cbn [scalar_eq]. rewrite Hne. reflexivity.
  - destruct (scalar_eq (JStr n) k0) eqn:Hk; cbn [dict_find].
    + rewrite scalar_eq_str in Hk. apply json_eq_str_true in Hk. subst k0.
      cbn [scalar_eq]. rewrite Hne. reflexivity.
    + rewrite IH. reflexivity.
Qed.

Lemma classify_versions (lr ls v : json) (st st' : app) (n : string) :
  classify lr ls v st = (st', Ret tt) ->
  py_getitem v "id" = Ret (JStr n) ->
  exists url,
    py_getitem v "url" = Ret url /\
    versions st' = dict_set (JStr n) url (versions st).
Proof.
  intros Hc Hid. unfold classify in Hc. rewrite Hid in Hc.
  destruct (py_getitem v "url") as [url|]; cbn [bind hashable] in Hc;
    [|discriminate].
  exists url. split; [reflexivity|].
  destruct (scalar_eq (JStr n) lr); [injection Hc as <-; reflexivity|].
  destruct (scalar_eq (JStr n) ls); [injection Hc as <-; reflexivity|].
  destruct (py_getitem v "type") as [ty|]; [|discriminate].
  repeat
    (match type of Hc with
     | context [if json_eq_str ty ?t then _ else _] =>
         destruct (json_eq_str ty t)
     end;
     [injection Hc as <-; reflexivity|]).
  injection Hc as <-. reflexivity.
Qed.

Lemma classify_all_versions (lr ls : json) (vs : list json)
    (names : list string) :
  Forall2 (fun v n => py_getitem v "id" = Ret (JStr n)) vs names ->
  NoDup names ->
  forall st st',
    classify_all lr ls vs st = (st', Ret tt) ->
    (forall v s, In v vs -> py_getitem v "id" = Ret (JStr s) ->
       exists url,
         py_getitem v "url" = Ret url /\
         dict_find (JStr s) (versions st') = Some url) /\
    (forall s, s ∉ names ->
       dict_find (JStr s) (versions st') = dict_find (JStr s) (versions st)).
Proof.
  induction 1 as [|v n vs names Hid _ IH]; intros Hnd st st' Hc.
  - injection Hc as <-. split; [intros v s []|reflexivity].
  - cbn [classify_all] in Hc.
    destruct (classify lr ls v st) as [st1 [[]|]] eqn:Hv; [|discriminate].
    apply NoDup_cons in Hnd as [Hn Hnd].
    destruct (IH Hnd st1 st' Hc) as [IH1 IH2].
    destruct (classify_versions lr ls v st st1 n Hv Hid) as (url & Hurl & Hvs).
    split.
    + intros v' s [<- | Hin] Hid'.
      * rewrite Hid in Hid'. injection Hid' as <-.
        exists url. split; [exact Hurl|].
        rewrite (IH2 n Hn), Hvs. apply dict_find_set_same.
      * exact (IH1 v' s Hin Hid').
    + intros s Hs. apply not_elem_of_cons in Hs as [Hsn Hs].
      rewrite (IH2 s Hs), Hvs. apply dict_find_set_other, Hsn.
Qed.

(** X19: every listed version has its address.  After a successful load
    of a manifest whose listed identifiers are pairwise distinct strings,
    the table of versions gives for each of them the address of its own
    entry, and gives nothing for a string that is no listed identifier,
    whatever the table held before the load. *)
Theorem listed_versions_resolve (manifest : json) (vs : list json)
    (names : list string) (st st' : app) :
  load_version_manifest (Some manifest) st = (st', true) ->
  py_getitem manifest "versions" = Ret (JArr vs) ->
  Forall2 (fun v n => py_getitem v "id" = Ret (JStr n)) vs names ->
  NoDup names ->
  (forall v s, In v vs -> py_getitem v "id" = Ret (JStr s) ->
     exists url,
       py_getitem v "url" = Ret url /\
       dict_find (JStr s) (versions st') = Some url) /\
  (forall s, s ∉ names -> dict_find (JStr s) (versions st') = None).
Proof.
  intros Hload Hvs Hids Hnd. unfold load_version_manifest in Hload.
  destruct (py_getitem manifest "latest") as [latest|]; cbn [bind] in Hload;
    [|discriminate].
  destruct (py_getitem latest "release") as [lr|]; cbn [bind] in Hload;
    [|discriminate].
  destruct (py_getitem latest "snapshot") as [ls|]; cbn [bind] in Hload;
    [|discriminate].
  rewrite Hvs in Hload. cbn [bind py_iter] in Hload.
  destruct (classify_all lr ls vs _) as [st1 [[]|]] eqn:Hc; [|discriminate].
  destruct (sort_categories _) as [c1 [[]|]]; [|discriminate].
  injection Hload as <-. cbn [versions].
  exact (classify_all_versions lr ls vs names Hids Hnd _ st1 Hc).
Qed.

(** *** Order *)

Lemma compare_not_lt_trans (a b c : string) :
  String.compare a b <> Lt -> String.compare b c <> Lt ->
  String.compare a c <> Lt.
Proof.
  revert b c. induction a as [|x a IH]; intros [|y b] [|z c];
    cbn [String.compare]; try congruence.
  unfold Ascii.compare.
  destruct (N.compare_spec (N_of_ascii x) (N_of_ascii y)) as [Hxy|Hxy|Hxy],
           (N.compare_spec (N_of_ascii y) (N_of_ascii z)) as [Hyz|Hyz|Hyz],
           (N.compare_spec (N_of_ascii x) (N_of_ascii z)) as [Hxz|Hxz|Hxz];
    try congruence; try lia.
  apply IH.
Qed.

Lemma ltb_false_trans (a b c : string) :
  String.ltb a b = false -> String.ltb b c = false -> String.ltb a c = false.
Proof.
  unfold String.ltb. intros Hab Hbc.
  pose proof (compare_not_lt_trans a b c) as Ht.
  destruct (String.compare a b), (String.compare b c),
    (String.compare a c); try discriminate; try reflexivity;
    exfalso; apply Ht; congruence.
Qed.

Lemma ltb_asym (a b : string) :
  String.ltb a b = true -> String.ltb b a = false.
Proof.
  unfold String.ltb. rewrite (String.compare_antisym b a).
  destruct (String.compare a b); [discriminate | reflexivity | discriminate].
Qed.

Lemma not_below_trans (x y z : json) :
  not_below x y = true -> not_below y z = true -> not_below x z = true.
Proof.
  unfold not_below, py_lt.
  destruct x as [| bx | nx | sx | |], y as [| by_ | ny | sy | |],
           z as [| bz | nz | sz | |]; cbn [num_val];
    try discriminate;
    try (destruct (String.ltb sx sy) eqn:H1; [discriminate|];
         destruct (String.ltb sy sz) eqn:H2; [discriminate|];
         rewrite (ltb_false_trans sx sy sz H1 H2); reflexivity);
    intros H1 H2;
    repeat match goal with
           | H : context [Z.ltb ?a ?b] |- _ =>
               destruct (Z.ltb_spec a b); [discriminate H|]; clear H
           end;
    match goal with
    | |- context [Z.ltb ?a ?b] =>
        destruct (Z.ltb_spec a b); [exfalso; lia | reflexivity]
    end.
Qed.

Lemma not_below_asym (x y : json) :
  py_lt x y = Ret true -> not_below y x = true.
Proof.
  unfold not_below, py_lt.
  destruct x as [| bx | nx | sx | |], y as [| by_ | ny | sy | |];
    cbn [num_val]; try discriminate;
    try (intros [= Hlt]; rewrite (ltb_asym _ _ Hlt); reflexivity);
    intros [= Hlt]; apply Z.ltb_lt in Hlt;
    match goal with
    | |- context [Z.ltb ?a ?b] =>
        destruct (Z.ltb_spec a b); [exfalso; lia | reflexivity]
    end.
Qed.

Lemma insert_desc_descending (x : json) (sorted l : list json) :
  descending sorted = true -> insert_desc x sorted = Ret l ->
  descending l = true /\
  forall p, forallb p sorted = true -> p x = true -> forallb p l = true.
Proof.
  revert l. induction sorted as [|y rest IH]; intros l Hd Hi;
    cbn [insert_desc] in Hi.
  - injection Hi as <-. split; [reflexivity|].
    intros p _ Hx. cbn [forallb]. rewrite Hx. reflexivity.
  - cbn [descending] in Hd. apply andb_prop in Hd as [Hy Hd].
    destruct (py_lt x y) as [[|]|] eqn:Hlt; cbn [bind] in Hi;
      [| |discriminate].
    + destruct (insert_desc x rest) as [rest'|] eqn:Hr; cbn [bind] in Hi;
        [|discriminate].
      injection Hi as <-. destruct (IH rest' Hd eq_refl) as [Hd' Hall].
      split.
      * cbn [descending].
        rewrite (Hall (not_below y) Hy (not_below_asym x y Hlt)), Hd'.
        reflexivity.
      * intros p Hp Hx. cbn [forallb] in Hp |- *.
        apply andb_prop in Hp as [Hpy Hp].
        rewrite Hpy, (Hall p Hp Hx). reflexivity.
    + injection Hi as <-.
      assert (Hxy : not_below x y = true)
        by (unfold not_below; rewrite Hlt; reflexivity).
      split.
      * cbn [descending forallb]. rewrite Hxy, Hy, Hd.
        rewrite andb_true_r. cbn [andb].
        apply forallb_forall. intros z Hz.
        apply (not_below_trans x y z Hxy).
        exact (proj1 (forallb_forall _ _) Hy z Hz).
      * intros p Hp Hx. cbn [forallb] in Hp |- *. rewrite Hx, Hp.
        reflexivity.
Qed.

Lemma sort_reverse_descending (l sorted : list json) :
  sort_reverse l = Ret sorted -> descending sorted = true.
Proof.
  revert sorted. induction l as [|x l IH]; intros sorted Hs;
    cbn [sort_reverse] in Hs.
  - injection Hs as <-. reflexivity.
  - destruct (sort_reverse l) as [r|]; cbn [bind] in Hs; [|discriminate].
    exact (proj1 (insert_desc_descending x r sorted (IH r eq_refl) Hs)).
Qed.


Lemma listed_versions_resolve_witness :
  exists url,
    py_getitem
      (manifest_entry "1.9" "release" "https://meta.example/1.9.json") "url"
    = Ret url /\
    dict_find (JStr "1.9")
      (versions
         (fst (load_version_manifest (Some (sample_manifest listed_releases))
                 known_versions)))
    = Some url.
Proof.
  assert (Hnd : NoDup ["1.20.6"; "1.21"; "1.9"; "1.10"; "24w33a"]).
  { repeat (apply NoDup_cons_2; [vm_compute; intros Hin;
      repeat (apply elem_of_cons in Hin as [Hin | Hin]; [discriminate Hin|]);
      inversion Hin|]). apply NoDup_nil_2. }
  apply (proj1 (listed_versions_resolve (sample_manifest listed_releases)
                  listed_releases ["1.20.6"; "1.21"; "1.9"; "1.10"; "24w33a"]
                  known_versions
                  (fst (load_version_manifest
                          (Some (sample_manifest listed_releases))
                          known_versions))
                  ltac:(vm_compute; reflexivity) eq_refl
                  ltac:(repeat constructor) Hnd)).
  - cbn. tauto.
  - reflexivity.
Defined.


(** The order is the order of strings, not of version numbers. *)
Example releases_in_string_order :
  members Release
    (version_categories
       (fst (load_version_manifest (Some (sample_manifest listed_releases))
               empty_app)))
  = [JStr "1.9"; JStr "1.20.6"; JStr "1.10"].
Proof. vm_compute. reflexivity. Qed.

(** * Platform flags of the launch plan *)

Lemma all_strings_snoc (l : list json) (parts : list string) (s : string) :
  all_strings l = Ret parts ->
  all_strings (l ++ [JStr s]) = Ret (parts ++ [s]).
Proof.
  revert parts. induction l as [|x l IH]; intros parts Hl.
  - injection Hl as <-. reflexivity.
  - rewrite <- app_comm_cons. cbn [all_strings] in Hl |- *.
    destruct (as_str x) as [sx|]; cbn [bind] in Hl |- *; [|discriminate].
    destruct (all_strings l) as [more|]; cbn [bind] in Hl; [|discriminate].
    injection Hl as <-. rewrite (IH more eq_refl). reflexivity.
Qed.

Lemma str_contains_suffix (needle before : string) :
  str_contains needle (before ++ needle) = true.
Proof.
  induction before as [|c before IH].
  - rewrite str_app_nil. destruct needle as [|c needle]; [reflexivity|].
    cbn [str_contains]. rewrite <- (str_app_nil_r (String c needle)) at 2.
    rewrite prefix_self_app. reflexivity.
  - rewrite str_app_cons. cbn [str_contains]. rewrite IH.
    apply orb_true_r.
Qed.

Lemma str_join_snoc (sep : string) (parts : list string) (s : string) :
  exists before, str_join sep (parts ++ [s]) = (before ++ s)%string.
Proof.
  induction parts as [|p parts [before IH]].
  - exists "". reflexivity.
  - destruct parts as [|q parts].
    + exists (p ++ sep)%string. cbn [List.app str_join].
      rewrite str_app_assoc. reflexivity.
    + exists (p ++ sep ++ before)%string.
      change (str_join sep ((p :: q :: parts) ++ [s]))
        with (p ++ sep ++ str_join sep ((q :: parts) ++ [s]))%string.
      rewrite IH, !str_app_assoc. reflexivity.
Qed.

(** X21: a platform flag is added once.  On macOS, after the step that
    adds a flag the text of the runtime arguments, joined with spaces,
    contains the flag, and running the step again adds nothing; on every
    other platform the step leaves the arguments as they are. *)
Theorem darwin_flag_once (H : host) (flag : string)
    (jvm_args jvm_args' : list json) :
  add_on_darwin H flag jvm_args = Ret jvm_args' ->
  (platform_system H <> "Darwin" -> jvm_args' = jvm_args) /\
  (platform_system H = "Darwin" ->
   exists parts,
     all_strings jvm_args' = Ret parts /\
     str_contains flag (str_join " " parts) = true /\
     add_on_darwin H flag jvm_args' = Ret jvm_args').
Proof.
  unfold add_on_darwin. intros Ha.
  destruct (String.eqb (platform_system H) "Darwin") eqn:Hos.
  - split; [intros Hne; apply String.eqb_eq in Hos; contradiction|].
    intros _.
    destruct (all_strings jvm_args) as [parts|] eqn:Hp; cbn [bind] in Ha;
      [|discriminate].
    destruct (str_contains flag (str_join " " parts)) eqn:Hc;
      cbn [negb] in Ha; injection Ha as <-.
    + exists parts. rewrite Hp. cbn [bind]. rewrite Hc. auto.
    + exists (parts ++ [flag]).
      rewrite (all_strings_snoc jvm_args parts flag Hp). cbn [bind].
      destruct (str_join_snoc " " parts flag) as [before ->].
      rewrite str_contains_suffix. auto.
  - split; [intros _; injection Ha as <-; reflexivity|].
    intros Hd. apply String.eqb_neq in Hos. contradiction.
Qed.

Lemma darwin_flag_once_witness :
  exists parts,
    all_strings [JStr "-Xss1M"; JStr "-XstartOnFirstThread"] = Ret parts /\
    str_contains "-XstartOnFirstThread" (str_join " " parts) = true /\
    add_on_darwin mac_host "-XstartOnFirstThread"
      [JStr "-Xss1M"; JStr "-XstartOnFirstThread"]
    = Ret [JStr "-Xss1M"; JStr "-XstartOnFirstThread"].
Proof.
  apply (proj2 (darwin_flag_once mac_host "-XstartOnFirstThread"
                  [JStr "-Xss1M"] [JStr "-Xss1M"; JStr "-XstartOnFirstThread"]
                  eq_refl)).
  reflexivity.
Defined.
